(** * build.js: artifact link resolution, cached download, orchestration

    A shallow embedding of [src/build.js] and the properties of its three
    parts: [generateDownloadLink] (the link resolver), [downloadFile] (the
    downloader) and [installAllSoftware] (the orchestrator).

    What is modelled and how:
    - JavaScript values that reach the script (parsed JSON, header values,
      inherited properties) are the inductive [Value]; [!x] is
      [negb (truthy x)]. A template literal [`${x}`] converts [x] with
      [ToString], which is partial: on an object with an own [toString] key,
      or an array that holds one, the conversion throws a TypeError.
    - [downloadPrefixes] is an object literal, so [downloadPrefixes[k]] is a
      property read: own keys first (a [gmap]), then [Object.prototype].
    - Errors are the [Error] type, one constructor per [new Error(...)] of the
      script and one for errors raised by the runtime; [message] gives the
      text of [error.message].
    - A call returns, throws, never settles, or dies with the process: an
      ['error'] event that nothing listens for is an uncaught exception
      ([Crash]).
    - The file system is a finite map from the paths of the regular files to
      their contents, the set of the directories, and the set of paths on
      which the operating system refuses to create a directory, unlink or
      rename. [fs.access] is modelled on regular files: a download whose
      destination is itself a directory is outside the model.
    - The network is a script: the list of what each successive call meets
      once it has called [https.get]. This includes the two events the script
      has no listener for: the temporary file that cannot be opened (the write
      stream emits ['error']) and the body of a response that stops arriving
      (the response, not the request, reports it). A request issued when the
      script is exhausted is never answered, and the promise stays pending
      ([Hang]). A request has one event: what a request emits after its
      promise has settled is left out.
    - The console is the list of the calls to [console.log] and
      [console.error], each by its arguments. What the ['data'] and ['end']
      handlers write to [process.stdout] (the progress display) is left out:
      it depends on how the body is chunked and on floating-point formatting
      ([formatBytes]).
    - [path] is Node's POSIX implementation.
    - Text is held in UTF-8 (a lone surrogate as its three bytes). *)

From Stdlib Require Import ZArith NArith String Ascii List DecimalString Lia.
From stdpp Require Import gmap strings list.

Open Scope string_scope.

Local Set Warnings "-register-all".

(** ** JavaScript values *)

Inductive Value : Type :=
| VUndefined
| VNull
| VBool (b : bool)
| VNum (shown : string)   (* a number, by the text ToString gives for it *)
| VStr (s : string)
| VArr (items : list Value)
| VObj (entries : list (string * Value))  (* own properties, in Object.entries order *)
| VNative (shown : string). (* a built-in function or object, by its ToString *)

(** [Object.hasOwn] on the own properties of a parsed object. *)
Definition hasOwn (key : string) (entries : list (string * Value)) : bool :=
  existsb (fun entry => fst entry =? key) entries.

(** The conversion a template literal applies; [None] is the TypeError
    "Cannot convert object to primitive value". An object is converted by its
    [toString] method, the inherited one unless it has an own [toString]
    property; in parsed JSON such a property is never a function, [valueOf]
    then answers the object itself, and the conversion throws. An array is
    converted by [Array.prototype.join], which converts each element and
    gives the empty string for [undefined] and [null]. *)
Fixpoint ToString (v : Value) : option string :=
  match v with
  | VUndefined => Some "undefined"
  | VNull => Some "null"
  | VBool true => Some "true"
  | VBool false => Some "false"
  | VNum shown => Some shown
  | VStr s => Some s
  | VArr items =>
      option_map (String.concat ",")
        ((fix joined (items : list Value) : option (list string) :=
            match items with
            | [] => Some []
            | item :: rest =>
                match match item with
                      | VUndefined | VNull => Some ""
                      | _ => ToString item
                      end, joined rest with
                | Some shown, Some others => Some (shown :: others)
                | _, _ => None
                end
            end) items)
  | VObj entries => if hasOwn "toString" entries then None else Some "[object Object]"
  | VNative shown => Some shown
  end.

Definition truthy (v : Value) : bool :=
  match v with
  | VUndefined | VNull => false
  | VBool b => b
  | VNum shown => negb ((shown =? "0") || (shown =? "NaN"))
  | VStr s => negb (s =? "")
  | VArr _ | VObj _ | VNative _ => true
  end.

(** The properties every object literal inherits from [Object.prototype],
    with the text their value converts to. *)
Definition nativeFunction (name : string) : string :=
  "function " +:+ name +:+ "() { [native code] }".

Definition objectPrototype : list (string * string) :=
  [ ("constructor", nativeFunction "Object");
    ("__defineGetter__", nativeFunction "__defineGetter__");
    ("__defineSetter__", nativeFunction "__defineSetter__");
    ("hasOwnProperty", nativeFunction "hasOwnProperty");
    ("__lookupGetter__", nativeFunction "__lookupGetter__");
    ("__lookupSetter__", nativeFunction "__lookupSetter__");
    ("isPrototypeOf", nativeFunction "isPrototypeOf");
    ("propertyIsEnumerable", nativeFunction "propertyIsEnumerable");
    ("toString", nativeFunction "toString");
    ("valueOf", nativeFunction "valueOf");
    ("__proto__", "[object Object]");
    ("toLocaleString", nativeFunction "toLocaleString") ].

Fixpoint assoc (key : string) (l : list (string * string)) : option string :=
  match l with
  | [] => None
  | (k, v) :: rest => if k =? key then Some v else assoc key rest
  end.

(** [obj[key]] for an object literal whose own properties are [own]. *)
Definition getProperty (own : gmap string string) (key : string) : Value :=
  match own !! key with
  | Some s => VStr s
  | None =>
      match assoc key objectPrototype with
      | Some shown => VNative shown
      | None => VUndefined
      end
  end.

(** ** Errors and outcomes *)

Inductive Error : Type :=
| UnsupportedSoftware (software : string)
| UnsupportedPlatform (family platform : string)
| DownloadHTTPError (statusCode : Z)
| NodeError (msg : string).  (* raised by the runtime: fs, https, TypeError *)

Definition showZ (z : Z) : string := NilZero.string_of_int (Z.to_int z).

Definition message (e : Error) : string :=
  match e with
  | UnsupportedSoftware software => "Unsupported software: " +:+ software
  | UnsupportedPlatform family platform =>
      "Unsupported platform for " +:+ family +:+ ": " +:+ platform
  | DownloadHTTPError statusCode => "下载失败，状态码: " +:+ showZ statusCode
  | NodeError msg => msg
  end.

(** The TypeError of a conversion that throws. *)
Definition cannotConvert : Error :=
  NodeError "Cannot convert object to primitive value".

(** How a call ends: it returns (a promise resolves), it throws (a promise
    rejects), it never settles, or an error that nothing handles ends the
    process while the call is pending. *)
Inductive Outcome (A : Type) : Type :=
| Return (a : A)
| Throw (e : Error)
| Hang
| Crash (e : Error).
Arguments Return {A} a.
Arguments Throw {A} e.
Arguments Hang {A}.
Arguments Crash {A} e.

(** ** The world outside the script *)

Record World : Type := mkWorld {
  files : gmap string string;   (* regular files: path -> content *)
  dirs : gset string;           (* the directories that exist *)
  denied : gset string;         (* paths with mkdir / unlink / rename refused *)
  requests : list Value;        (* arguments of the https.get calls so far *)
  console : list (list string)  (* the console calls so far, by their arguments *)
}.

(** [console.log(line)] *)
Definition console_log (line : string) (w : World) : World :=
  mkWorld (files w) (dirs w) (denied w) (requests w) (console w ++ [[line]]).

(** [console.error(text, detail)] *)
Definition console_error (text detail : string) (w : World) : World :=
  mkWorld (files w) (dirs w) (denied w) (requests w) (console w ++ [[text; detail]]).

Definition set_files (fs : gmap string string) (w : World) : World :=
  mkWorld fs (dirs w) (denied w) (requests w) (console w).

Definition set_dirs (ds : gset string) (w : World) : World :=
  mkWorld (files w) ds (denied w) (requests w) (console w).

Definition record_request (url : Value) (w : World) : World :=
  mkWorld (files w) (dirs w) (denied w) (requests w ++ [url]) (console w).

(** ** The link resolver *)

Definition downloadPrefixes : gmap string string :=
  <["jdk" := "https://github.com/shenxinli/java-release/releases/download"]>
  (<["redis" := "https://github.com/shenxinli/redis-release/releases/download"]>
  (<["postgresql" := "https://github.com/shenxinli/postgresql-release/releases/download"]>
   ∅)).

(** A template literal with one converted value in it: [text] puts the
    converted value in its place. *)
Definition template (v : Value) (text : string -> string) : Outcome string :=
  match ToString v with
  | Some shown => Return (text shown)
  | None => Throw cannotConvert
  end.

(** [generateDownloadLink] with the prefix table as an argument. *)
Definition generateDownloadLinkIn (prefixes : gmap string string)
    (software : string) (version : Value) (platform arch : string)
    (w : World) : Outcome string * World :=
  let overridden :=
    if (software =? "redis") && (platform =? "windows")
    then match ToString version with
         | Some shown =>
             Some (VStr "5",
                   console_log ("⚠️ Windows 平台的 Redis 固定使用 v5 版本，忽略配置中的 "
                                +:+ shown) w)
         | None => None
         end
    else Some (version, w) in
  match overridden with
  | Some (version, w) =>
      let prefix := getProperty prefixes software in
      if negb (truthy prefix) then (Throw (UnsupportedSoftware software), w)
      else
        let filename : Outcome string :=
          if software =? "postgresql" then
            if platform =? "windows" then
              template version
                (fun shown => "postgresql-" +:+ shown +:+ "-windows-" +:+ arch +:+ ".zip")
            else if platform =? "linux" then
              template version
                (fun shown => "postgresql-" +:+ shown +:+ "-linux-" +:+ arch +:+ ".tar.gz")
            else Throw (UnsupportedPlatform "PostgreSQL" platform)
          else if software =? "redis" then
            if platform =? "windows" then
              template version
                (fun shown => "redis-" +:+ shown +:+ "-windows-" +:+ arch +:+ ".zip")
            else if platform =? "linux" then
              template version
                (fun shown => "redis-" +:+ shown +:+ "-linux-" +:+ arch +:+ ".tar.gz")
            else Throw (UnsupportedPlatform "Redis" platform)
          else if software =? "jdk" then
            if platform =? "windows" then
              template version
                (fun shown => "openjdk-" +:+ shown +:+ "-windows-" +:+ arch +:+ ".zip")
            else if platform =? "linux" then
              template version
                (fun shown => "openjdk-" +:+ shown +:+ "-linux-" +:+ arch +:+ ".tar.gz")
            else Throw (UnsupportedPlatform "JDK" platform)
          else
            template version
              (fun shown => software +:+ "-" +:+ shown +:+ "-" +:+ platform
                            +:+ "-" +:+ arch +:+ ".tar.gz") in
        match filename with
        | Return filename =>
            (match ToString prefix with
             | Some shownPrefix =>
                 template version
                   (fun shown => shownPrefix +:+ "/v" +:+ shown +:+ "/" +:+ filename)
             | None => Throw cannotConvert
             end, w)
        | Throw e => (Throw e, w)
        | Hang => (Hang, w)
        | Crash e => (Crash e, w)
        end
  | None => (Throw cannotConvert, w)
  end.

Definition generateDownloadLink : string -> Value -> string -> string -> World ->
                                  Outcome string * World :=
  generateDownloadLinkIn downloadPrefixes.

(** ** Node's [path] module (POSIX) *)

Module path.

(** The segments between the slashes of a path: [segments "a//b"] is
    ["a"; ""; "b"]. *)
Fixpoint segments (p : string) : list string :=
  match p with
  | EmptyString => [""]
  | String c rest =>
      if Ascii.eqb c "/" then "" :: segments rest
      else match segments rest with
           | seg :: segs => String c seg :: segs
           | [] => [String c ""]
           end
  end.

(** One step of [normalizeString]: [res] is the result so far, last
    segment first. *)
Definition normalizeStep (allowAboveRoot : bool) (res : list string)
    (seg : string) : list string :=
  if (seg =? "") || (seg =? ".") then res
  else if seg =? ".." then
    match res with
    | top :: below =>
        if top =? ".." then (if allowAboveRoot then ".." :: res else res)
        else below
    | [] => if allowAboveRoot then [".."] else []
    end
  else seg :: res.

Definition normalizeString (p : string) (allowAboveRoot : bool) : string :=
  String.concat "/" (rev (fold_left (normalizeStep allowAboveRoot) (segments p) [])).

Definition startsWithSlash (p : string) : bool :=
  match p with
  | String c _ => Ascii.eqb c "/"
  | EmptyString => false
  end.

Fixpoint endsWithSlash (p : string) : bool :=
  match p with
  | EmptyString => false
  | String c EmptyString => Ascii.eqb c "/"
  | String _ rest => endsWithSlash rest
  end.

Definition normalize (p : string) : string :=
  if p =? "" then "."
  else
    let isAbsolute := startsWithSlash p in
    let trailingSeparator := endsWithSlash p in
    let res := normalizeString p (negb isAbsolute) in
    if res =? "" then
      if isAbsolute then "/" else if trailingSeparator then "./" else "."
    else
      let res := if trailingSeparator then res +:+ "/" else res in
      if isAbsolute then "/" +:+ res else res.

Definition join (args : list string) : string :=
  match filter (fun arg => arg ≠ "") args with
  | [] => "."
  | parts => normalize (String.concat "/" parts)
  end.

(** The last non-empty segment, or the empty string. *)
Definition basename (p : string) : string :=
  match filter (fun seg => seg ≠ "") (rev (segments p)) with
  | seg :: _ => seg
  | [] => ""
  end.

Definition isSlash (c : ascii) : bool := Ascii.eqb c "/".

Fixpoint dropWhile (f : ascii -> bool) (l : list ascii) : list ascii :=
  match l with
  | c :: rest => if f c then dropWhile f rest else l
  | [] => []
  end.

Definition dirname (p : string) : string :=
  match list_ascii_of_string p with
  | [] => "."
  | first :: rest =>
      let hasRoot := isSlash first in
      (* scan from the end down to index 1: skip the trailing slashes, then
         the last segment, and stop at the slash before it *)
      let scanned :=
        dropWhile (fun c => negb (isSlash c)) (dropWhile isSlash (rev rest)) in
      match scanned with
      | [] => if hasRoot then "/" else "."
      | _ :: before =>
          if hasRoot && bool_decide (before = []) then "//"
          else string_of_list_ascii (first :: rev before)
      end
  end.

End path.

(** ** File-system and network primitives *)

Definition fs_access (p : string) (w : World) : Outcome unit :=
  match files w !! p with
  | Some _ => Return tt
  | None => Throw (NodeError ("ENOENT: no such file or directory, access '" +:+ p +:+ "'"))
  end.

(** A directory and the directories above it, nearest first, up to the root
    or the working directory. *)
Fixpoint ancestry (fuel : nat) (dir : string) : list string :=
  match fuel with
  | 0 => [dir]
  | S fuel =>
      let parent := path.dirname dir in
      if parent =? dir then [dir] else dir :: ancestry fuel parent
  end.

Definition withAncestors (dir : string) : list string :=
  ancestry (String.length dir) dir.

(** The world in which [dir] and every directory above it exist. *)
Definition withDirectory (dir : string) (w : World) : World :=
  set_dirs (dirs w ∪ list_to_set (withAncestors dir)) w.

(** [fsPromises.mkdir(dir, { recursive: true })]: the directory is created,
    with the directories above it that are missing. *)
Definition fs_mkdir (dir : string) (w : World) : Outcome unit * World :=
  if decide (dir ∈ denied w)
  then (Throw (NodeError ("EACCES: permission denied, mkdir '" +:+ dir +:+ "'")), w)
  else (Return tt, withDirectory dir w).

(** [fs.createWriteStream(p)], when the file can be opened: it is created,
    or emptied. (When it cannot, the stream emits ['error'] later on: the
    event [OpenFails] below.) *)
Definition createWriteStream (p : string) (w : World) : World :=
  set_files (<[p := ""]> (files w)) w.

(** What has been piped into the stream opened on [p]. *)
Definition pipe (p data : string) (w : World) : World :=
  set_files (<[p := data]> (files w)) w.

Definition fs_unlink (p : string) (w : World) : Outcome unit * World :=
  if decide (p ∈ denied w)
  then (Throw (NodeError ("EPERM: operation not permitted, unlink '" +:+ p +:+ "'")), w)
  else match files w !! p with
       | Some _ => (Return tt, set_files (delete p (files w)) w)
       | None =>
           (Throw (NodeError ("ENOENT: no such file or directory, unlink '" +:+ p +:+ "'")), w)
       end.

Definition fs_rename (from to : string) (w : World) : Outcome unit * World :=
  if decide (from ∈ denied w)
  then (Throw (NodeError ("EPERM: operation not permitted, rename '" +:+ from
                          +:+ "' -> '" +:+ to +:+ "'")), w)
  else match files w !! from with
       | Some content =>
           (Return tt, set_files (<[to := content]> (delete from (files w))) w)
       | None =>
           (Throw (NodeError ("ENOENT: no such file or directory, rename '" +:+ from
                              +:+ "' -> '" +:+ to +:+ "'")), w)
       end.

(** What happens to the body of a 200 response. *)
Inductive Body : Type :=
| BodyEnds (data : string)               (* all of it arrives, the write stream finishes *)
| BodyBreaks (received msg : string)     (* the request emits 'error' part-way *)
| BodyStops (received : string).         (* the connection closes part-way: the response
                                            emits 'aborted' and 'error', the request nothing *)

(** What a call meets once it has called [https.get]. *)
Inductive NetEvent : Type :=
| GetThrows (msg : string)               (* the call to https.get itself throws *)
| RequestError (msg : string)            (* the request emits 'error' *)
| OpenFails (msg : string)               (* the temporary file cannot be opened: the
                                            write stream emits 'error' *)
| Response (statusCode : Z) (location : Value) (body : Body).

(** ** The downloader *)

Definition checkFileExists (filePath : string) (w : World) : bool :=
  match fs_access filePath w with
  | Return _ => true
  | _ => false
  end.

(** [`${url}`] in a log line. The URL of a call is a string the resolver
    made, or the [Location] header of a response, a string or [undefined]:
    values whose conversion does not throw. *)
Definition urlText (url : Value) : string :=
  match ToString url with
  | Some shown => shown
  | None => "[object Object]"
  end.

Fixpoint downloadFile (net : list NetEvent) (url : Value) (destinationPath : string)
    (w : World) {struct net} : Outcome string * World * list NetEvent :=
  if checkFileExists destinationPath w then
    (Return destinationPath, console_log ("文件已存在: " +:+ destinationPath) w, net)
  else
    let dirname := path.dirname destinationPath in
    match fs_mkdir dirname w with
    | (Throw e, w) => (Throw e, w, net)
    | (Hang, w) => (Hang, w, net)
    | (Crash e, w) => (Crash e, w, net)
    | (Return _, w) =>
        let tempPath := destinationPath +:+ ".tmp" in
        let unopened := files w in
        let w := createWriteStream tempPath w in
        let w := console_log ("🔄 开始下载: " +:+ urlText url) w in
        let w := console_log ("   目标路径: " +:+ destinationPath) w in
        let w := record_request url w in
        match net with
        | [] => (Hang, w, [])
        | GetThrows msg :: net => (Throw (NodeError msg), w, net)
        | RequestError msg :: net =>
            (* try { await unlink(tempPath) } catch {}; reject(err) *)
            let w := snd (fs_unlink tempPath w) in
            (Throw (NodeError msg), w, net)
        | OpenFails msg :: net =>
            (* nothing listens on fileStream: the error is an uncaught exception *)
            (Crash (NodeError msg), set_files unopened w, net)
        | Response statusCode location body :: net =>
            if (statusCode =? 302)%Z || (statusCode =? 301)%Z then
              let w := console_log ("🔀 重定向至: " +:+ urlText location) w in
              downloadFile net location destinationPath w
            else if negb (statusCode =? 200)%Z then
              (Throw (DownloadHTTPError statusCode), w, net)
            else
              match body with
              | BodyEnds data =>
                  let w := pipe tempPath data w in
                  match fs_rename tempPath destinationPath w with
                  | (Return _, w) =>
                      (Return destinationPath,
                       console_log ("✅ 下载完成: " +:+ destinationPath) w, net)
                  | (Throw err, w) => (Throw err, w, net)
                  | (Hang, w) => (Hang, w, net)
                  | (Crash err, w) => (Crash err, w, net)
                  end
              | BodyBreaks received msg =>
                  let w := pipe tempPath received w in
                  let w := snd (fs_unlink tempPath w) in
                  (Throw (NodeError msg), w, net)
              | BodyStops received =>
                  (* no 'finish' on the stream, no 'error' on the request:
                     neither resolve nor reject is ever called *)
                  (Hang, pipe tempPath received w, net)
              end
        end
    end.

(** ** The orchestrator *)

Definition newline : string := String (ascii_of_nat 10) "".

Definition showNat (n : nat) : string := NilZero.string_of_uint (Nat.to_uint n).

(** The UTF-16 code units of a text, each as a string of its own: what
    indexing a string gives. A character of one to three bytes is one unit; a
    character of four bytes is a surrogate pair, two units. *)
Definition isContinuation (c : ascii) : bool :=
  (128 <=? N_of_ascii c)%N && (N_of_ascii c <? 192)%N.

(** The bytes of the text, a leading byte with its continuation bytes. *)
Definition characters (chars : list ascii) : list (list ascii) :=
  fold_right
    (fun c groups =>
       match groups with
       | (next :: others) :: later =>
           if isContinuation next then (c :: next :: others) :: later
           else [c] :: groups
       | _ => [c] :: groups
       end) [] chars.

(** A surrogate, as three bytes. *)
Definition surrogateBytes (codeUnit : N) : string :=
  string_of_list_ascii
    [ ascii_of_N (N.lor 224 (N.shiftr codeUnit 12));
      ascii_of_N (N.lor 128 (N.land (N.shiftr codeUnit 6) 63));
      ascii_of_N (N.lor 128 (N.land codeUnit 63)) ].

Definition unitsOfCharacter (bytes : list ascii) : list string :=
  match bytes with
  | [b0; b1; b2; b3] =>
      if (240 <=? N_of_ascii b0)%N then
        let codePoint :=
          N.lor (N.shiftl (N.land (N_of_ascii b0) 7) 18)
            (N.lor (N.shiftl (N.land (N_of_ascii b1) 63) 12)
               (N.lor (N.shiftl (N.land (N_of_ascii b2) 63) 6)
                  (N.land (N_of_ascii b3) 63))) in
        let offset := (codePoint - 65536)%N in
        [ surrogateBytes (55296 + N.shiftr offset 10)%N;
          surrogateBytes (56320 + N.land offset 1023)%N ]
      else [string_of_list_ascii bytes]
  | _ => [string_of_list_ascii bytes]
  end.

Definition codeUnits (s : string) : list string :=
  flat_map unitsOfCharacter (characters (list_ascii_of_string s)).

(** [Object.entries(v)]. A string lists its code units under their
    indices. *)
Definition objectEntries (v : Value) : Outcome (list (string * Value)) :=
  match v with
  | VUndefined | VNull =>
      Throw (NodeError "Cannot convert undefined or null to object")
  | VBool _ | VNum _ | VNative _ => Return []
  | VStr s => Return (imap (fun i codeUnit => (showNat i, VStr codeUnit)) (codeUnits s))
  | VArr items => Return (imap (fun i item => (showNat i, item)) items)
  | VObj entries => Return entries
  end.

(** [componentKey.replace(/-version$/, '')] *)
Fixpoint stripVersionSuffix (componentKey : string) : string :=
  if componentKey =? "-version" then ""
  else match componentKey with
       | String c rest => String c (stripVersionSuffix rest)
       | EmptyString => ""
       end.

(** How a run of the orchestrator ends. *)
Inductive Exit : Type :=
| Finished
| ProcessExit (code : Z)
| Stuck                     (* an awaited promise never settles: nothing
                               after the [await] runs *)
| Killed (e : Error).       (* an uncaught exception ended the process *)

(** One (environment, component, version) job and how its [try] block
    ended. *)
Record Report : Type := mkReport {
  r_env : string;
  r_component : string;
  r_version : Value;
  r_result : Outcome string
}.

Section Orchestrator.

(** The directory of the script. *)
Variable __dirname : string.
(** [JSON.parse]: the value, or the message of the SyntaxError. *)
Variable JSON_parse : string -> Value + string.

Definition readConfig (filePath : string) (w : World) : Outcome Value * World :=
  let read :=
    match files w !! filePath with
    | Some data =>
        match JSON_parse data with
        | inl config => Return config
        | inr msg => Throw (NodeError msg)
        end
    | None =>
        Throw (NodeError ("ENOENT: no such file or directory, open '" +:+ filePath +:+ "'"))
    end in
  match read with
  | Throw error => (read, console_error "读取配置文件失败:" (message error) w)
  | _ => (read, w)
  end.

(** Where the orchestrator puts the artifact of [downloadUrl]. *)
Definition destinationFile (arch envName downloadUrl : string) : string :=
  let destinationDir := path.join [__dirname; arch; envName; "bin"] in
  path.join [destinationDir; path.basename downloadUrl].

(** The body of the inner loop: the [try] block, then the [catch]. The
    result is how the [try] block ended. The [catch] builds its line with
    [`${version}`] again: when that conversion throws, nothing is written and
    the TypeError leaves the [catch] (see [installComponents]). *)
Definition installComponent (platform arch envName componentKey : string)
    (version : Value) (net : list NetEvent) (w : World)
    : Outcome string * World * list NetEvent :=
  let component := stripVersionSuffix componentKey in
  let '(attempt, w, net) :=
    match generateDownloadLink component version platform arch w with
    | (Return downloadUrl, w) =>
        let destinationFile := destinationFile arch envName downloadUrl in
        match template version
                (fun shown => newline +:+ "🔍 检查 " +:+ component +:+ " v"
                              +:+ shown +:+ "...") with
        | Return checking =>
            let w := console_log checking w in
            let w := console_log ("   下载源: " +:+ downloadUrl) w in
            let w := console_log ("   目标路径: " +:+ destinationFile) w in
            match downloadFile net (VStr downloadUrl) destinationFile w with
            | (Return p, w, net) =>
                match template version
                        (fun shown => "🎉 " +:+ component +:+ " v" +:+ shown
                                      +:+ " 准备就绪") with
                | Return ready => (Return p, console_log ready w, net)
                | Throw e => (Throw e, w, net)
                | Hang => (Hang, w, net)
                | Crash e => (Crash e, w, net)
                end
            | failed => failed
            end
        | Throw e => (Throw e, w, net)
        | Hang => (Hang, w, net)
        | Crash e => (Crash e, w, net)
        end
    | (Throw e, w) => (Throw e, w, net)
    | (Hang, w) => (Hang, w, net)
    | (Crash e, w) => (Crash e, w, net)
    end in
  match attempt with
  | Throw error =>
      match template version
              (fun shown => "❌ " +:+ component +:+ " v" +:+ shown +:+ " 安装失败:") with
      | Return failed => (attempt, console_error failed (message error) w, net)
      | _ => (attempt, w, net)
      end
  | _ => (attempt, w, net)
  end.

(** What the outer [catch] does. *)
Definition fatal (error : Error) (w : World) : Exit * World :=
  (ProcessExit 1, console_error "安装过程中发生严重错误:" (message error) w).

(** The inner loop over the entries of one environment. An error thrown in a
    job is taken by the [catch] of the job and the loop goes on, unless the
    [catch] throws in its turn: that error leaves both loops and reaches the
    outer [catch]. A job whose promise never settles, or during which the
    process dies, is the last one. *)
Fixpoint installComponents (platform arch envName : string)
    (entries : list (string * Value)) (net : list NetEvent) (w : World)
    : Exit * list Report * World * list NetEvent :=
  match entries with
  | [] => (Finished, [], w, net)
  | (componentKey, version) :: rest =>
      let '(attempt, w, net) :=
        installComponent platform arch envName componentKey version net w in
      let report := mkReport envName (stripVersionSuffix componentKey) version attempt in
      let continue :=
        let '(exit, reports, w, net) :=
          installComponents platform arch envName rest net w in
        (exit, report :: reports, w, net) in
      match attempt with
      | Hang => (Stuck, [report], w, net)
      | Crash e => (Killed e, [report], w, net)
      | Throw _ =>
          match ToString version with
          | Some _ => continue
          | None => let '(exit, w) := fatal cannotConvert w in (exit, [report], w, net)
          end
      | Return _ => continue
      end
  end.

(** The outer loop over the environments. *)
Fixpoint installEnvironments (platform arch : string)
    (environments : list (string * Value)) (net : list NetEvent) (w : World)
    : Exit * list Report * World * list NetEvent :=
  match environments with
  | [] => (Finished, [], console_log (newline +:+ "✨ 所有软件检查完成！") w, net)
  | (envName, envConfig) :: rest =>
      let w := console_log (newline +:+ "===== 开始检查 " +:+ envName
                            +:+ " 环境的软件 =====") w in
      match objectEntries envConfig with
      | Return entries =>
          match installComponents platform arch envName entries net w with
          | (Finished, reports, w, net) =>
              let '(exit, later, w, net) :=
                installEnvironments platform arch rest net w in
              (exit, (reports ++ later)%list, w, net)
          | stopped => stopped
          end
      | Throw error => let '(exit, w) := fatal error w in (exit, [], w, net)
      | Hang => (Stuck, [], w, net)
      | Crash error => (Killed error, [], w, net)
      end
  end.

Definition installAllSoftware (configPath platform arch : string)
    (net : list NetEvent) (w : World) : Exit * list Report * World * list NetEvent :=
  match readConfig configPath w with
  | (Return config, w) =>
      match objectEntries config with
      | Return environments => installEnvironments platform arch environments net w
      | Throw error => let '(exit, w) := fatal error w in (exit, [], w, net)
      | Hang => (Stuck, [], w, net)
      | Crash error => (Killed error, [], w, net)
      end
  | (Throw error, w) => let '(exit, w) := fatal error w in (exit, [], w, net)
  | (Hang, w) => (Stuck, [], w, net)
  | (Crash error, w) => (Killed error, [], w, net)
  end.

(** [main]: three passes; [process.exit] ends the program. *)
Definition main (net : list NetEvent) (w : World)
    : Exit * list Report * World * list NetEvent :=
  let configPath := path.join [__dirname; "config.json"] in
  match installAllSoftware configPath "linux" "amd64" net w with
  | (Finished, first, w, net) =>
      match installAllSoftware configPath "linux" "arm64" net w with
      | (Finished, second, w, net) =>
          let '(exit, third, w, net) :=
            installAllSoftware configPath "windows" "x64" net w in
          (exit, (first ++ second ++ third)%list, w, net)
      | (exit, second, w, net) => (exit, (first ++ second)%list, w, net)
      end
  | stopped => stopped
  end.

End Orchestrator.

(** * Vocabulary of the statements *)

(** The world at the moment [https.get] is called: the directory of the
    destination exists, the temporary file is open and empty, two lines are
    written, the request is on record. *)
Definition requestIssued (url : Value) (destinationPath : string) (w : World) : World :=
  record_request url
    (console_log ("   目标路径: " +:+ destinationPath)
       (console_log ("🔄 开始下载: " +:+ urlText url)
          (createWriteStream (destinationPath +:+ ".tmp")
             (withDirectory (path.dirname destinationPath) w)))).

(** A 301 or 302 response. *)
Definition isRedirect (ev : NetEvent) : bool :=
  match ev with
  | Response statusCode _ _ => (statusCode =? 302)%Z || (statusCode =? 301)%Z
  | _ => false
  end.

(** The errors the script listens for, with their message: the ['error']
    event of the request, before a response or while the body of a 200
    response is being piped. *)
Definition requestError (ev : NetEvent) : option string :=
  match ev with
  | RequestError msg => Some msg
  | Response statusCode _ (BodyBreaks _ msg) =>
      if (statusCode =? 200)%Z then Some msg else None
  | _ => None
  end.

(** No character of [s] is a slash. *)
Fixpoint noSlash (s : string) : bool :=
  match s with
  | EmptyString => true
  | String c rest => negb (Ascii.eqb c "/") && noSlash rest
  end.

(** A segment that [normalize] keeps as it is. *)
Definition plainSegment (seg : string) : bool :=
  negb (seg =? "") && negb (seg =? ".") && negb (seg =? "..") && noSlash seg.

(** An absolute path of plain segments, [/a/b/c]: the shape of [__dirname]
    anywhere but in the root directory. *)
Definition isPlainAbsolute (p : string) : bool :=
  match path.segments p with
  | "" :: seg :: segs => forallb plainSegment (seg :: segs)
  | _ => false
  end.

(** The console of [w'] continues that of [w]. *)
Definition extends (w w' : World) : Prop :=
  exists more, console w' = (console w ++ more)%list.

(** A job: environment, component, version. *)
Definition Job : Type := string * string * Value.

Definition reportJob (r : Report) : Job := (r_env r, r_component r, r_version r).

Definition environmentJobs (envName : string) (entries : list (string * Value))
    : list Job :=
  map (fun entry => (envName, stripVersionSuffix (fst entry), snd entry)) entries.

(** The jobs of a configuration, in the order of the loops. An environment
    whose value cannot be enumerated ([null]) makes [Object.entries] throw
    outside every job: the outer [catch] ends the run there. *)
Fixpoint plannedJobs (environments : list (string * Value)) : list Job :=
  match environments with
  | [] => []
  | (envName, envConfig) :: rest =>
      match objectEntries envConfig with
      | Return entries => (environmentJobs envName entries ++ plannedJobs rest)%list
      | _ => []
      end
  end.

Definition configJobs (config : Value) : list Job :=
  match objectEntries config with
  | Return environments => plannedJobs environments
  | _ => []
  end.

(** [Object.entries] accepts the value. *)
Definition isEnumerable (v : Value) : bool :=
  match objectEntries v with
  | Return _ => true
  | _ => false
  end.

Definition allEnumerable (environments : list (string * Value)) : bool :=
  forallb (fun environment => isEnumerable (snd environment)) environments.

(** The job ended inside its [try] and [catch]: it returned, or it threw and
    the [catch] wrote its line (the version converts). The loop goes on after
    such a job. *)
Definition contained (r : Report) : Prop :=
  match r_result r with
  | Return _ => True
  | Throw _ => is_Some (ToString (r_version r))
  | Hang | Crash _ => False
  end.

(** The run ended at this job, and how: the job never settled; the process
    died during it; or it threw and its [catch] threw in turn (the version
    does not convert), which the outer [catch] turns into exit code 1. *)
Definition stopsAt (exit : Exit) (r : Report) : Prop :=
  match r_result r with
  | Return _ => False
  | Throw _ => exit = ProcessExit 1 /\ ToString (r_version r) = None
  | Hang => exit = Stuck
  | Crash e => exit = Killed e
  end.

(** How a run over a plan ends. Either every job of the plan was attempted
    and contained, and the run got to the end of the plan: it finishes, or,
    when the plan is cut short by an environment that cannot be enumerated
    ([broken]), exits with code 1. Or the run stopped at a job, the last one
    reported, every job before it having been contained. *)
Definition runEnds (broken : bool) (planned : list Job) (exit : Exit)
    (reports : list Report) : Prop :=
  (exit = (if broken then ProcessExit 1 else Finished)
   /\ map reportJob reports = planned
   /\ Forall contained reports)
  \/ (exists earlier r,
        reports = (earlier ++ [r])%list
        /\ Forall contained earlier
        /\ stopsAt exit r
        /\ map reportJob reports `prefix_of` planned).

(** The line the [catch] of a job writes for a version that converts to
    [shown]. *)
Definition failureLine (r : Report) (shown : string) (error : Error) : list string :=
  ["❌ " +:+ r_component r +:+ " v" +:+ shown +:+ " 安装失败:"; message error].

(** What a run of a loop guarantees. *)
Definition loopInvariant (broken : bool) (planned : list Job) (w : World)
    (run : Exit * list Report * World * list NetEvent) : Prop :=
  let '(exit, reports, w', _) := run in
  runEnds broken planned exit reports
  /\ extends w w'
  /\ forall r error shown,
       r ∈ reports -> r_result r = Throw error -> ToString (r_version r) = Some shown ->
       failureLine r shown error ∈ console w'.

(** ** Worlds and configurations of the examples *)

Definition emptyWorld : World := mkWorld ∅ ∅ ∅ [] [].

Definition cachedWorld : World :=
  mkWorld {["/srv/amd64/prod/bin/redis-7-linux-amd64.tar.gz" := "REDIS"]}
    (list_to_set (withAncestors "/srv/amd64/prod/bin")) ∅ [] [].

Definition lockedWorld : World := mkWorld ∅ ∅ {["/srv/jdk.tar.gz.tmp"]} [] [].

Definition downloadedWorld : World :=
  mkWorld {["/srv/amd64/prod/bin/openjdk-17-linux-amd64.tar.gz" := "JDK17"]}
    (list_to_set (withAncestors "/srv/amd64/prod/bin")) ∅
    [VStr "https://example.org/a"; VStr "https://example.org/b"]
    [["🔄 开始下载: https://example.org/a"];
     ["   目标路径: /srv/amd64/prod/bin/openjdk-17-linux-amd64.tar.gz"];
     ["🔀 重定向至: https://example.org/b"];
     ["🔄 开始下载: https://example.org/b"];
     ["   目标路径: /srv/amd64/prod/bin/openjdk-17-linux-amd64.tar.gz"];
     ["✅ 下载完成: /srv/amd64/prod/bin/openjdk-17-linux-amd64.tar.gz"]].

Definition prodConfig : Value := VObj [("prod", VObj [("jdk-version", VStr "17")])].

Definition quote : string := String (ascii_of_nat 34) "".

(** The text [{"prod": {"jdk-version": "17"}}]. *)
Definition prodConfigText : string :=
  "{" +:+ quote +:+ "prod" +:+ quote +:+ ": {" +:+ quote +:+ "jdk-version" +:+ quote
  +:+ ": " +:+ quote +:+ "17" +:+ quote +:+ "}}".

Definition parseProdConfig (text : string) : Value + string :=
  if text =? prodConfigText then inl prodConfig
  else inr "Unexpected token in JSON".

Definition configuredWorld : World :=
  mkWorld {["/srv/backend/config.json" := prodConfigText]} {["/"; "/srv"; "/srv/backend"]}
    ∅ [] [].

(** Two environments; nginx is not supported, the redis download gets a 404,
    the jdk download of the later environment succeeds. *)
Definition mixedConfig : Value :=
  VObj [("prod", VObj [("nginx-version", VStr "1.25"); ("redis-version", VStr "7")]);
        ("staging", VObj [("jdk-version", VNum "17")])].

Definition mixedConfigText : string :=
  "{" +:+ quote +:+ "prod" +:+ quote +:+ ": {" +:+ quote +:+ "nginx-version" +:+ quote
  +:+ ": " +:+ quote +:+ "1.25" +:+ quote +:+ ", " +:+ quote +:+ "redis-version" +:+ quote
  +:+ ": " +:+ quote +:+ "7" +:+ quote +:+ "}, " +:+ quote +:+ "staging" +:+ quote
  +:+ ": {" +:+ quote +:+ "jdk-version" +:+ quote +:+ ": 17}}".

Definition parseMixedConfig (text : string) : Value + string :=
  if text =? mixedConfigText then inl mixedConfig
  else inr "Unexpected token in JSON".

Definition mixedWorld : World :=
  mkWorld {["/srv/backend/config.json" := mixedConfigText]} {["/"; "/srv"; "/srv/backend"]}
    ∅ [] [].

(** A version that cannot be converted to a string: the parsed
    [{"toString": 1}]. *)
Definition opaqueVersion : Value := VObj [("toString", VNum "1")].

(** A version of 300 characters: the name of the temporary file is longer
    than a file name may be, and it cannot be opened. *)
Definition longVersion : string := string_of_list_ascii (repeat "9"%char 300).

(** Two jobs; the jdk version is [version]. *)
Definition pairConfig (version : Value) : Value :=
  VObj [("prod", VObj [("jdk-version", version); ("redis-version", VStr "7")])].

Definition pairConfigText : string := "{ prod: jdk and redis }".

Definition parsePairConfig (version : Value) (text : string) : Value + string :=
  if text =? pairConfigText then inl (pairConfig version)
  else inr "Unexpected token in JSON".

Definition pairWorld : World :=
  mkWorld {["/srv/backend/config.json" := pairConfigText]} {["/"; "/srv"; "/srv/backend"]}
    ∅ [] [].

(** ** Vocabulary of the further properties *)

Definition supportedSoftware (software : string) : bool :=
  (software =? "jdk") || (software =? "redis") || (software =? "postgresql").

Definition supportedPlatform (platform : string) : bool :=
  (platform =? "linux") || (platform =? "windows").

(** The file-name template of the supported software: the stem, the version
    that is used, the platform, the architecture, the archive suffix. [shown]
    is the text of the requested version. *)
Definition artifactStem (software : string) : string :=
  if software =? "jdk" then "openjdk" else software.

Definition archiveSuffix (platform : string) : string :=
  if platform =? "windows" then ".zip" else ".tar.gz".

Definition usedVersion (software shown platform : string) : string :=
  if (software =? "redis") && (platform =? "windows") then "5" else shown.

Definition templateFileName (software shown platform arch : string) : string :=
  artifactStem software +:+ "-" +:+ usedVersion software shown platform +:+ "-"
  +:+ platform +:+ "-" +:+ arch +:+ archiveSuffix platform.

(** The name an "Unsupported platform" error gives the software. *)
Definition platformFamily (software : string) : string :=
  if software =? "jdk" then "JDK"
  else if software =? "redis" then "Redis"
  else "PostgreSQL".

(** The warning of the redis-on-windows override, for a version whose text is
    [shown]. *)
Definition overrideWarning (shown : string) : string :=
  "⚠️ Windows 平台的 Redis 固定使用 v5 版本，忽略配置中的 " +:+ shown.

(** The [Location] values of a chain of responses, and the URL the chain
    ends at. *)
Definition redirectTargets (redirects : list NetEvent) : list Value :=
  flat_map (fun ev => match ev with
                      | Response _ location _ => [location]
                      | _ => []
                      end) redirects.

Definition finalTarget (url : Value) (redirects : list NetEvent) : Value :=
  List.last (redirectTargets redirects) url.

Definition busyWorld : World := mkWorld ∅ ∅ {["/srv/redis.zip.tmp"]} [] [].

Definition readOnlyWorld : World := mkWorld ∅ ∅ {["/srv"]} [] [].

(** Every version of the plan converts to a string. *)
Definition allConvertible (planned : list Job) : bool :=
  forallb (fun job => bool_decide (is_Some (ToString (snd job)))) planned.

(** The run stopped at the last job reported, which never settled or during
    which the process was killed; the jobs before it were contained. *)
Definition interrupted (exit : Exit) (reports : list Report) : Prop :=
  exists earlier r,
    reports = (earlier ++ [r])%list
    /\ Forall contained earlier
    /\ match r_result r with
       | Hang => exit = Stuck
       | Crash e => exit = Killed e
       | _ => False
       end.

(** Why a configuration could not be read, if it could not. *)
Definition readFailure (JSON_parse : string -> Value + string) (configPath : string)
    (w : World) : option string :=
  match files w !! configPath with
  | Some data =>
      match JSON_parse data with
      | inl _ => None
      | inr msg => Some msg
      end
  | None => Some ("ENOENT: no such file or directory, open '" +:+ configPath +:+ "'")
  end.

Definition rejectingParse (text : string) : Value + string :=
  inr "Unexpected end of JSON input".

(** A configuration whose second environment is [null]. *)
Definition brokenConfig : Value :=
  VObj [("prod", VObj [("nginx-version", VStr "1.25")]);
        ("staging", VNull);
        ("dev", VObj [("jdk-version", VStr "17")])].

Definition brokenConfigText : string :=
  "{" +:+ quote +:+ "prod" +:+ quote +:+ ": {" +:+ quote +:+ "nginx-version" +:+ quote
  +:+ ": " +:+ quote +:+ "1.25" +:+ quote +:+ "}, " +:+ quote +:+ "staging" +:+ quote
  +:+ ": null, " +:+ quote +:+ "dev" +:+ quote +:+ ": {" +:+ quote +:+ "jdk-version"
  +:+ quote +:+ ": " +:+ quote +:+ "17" +:+ quote +:+ "}}".

Definition parseBrokenConfig (text : string) : Value + string :=
  if text =? brokenConfigText then inl brokenConfig
  else inr "Unexpected token in JSON".

Definition brokenWorld : World :=
  mkWorld {["/srv/backend/config.json" := brokenConfigText]} {["/"; "/srv"; "/srv/backend"]}
    ∅ [] [].

Definition truncatedWorld : World :=
  mkWorld {["/srv/backend/config.json" := "{"]} {["/"; "/srv"; "/srv/backend"]} ∅ [] [].

(** [s] ends in [suffix]. *)
Definition endsWith (s suffix : string) : Prop := exists front, s = front +:+ suffix.

(** The paths of the regular files a run may write: archives and their
    temporary files. *)
Definition isArtifactPath (p : string) : Prop :=
  endsWith p ".zip" \/ endsWith p ".tar.gz"
  \/ endsWith p ".zip.tmp" \/ endsWith p ".tar.gz.tmp".

(** The directories a run may create: those an archive is stored in, and the
    directories above them. *)
Definition isArtifactDirectory (d : string) : Prop :=
  exists destination,
    (endsWith destination ".zip" \/ endsWith destination ".tar.gz")
    /\ d ∈ withAncestors (path.dirname destination).

(** From [w] to [w'], regular files changed only at the paths of archives and
    their temporary files, directories were created only where archives are
    stored and above, and no directory was removed. *)
Definition writesOnlyArtifacts (w w' : World) : Prop :=
  (forall q, ~ isArtifactPath q -> files w' !! q = files w !! q)
  /\ (forall d, d ∈ dirs w' -> d ∈ dirs w \/ isArtifactDirectory d)
  /\ dirs w ⊆ dirs w'.

Definition lastChar (s : string) : option ascii :=
  head (rev (list_ascii_of_string s)).

(** * Properties *)

(** ** The link resolver *)

Lemma own_prefix_jdk :
  downloadPrefixes !! "jdk"
  = Some "https://github.com/shenxinli/java-release/releases/download".
Proof. reflexivity. Qed.

Lemma own_prefix_redis :
  downloadPrefixes !! "redis"
  = Some "https://github.com/shenxinli/redis-release/releases/download".
Proof. reflexivity. Qed.

Lemma own_prefix_postgresql :
  downloadPrefixes !! "postgresql"
  = Some "https://github.com/shenxinli/postgresql-release/releases/download".
Proof. reflexivity. Qed.

(** The table has no other own key. *)
Lemma own_prefix_other (software : string) :
  software ≠ "jdk" -> software ≠ "redis" -> software ≠ "postgresql" ->
  downloadPrefixes !! software = None.
Proof.
  intros Hj Hr Hp. unfold downloadPrefixes.
  rewrite !lookup_insert_ne by congruence. apply lookup_empty.
Qed.

Lemma eqb_false (a b : string) : a ≠ b -> (a =? b) = false.
Proof. apply String.eqb_neq. Qed.

(** The conversion of the parsed [{"toString": 1}] throws, alone and inside
    an array; an object without that key, and what JSON holds besides
    objects, converts. *)
Example ToString_examples :
  ToString opaqueVersion = None
  /\ ToString (VArr [VNum "1"; opaqueVersion]) = None
  /\ ToString (VObj [("valueOf", VNum "1")]) = Some "[object Object]"
  /\ ToString (VArr [VNum "1"; VNull; VArr [VStr "a"; VBool true]]) = Some "1,,a,true"
  /\ ToString (VStr longVersion) = Some longVersion.
Proof. repeat split. Qed.

(** Redis for windows, whatever the version. *)
Lemma redis_windows_link (version : Value) (arch : string) (w : World) :
  generateDownloadLink "redis" version "windows" arch w
  = match ToString version with
    | Some shown =>
        (Return ("https://github.com/shenxinli/redis-release/releases/download"
                 +:+ "/v5/redis-5-windows-" +:+ arch +:+ ".zip"),
         console_log ("⚠️ Windows 平台的 Redis 固定使用 v5 版本，忽略配置中的 "
                      +:+ shown) w)
    | None => (Throw cannotConvert, w)
    end.
Proof.
  unfold generateDownloadLink, generateDownloadLinkIn, getProperty.
  rewrite own_prefix_redis. cbn. destruct (ToString version); reflexivity.
Qed.

(** C1 as amended: resolving redis for windows ignores the requested
    version, for every version that can be converted to a string (the warning
    names it): whatever that version and the architecture, the URL is the
    redis prefix followed by [/v5/redis-5-windows-<arch>.zip], and the warning
    that names the ignored version is written to the console. *)
Theorem C1_redis_windows_uses_version_5 (version : Value) (shown arch : string)
    (w : World) :
  ToString version = Some shown ->
  generateDownloadLink "redis" version "windows" arch w
  = (Return ("https://github.com/shenxinli/redis-release/releases/download"
             +:+ "/v5/redis-5-windows-" +:+ arch +:+ ".zip"),
     console_log ("⚠️ Windows 平台的 Redis 固定使用 v5 版本，忽略配置中的 "
                  +:+ shown) w).
Proof. intros Hshown. by rewrite redis_windows_link, Hshown. Qed.

Lemma C1_redis_windows_uses_version_5_witness :
  generateDownloadLink "redis" (VNum "7.2") "windows" "x64" emptyWorld
  = (Return ("https://github.com/shenxinli/redis-release/releases/download"
             +:+ "/v5/redis-5-windows-" +:+ "x64" +:+ ".zip"),
     console_log ("⚠️ Windows 平台的 Redis 固定使用 v5 版本，忽略配置中的 "
                  +:+ "7.2") emptyWorld).
Proof.
  apply (C1_redis_windows_uses_version_5 (VNum "7.2") "7.2" "x64" emptyWorld).
  reflexivity.
Defined.

(** C1 as stated fails: for the version [{"toString": 1}] of a parsed
    configuration, no URL is returned. *)
Lemma C1_counterexample :
  ~ (forall version arch w,
       fst (generateDownloadLink "redis" version "windows" arch w)
       = Return ("https://github.com/shenxinli/redis-release/releases/download"
                 +:+ "/v5/redis-5-windows-" +:+ arch +:+ ".zip")).
Proof.
  intros Hclaim. specialize (Hclaim opaqueVersion "x64" emptyWorld).
  rewrite redis_windows_link in Hclaim. discriminate Hclaim.
Qed.

(** Outside the three names and the inherited property names, the table
    decides: a registered, non-empty prefix gives the generic file name on
    every platform, anything else is rejected. *)
Lemma fallback_by_table (prefixes : gmap string string) (software : string)
    (version : Value) (platform arch : string) (w : World) :
  software ≠ "jdk" -> software ≠ "redis" -> software ≠ "postgresql" ->
  assoc software objectPrototype = None ->
  generateDownloadLinkIn prefixes software version platform arch w
  = (match prefixes !! software with
     | Some prefix =>
         if prefix =? "" then Throw (UnsupportedSoftware software)
         else match ToString version with
              | Some shown =>
                  Return (prefix +:+ "/v" +:+ shown +:+ "/" +:+ software +:+ "-"
                          +:+ shown +:+ "-" +:+ platform +:+ "-" +:+ arch +:+ ".tar.gz")
              | None => Throw cannotConvert
              end
     | None => Throw (UnsupportedSoftware software)
     end, w).
Proof.
  intros Hj Hr Hp Hproto. unfold generateDownloadLinkIn, getProperty, template.
  rewrite (eqb_false _ _ Hj), (eqb_false _ _ Hr), (eqb_false _ _ Hp), Hproto.
  cbn [andb]. destruct (prefixes !! software) as [prefix|]; cbn; [|reflexivity].
  destruct (prefix =? ""); cbn; [reflexivity|].
  destruct (ToString version); reflexivity.
Qed.

(** C2 as amended: for a software name outside jdk, redis and postgresql
    (and not a property name of Object.prototype), the generic file name
    [<software>-<version>-<platform>-<arch>.tar.gz] is used, on every platform
    and for every version that converts to a string, exactly when the prefix
    table registers a non-empty prefix for the name; the table of the script
    registers none, so there resolution throws "Unsupported software". *)
Theorem C2_fallback_only_with_registered_prefix (prefixes : gmap string string)
    (software : string) (version : Value) (platform arch : string) (w : World) :
  software ≠ "jdk" -> software ≠ "redis" -> software ≠ "postgresql" ->
  assoc software objectPrototype = None ->
  generateDownloadLinkIn prefixes software version platform arch w
  = (match prefixes !! software with
     | Some prefix =>
         if prefix =? "" then Throw (UnsupportedSoftware software)
         else match ToString version with
              | Some shown =>
                  Return (prefix +:+ "/v" +:+ shown +:+ "/" +:+ software +:+ "-"
                          +:+ shown +:+ "-" +:+ platform +:+ "-" +:+ arch +:+ ".tar.gz")
              | None => Throw cannotConvert
              end
     | None => Throw (UnsupportedSoftware software)
     end, w)
  /\ generateDownloadLink software version platform arch w
     = (Throw (UnsupportedSoftware software), w).
Proof.
  intros Hj Hr Hp Hproto. split.
  - by apply fallback_by_table.
  - unfold generateDownloadLink.
    rewrite fallback_by_table, own_prefix_other by assumption. reflexivity.
Qed.

Lemma C2_fallback_only_with_registered_prefix_witness :
  generateDownloadLinkIn (<["nginx" := "https://example.org/nginx"]> downloadPrefixes)
    "nginx" (VStr "1.25") "freebsd" "amd64" emptyWorld
  = (Return "https://example.org/nginx/v1.25/nginx-1.25-freebsd-amd64.tar.gz", emptyWorld)
  /\ generateDownloadLink "nginx" (VStr "1.25") "freebsd" "amd64" emptyWorld
     = (Throw (UnsupportedSoftware "nginx"), emptyWorld).
Proof.
  pose proof (C2_fallback_only_with_registered_prefix
                (<["nginx" := "https://example.org/nginx"]> downloadPrefixes)
                "nginx" (VStr "1.25") "freebsd" "amd64" emptyWorld) as H.
  vm_compute in H. vm_compute. apply H; [discriminate .. | reflexivity].
Defined.

(** C2 as stated fails: nginx is outside the three names, and resolving it
    throws "Unsupported software" instead of returning a URL with the generic
    file name. *)
Lemma C2_counterexample :
  ~ (forall software version shown platform arch w,
       software ≠ "jdk" -> software ≠ "redis" -> software ≠ "postgresql" ->
       ToString version = Some shown ->
       exists prefix,
         fst (generateDownloadLink software version platform arch w)
         = Return (prefix +:+ "/v" +:+ shown +:+ "/" +:+ software +:+ "-"
                   +:+ shown +:+ "-" +:+ platform +:+ "-" +:+ arch +:+ ".tar.gz")).
Proof.
  intros Hclaim.
  destruct (Hclaim "nginx" (VStr "1.25") "1.25" "linux" "amd64" emptyWorld)
    as [prefix Hresolved]; [discriminate..|reflexivity|].
  assert (Hthrows : fst (generateDownloadLink "nginx" (VStr "1.25") "linux" "amd64"
                           emptyWorld)
                    = Throw (UnsupportedSoftware "nginx")) by reflexivity.
  rewrite Hthrows in Hresolved. discriminate Hresolved.
Qed.

(** The platform check of the three supported names. *)
Lemma unsupported_platform_throws (software : string) (version : Value)
    (platform arch : string) (w : World) :
  software = "postgresql" \/ software = "redis" \/ software = "jdk" ->
  platform ≠ "linux" -> platform ≠ "windows" ->
  exists family,
    generateDownloadLink software version platform arch w
    = (Throw (UnsupportedPlatform family platform), w).
Proof.
  intros Hs Hl Hw. unfold generateDownloadLink, generateDownloadLinkIn, getProperty.
  destruct Hs as [-> | [-> | ->]].
  - exists "PostgreSQL". rewrite own_prefix_postgresql.
    cbn. rewrite (eqb_false _ _ Hl), (eqb_false _ _ Hw). reflexivity.
  - exists "Redis". rewrite own_prefix_redis.
    cbn. rewrite (eqb_false _ _ Hl), (eqb_false _ _ Hw). reflexivity.
  - exists "JDK". rewrite own_prefix_jdk.
    cbn. rewrite (eqb_false _ _ Hl), (eqb_false _ _ Hw). reflexivity.
Qed.

(** Names that are neither own keys of the table nor inherited property
    names are rejected. *)
Lemma unregistered_software_throws (software : string) (version : Value)
    (platform arch : string) (w : World) :
  downloadPrefixes !! software = None ->
  assoc software objectPrototype = None ->
  generateDownloadLink software version platform arch w
  = (Throw (UnsupportedSoftware software), w).
Proof.
  intros Hown Hproto.
  destruct (decide (software = "jdk")) as [->|Hj]; [discriminate Hown|].
  destruct (decide (software = "redis")) as [->|Hr]; [discriminate Hown|].
  destruct (decide (software = "postgresql")) as [->|Hp]; [discriminate Hown|].
  unfold generateDownloadLink. rewrite fallback_by_table, Hown by assumption.
  reflexivity.
Qed.

(** Every property name of [Object.prototype] gets past the guard. *)
Lemma inherited_names_resolve :
  Forall (fun name =>
            downloadPrefixes !! name = None
            /\ exists url,
                 fst (generateDownloadLink name (VStr "17") "linux" "amd64" emptyWorld)
                 = Return url)
         (map fst objectPrototype).
Proof. repeat constructor; eexists; reflexivity. Qed.

(** C8 at a name the table does not register: [downloadPrefixes["constructor"]]
    is the inherited [Object] function, which is truthy, so the guard lets the
    name through and a link is returned where the claim has an error. *)
Theorem C8_inherited_name_is_not_rejected :
  downloadPrefixes !! "constructor" = None
  /\ generateDownloadLink "constructor" (VStr "17") "linux" "amd64" emptyWorld
     = (Return "function Object() { [native code] }/v17/constructor-17-linux-amd64.tar.gz",
        emptyWorld).
Proof. split; reflexivity. Qed.

(** ** The downloader *)

Lemma length_append (a b : string) :
  String.length (a +:+ b) = String.length a + String.length b.
Proof. induction a as [|c a IH]; simpl; [reflexivity | f_equal; exact IH]. Qed.

(** The temporary path is never the destination. *)
Lemma tempPath_ne (destinationPath : string) :
  destinationPath +:+ ".tmp" ≠ destinationPath.
Proof.
  intros Heq. apply (f_equal String.length) in Heq.
  rewrite length_append in Heq. cbn in Heq. lia.
Qed.

Lemma requestIssued_files url destinationPath w :
  files (requestIssued url destinationPath w)
  = <[destinationPath +:+ ".tmp" := ""]> (files w).
Proof. reflexivity. Qed.

Lemma requestIssued_denied url destinationPath w :
  denied (requestIssued url destinationPath w) = denied w.
Proof. reflexivity. Qed.

Lemma requestIssued_dirs url destinationPath w :
  dirs (requestIssued url destinationPath w)
  = dirs w ∪ list_to_set (withAncestors (path.dirname destinationPath)).
Proof. reflexivity. Qed.

Lemma requestIssued_absent url destinationPath w :
  files w !! destinationPath = None ->
  files (requestIssued url destinationPath w) !! destinationPath = None.
Proof.
  intros Habsent. rewrite requestIssued_files, lookup_insert_ne; [done|].
  apply tempPath_ne.
Qed.

(** The cache hit. *)
Lemma downloadFile_hit net url destinationPath w :
  is_Some (files w !! destinationPath) ->
  downloadFile net url destinationPath w
  = (Return destinationPath, console_log ("文件已存在: " +:+ destinationPath) w, net).
Proof.
  intros [content Hfile].
  destruct net as [|ev net]; cbn [downloadFile];
    unfold checkFileExists, fs_access; rewrite Hfile; reflexivity.
Qed.

(** The cache miss, up to the answer to the request. *)
Lemma downloadFile_miss net url destinationPath w :
  files w !! destinationPath = None ->
  path.dirname destinationPath ∉ denied w ->
  downloadFile net url destinationPath w
  = let tempPath := destinationPath +:+ ".tmp" in
    let unopened := files w in
    let w := requestIssued url destinationPath w in
    match net with
    | [] => (Hang, w, [])
    | GetThrows msg :: net => (Throw (NodeError msg), w, net)
    | RequestError msg :: net =>
        (Throw (NodeError msg), snd (fs_unlink tempPath w), net)
    | OpenFails msg :: net => (Crash (NodeError msg), set_files unopened w, net)
    | Response statusCode location body :: net =>
        if (statusCode =? 302)%Z || (statusCode =? 301)%Z then
          downloadFile net location destinationPath
            (console_log ("🔀 重定向至: " +:+ urlText location) w)
        else if negb (statusCode =? 200)%Z then
          (Throw (DownloadHTTPError statusCode), w, net)
        else
          match body with
          | BodyEnds data =>
              match fs_rename tempPath destinationPath (pipe tempPath data w) with
              | (Return _, w) =>
                  (Return destinationPath,
                   console_log ("✅ 下载完成: " +:+ destinationPath) w, net)
              | (Throw err, w) => (Throw err, w, net)
              | (Hang, w) => (Hang, w, net)
              | (Crash err, w) => (Crash err, w, net)
              end
          | BodyBreaks received msg =>
              (Throw (NodeError msg),
               snd (fs_unlink tempPath (pipe tempPath received w)), net)
          | BodyStops received => (Hang, pipe tempPath received w, net)
          end
    end.
Proof.
  intros Habsent Hmkdir.
  destruct net as [|ev net]; cbn [downloadFile];
    unfold checkFileExists, fs_access, fs_mkdir;
    rewrite Habsent, decide_False by assumption; reflexivity.
Qed.

(** A failed [mkdir] ends the call before anything is opened or requested. *)
Lemma downloadFile_mkdir_refused net url destinationPath w :
  files w !! destinationPath = None ->
  path.dirname destinationPath ∈ denied w ->
  exists msg, downloadFile net url destinationPath w = (Throw (NodeError msg), w, net).
Proof.
  intros Habsent Hmkdir. eexists.
  destruct net as [|ev net]; cbn [downloadFile];
    unfold checkFileExists, fs_access, fs_mkdir;
    rewrite Habsent, decide_True by assumption; reflexivity.
Qed.

(** [unlink] and [rename] on a world whose temporary file exists. *)
Lemma unlink_effect (p : string) (w : World) :
  is_Some (files w !! p) ->
  denied (snd (fs_unlink p w)) = denied w
  /\ (forall q, q ≠ p -> files (snd (fs_unlink p w)) !! q = files w !! q)
  /\ (p ∉ denied w -> files (snd (fs_unlink p w)) !! p = None).
Proof.
  intros [content Hfile]. unfold fs_unlink.
  destruct (decide (p ∈ denied w)) as [Hden|Hden]; cbn.
  - split; [done|]. split; [done|]. intros Hnot. by destruct Hnot.
  - rewrite Hfile. cbn. split; [done|]. split.
    + intros q Hq. by apply lookup_delete_ne.
    + intros _. apply lookup_delete_eq.
Qed.

(** Following redirects: each hop opens the temporary file again and records
    a request; the destination stays absent. *)
Lemma downloadFile_follows_redirects (redirects : list NetEvent) :
  forall url destinationPath w,
    forallb isRedirect redirects = true ->
    files w !! destinationPath = None ->
    path.dirname destinationPath ∉ denied w ->
    exists url' w',
      (forall net, downloadFile (redirects ++ net) url destinationPath w
                   = downloadFile net url' destinationPath w')
      /\ files w' !! destinationPath = None
      /\ denied w' = denied w.
Proof.
  induction redirects as [|ev redirects IH]; intros url destinationPath w Hall Habsent Hmkdir.
  - exists url, w. repeat split; done.
  - cbn in Hall. apply andb_prop in Hall as [Hev Hall].
    destruct ev as [msg|msg|msg|statusCode location body]; try discriminate Hev.
    cbn in Hev.
    set (w1 := console_log ("🔀 重定向至: " +:+ urlText location)
                 (requestIssued url destinationPath w)).
    destruct (IH location destinationPath w1 Hall) as (url' & w' & Hrun & Habsent' & Hden').
    + by apply requestIssued_absent.
    + exact Hmkdir.
    + exists url', w'. split; [|split; [exact Habsent' | exact Hden']].
      intros net. rewrite <- Hrun. cbn [app].
      rewrite downloadFile_miss by assumption. cbn zeta. rewrite Hev. reflexivity.
Qed.

(** Whenever a call resolves, it resolves to its destination, the
    destination exists, and a call that started without the destination
    leaves no temporary file. *)
Lemma downloadFile_resolved (net : list NetEvent) :
  forall url destinationPath w p w' net',
    downloadFile net url destinationPath w = (Return p, w', net') ->
    p = destinationPath
    /\ is_Some (files w' !! destinationPath)
    /\ (files w !! destinationPath = None ->
        files w' !! (destinationPath +:+ ".tmp") = None).
Proof.
  induction net as [|ev net IH]; intros url destinationPath w p w' net' Hrun;
    (destruct (files w !! destinationPath) as [content|] eqn:Hfile;
     [ rewrite downloadFile_hit in Hrun by (rewrite Hfile; eauto);
       injection Hrun as <- <- <-; cbn; rewrite Hfile; split; [done|]; split; [eauto|done]
     | destruct (decide (path.dirname destinationPath ∈ denied w)) as [Hden|Hden];
       [ match type of Hrun with
         | downloadFile ?script _ _ _ = _ =>
             destruct (downloadFile_mkdir_refused script url _ _ Hfile Hden) as [msg Hthrow]
         end;
         rewrite Hthrow in Hrun; discriminate Hrun
       | rewrite downloadFile_miss in Hrun by assumption; cbn zeta in Hrun ] ]).
  - discriminate Hrun.
  - destruct ev as [msg|msg|msg|statusCode location body]; try discriminate Hrun.
    destruct ((statusCode =? 302)%Z || (statusCode =? 301)%Z).
    + apply IH in Hrun as (-> & Hexists & Htemp). split; [done|]. split; [done|].
      intros _. apply Htemp. cbn [console_log files]. by apply requestIssued_absent.
    + destruct (negb (statusCode =? 200)%Z); [discriminate Hrun|].
      destruct body as [data|received msg|received]; [|discriminate Hrun..].
      unfold fs_rename in Hrun.
      destruct (decide (destinationPath +:+ ".tmp" ∈ _)); [discriminate Hrun|].
      cbn in Hrun. rewrite lookup_insert_eq in Hrun.
      injection Hrun as <- <- <-. cbn. split; [done|]. split.
      * rewrite lookup_insert_eq. eauto.
      * intros _. rewrite lookup_insert_ne by (intros Heq; by apply (tempPath_ne destinationPath)).
        apply lookup_delete_eq.
Qed.

(** C3: when a file exists at the destination, the call returns the
    destination at once: no request is recorded, nothing of the network script
    is consumed, no file changes. Hence after a call that resolved, a second
    call to the same destination does no network I/O either. *)
Theorem C3_download_skips_existing :
  (forall net url destinationPath w,
     is_Some (files w !! destinationPath) ->
     exists w',
       downloadFile net url destinationPath w = (Return destinationPath, w', net)
       /\ requests w' = requests w /\ files w' = files w)
  /\ (forall net url destinationPath w p w1 net1,
        downloadFile net url destinationPath w = (Return p, w1, net1) ->
        forall url2, exists w2,
          downloadFile net1 url2 destinationPath w1 = (Return destinationPath, w2, net1)
          /\ requests w2 = requests w1 /\ files w2 = files w1).
Proof.
  assert (Hhit : forall net url destinationPath w,
             is_Some (files w !! destinationPath) ->
             exists w',
               downloadFile net url destinationPath w = (Return destinationPath, w', net)
               /\ requests w' = requests w /\ files w' = files w).
  { intros net url destinationPath w Hexists. eexists. split.
    - by apply downloadFile_hit.
    - split; reflexivity. }
  split; [exact Hhit|].
  intros net url destinationPath w p w1 net1 Hfirst url2.
  apply downloadFile_resolved in Hfirst as (_ & Hexists & _).
  by apply Hhit.
Qed.

Lemma C3_download_skips_existing_witness :
  (is_Some (files cachedWorld !! "/srv/amd64/prod/bin/redis-7-linux-amd64.tar.gz")
   /\ exists w',
        downloadFile [RequestError "ECONNREFUSED"] (VStr "https://example.org/redis")
          "/srv/amd64/prod/bin/redis-7-linux-amd64.tar.gz" cachedWorld
        = (Return "/srv/amd64/prod/bin/redis-7-linux-amd64.tar.gz", w',
           [RequestError "ECONNREFUSED"])
        /\ requests w' = requests cachedWorld /\ files w' = files cachedWorld)
  /\ (exists w1,
        downloadFile [Response 200 VUndefined (BodyEnds "JDK"); RequestError "ECONNREFUSED"]
          (VStr "https://example.org/jdk") "/srv/jdk.tar.gz" emptyWorld
        = (Return "/srv/jdk.tar.gz", w1, [RequestError "ECONNREFUSED"])
        /\ exists w2,
             downloadFile [RequestError "ECONNREFUSED"] (VStr "https://example.org/jdk")
               "/srv/jdk.tar.gz" w1
             = (Return "/srv/jdk.tar.gz", w2, [RequestError "ECONNREFUSED"])
             /\ requests w2 = requests w1 /\ files w2 = files w1).
Proof.
  assert (Hcached : is_Some (files cachedWorld
                             !! "/srv/amd64/prod/bin/redis-7-linux-amd64.tar.gz")).
  { eexists. reflexivity. }
  split.
  - split; [exact Hcached|].
    exact (proj1 C3_download_skips_existing _ _ _ _ Hcached).
  - eexists. split; [vm_compute; reflexivity|].
    refine (proj2 C3_download_skips_existing
              [Response 200 VUndefined (BodyEnds "JDK"); RequestError "ECONNREFUSED"]
              (VStr "https://example.org/jdk") "/srv/jdk.tar.gz" emptyWorld _ _ _ _ _).
    vm_compute. reflexivity.
Defined.

(** A status other than 200, 301 and 302, met after any number of redirects:
    the call rejects from the world in which the request was issued. *)
Lemma downloadFile_http_error (redirects : list NetEvent) (statusCode : Z)
    (location : Value) (body : Body) (rest : list NetEvent) url destinationPath w :
  files w !! destinationPath = None ->
  path.dirname destinationPath ∉ denied w ->
  forallb isRedirect redirects = true ->
  statusCode ≠ 200%Z -> statusCode ≠ 301%Z -> statusCode ≠ 302%Z ->
  exists url' w1,
    downloadFile (redirects ++ Response statusCode location body :: rest) url destinationPath w
    = (Throw (DownloadHTTPError statusCode), requestIssued url' destinationPath w1, rest)
    /\ files w1 !! destinationPath = None.
Proof.
  intros Habsent Hmkdir Hredirects H200 H301 H302.
  destruct (downloadFile_follows_redirects redirects url destinationPath w
              Hredirects Habsent Hmkdir) as (url' & w1 & Hrun & Habsent1 & Hden1).
  exists url', w1. split; [|exact Habsent1].
  rewrite Hrun, downloadFile_miss by (rewrite ?Hden1; assumption). cbn zeta.
  apply Z.eqb_neq in H200, H301, H302. rewrite H200, H301, H302. reflexivity.
Qed.

(** C4: a response whose status is neither 200 nor 301 nor 302, met directly
    or at the end of a chain of redirects, makes the call reject with the HTTP
    error of that status, and no file exists at the destination afterwards. *)
Theorem C4_http_error_status (redirects : list NetEvent) (statusCode : Z)
    (location : Value) (body : Body) (rest : list NetEvent)
    (url : Value) (destinationPath : string) (w : World) :
  files w !! destinationPath = None ->
  path.dirname destinationPath ∉ denied w ->
  forallb isRedirect redirects = true ->
  statusCode ≠ 200%Z -> statusCode ≠ 301%Z -> statusCode ≠ 302%Z ->
  exists w',
    downloadFile (redirects ++ Response statusCode location body :: rest) url destinationPath w
    = (Throw (DownloadHTTPError statusCode), w', rest)
    /\ files w' !! destinationPath = None.
Proof.
  intros Habsent Hmkdir Hredirects H200 H301 H302.
  destruct (downloadFile_http_error redirects statusCode location body rest url
              destinationPath w Habsent Hmkdir Hredirects H200 H301 H302)
    as (url' & w1 & Hrun & Habsent1).
  eexists. split; [exact Hrun|]. by apply requestIssued_absent.
Qed.

Lemma C4_http_error_status_witness :
  exists w',
    downloadFile ([Response 302 (VStr "https://mirror.example.org/jdk") (BodyEnds "")]
                  ++ Response 404 VUndefined (BodyEnds "Not Found") :: [])
      (VStr "https://example.org/jdk") "/srv/jdk.tar.gz" emptyWorld
    = (Throw (DownloadHTTPError 404), w', [])
    /\ files w' !! "/srv/jdk.tar.gz" = None.
Proof.
  apply (C4_http_error_status
           [Response 302 (VStr "https://mirror.example.org/jdk") (BodyEnds "")]
           404 VUndefined (BodyEnds "Not Found") [] (VStr "https://example.org/jdk")
           "/srv/jdk.tar.gz" emptyWorld);
    [reflexivity | vm_compute; set_solver | reflexivity | lia | lia | lia].
Defined.

(** C10: on that same path the temporary file, created before the request
    was issued, is still on disk when the call has rejected: nothing unlinks
    it, unlike on the network-error path. *)
Theorem C10_http_error_keeps_temporary_file (redirects : list NetEvent) (statusCode : Z)
    (location : Value) (body : Body) (rest : list NetEvent)
    (url : Value) (destinationPath : string) (w : World) :
  files w !! destinationPath = None ->
  path.dirname destinationPath ∉ denied w ->
  forallb isRedirect redirects = true ->
  statusCode ≠ 200%Z -> statusCode ≠ 301%Z -> statusCode ≠ 302%Z ->
  exists w',
    downloadFile (redirects ++ Response statusCode location body :: rest) url destinationPath w
    = (Throw (DownloadHTTPError statusCode), w', rest)
    /\ files w' !! (destinationPath +:+ ".tmp") = Some "".
Proof.
  intros Habsent Hmkdir Hredirects H200 H301 H302.
  destruct (downloadFile_http_error redirects statusCode location body rest url
              destinationPath w Habsent Hmkdir Hredirects H200 H301 H302)
    as (url' & w1 & Hrun & Habsent1).
  eexists. split; [exact Hrun|].
  rewrite requestIssued_files. apply lookup_insert_eq.
Qed.

Lemma C10_http_error_keeps_temporary_file_witness :
  exists w',
    downloadFile ([] ++ Response 503 VUndefined (BodyEnds "") :: [])
      (VStr "https://example.org/redis") "/srv/redis.zip" emptyWorld
    = (Throw (DownloadHTTPError 503), w', [])
    /\ files w' !! ("/srv/redis.zip" +:+ ".tmp") = Some "".
Proof.
  apply (C10_http_error_keeps_temporary_file
           [] 503 VUndefined (BodyEnds "") [] (VStr "https://example.org/redis")
           "/srv/redis.zip" emptyWorld);
    [reflexivity | vm_compute; set_solver | reflexivity | lia | lia | lia].
Defined.

(** The error the script listens for, the ['error'] event of the request,
    before the response or while the body is piped, directly or after
    redirects: the call rejects with that very error, whether or not the
    temporary file could be unlinked; the temporary file is gone when the
    unlink is permitted (and stays when it is refused); no file is created at
    the destination. *)
Lemma request_error_cleans_up (redirects : list NetEvent) (ev : NetEvent)
    (msg : string) (rest : list NetEvent)
    (url : Value) (destinationPath : string) (w : World) :
  files w !! destinationPath = None ->
  path.dirname destinationPath ∉ denied w ->
  forallb isRedirect redirects = true ->
  requestError ev = Some msg ->
  exists w',
    downloadFile (redirects ++ ev :: rest) url destinationPath w
    = (Throw (NodeError msg), w', rest)
    /\ files w' !! destinationPath = None
    /\ (destinationPath +:+ ".tmp" ∉ denied w ->
        files w' !! (destinationPath +:+ ".tmp") = None)
    /\ (destinationPath +:+ ".tmp" ∈ denied w ->
        is_Some (files w' !! (destinationPath +:+ ".tmp"))).
Proof.
  intros Habsent Hmkdir Hredirects Hev.
  destruct (downloadFile_follows_redirects redirects url destinationPath w
              Hredirects Habsent Hmkdir) as (url' & w1 & Hrun & Habsent1 & Hden1).
  set (tempPath := destinationPath +:+ ".tmp").
  assert (Hcleanup : forall content,
             let w2 := pipe tempPath content (requestIssued url' destinationPath w1) in
             files (snd (fs_unlink tempPath w2)) !! destinationPath = None
             /\ (tempPath ∉ denied w -> files (snd (fs_unlink tempPath w2)) !! tempPath = None)
             /\ (tempPath ∈ denied w ->
                 is_Some (files (snd (fs_unlink tempPath w2)) !! tempPath))).
  { intros content w2.
    assert (Hopen : files w2 !! tempPath = Some content) by apply lookup_insert_eq.
    assert (Hden2 : denied w2 = denied w) by exact Hden1.
    destruct (unlink_effect tempPath w2) as (_ & Hother & Hgone); [eauto|].
    split; [|split].
    - rewrite Hother by (apply not_eq_sym, tempPath_ne).
      subst w2. unfold pipe, set_files. cbn [files].
      rewrite lookup_insert_ne by apply tempPath_ne.
      by apply requestIssued_absent.
    - intros Hallowed. apply Hgone. by rewrite Hden2.
    - intros Hrefused. unfold fs_unlink.
      rewrite decide_True by (by rewrite Hden2). cbn [snd]. rewrite Hopen. eauto. }
  rewrite Hrun, downloadFile_miss by (rewrite ?Hden1; assumption). cbn zeta.
  destruct ev as [m|m|m|statusCode location body]; try discriminate Hev.
  - injection Hev as ->. eexists. split; [reflexivity|].
    replace (requestIssued url' destinationPath w1)
      with (pipe tempPath "" (requestIssued url' destinationPath w1)).
    + apply Hcleanup.
    + unfold pipe, set_files. cbn. rewrite insert_insert_eq. reflexivity.
  - cbn in Hev. destruct body as [data|received m|received]; [discriminate Hev| |discriminate Hev].
    destruct (statusCode =? 200)%Z eqn:H200; [|discriminate Hev].
    injection Hev as ->. apply Z.eqb_eq in H200 as ->. cbn.
    eexists. split; [reflexivity|]. apply Hcleanup.
Qed.

(** The two events the script has no listener for, met directly or after
    redirects. When the body of a 200 response stops arriving, the call never
    settles and the temporary file keeps what was received. When the
    temporary file cannot be opened, the process dies with the request
    issued. *)
Lemma downloadFile_unhandled (redirects : list NetEvent) (rest : list NetEvent)
    (url : Value) (destinationPath : string) (w : World) :
  files w !! destinationPath = None ->
  path.dirname destinationPath ∉ denied w ->
  forallb isRedirect redirects = true ->
  (forall location received,
     exists w',
       downloadFile (redirects ++ Response 200 location (BodyStops received) :: rest) url
         destinationPath w
       = (Hang, w', rest)
       /\ files w' !! (destinationPath +:+ ".tmp") = Some received
       /\ files w' !! destinationPath = None)
  /\ (forall msg,
        exists w',
          downloadFile (redirects ++ OpenFails msg :: rest) url destinationPath w
          = (Crash (NodeError msg), w', rest)
          /\ files w' !! destinationPath = None).
Proof.
  intros Habsent Hmkdir Hredirects.
  destruct (downloadFile_follows_redirects redirects url destinationPath w
              Hredirects Habsent Hmkdir) as (url' & w1 & Hrun & Habsent1 & Hden1).
  split.
  - intros location received.
    rewrite Hrun, downloadFile_miss by (rewrite ?Hden1; assumption). cbn zeta.
    change ((200 =? 302)%Z || (200 =? 301)%Z) with false.
    change (negb (200 =? 200)%Z) with false. cbn iota.
    eexists. split; [reflexivity|]. cbn [pipe set_files files]. split.
    + apply lookup_insert_eq.
    + rewrite lookup_insert_ne by apply tempPath_ne. by apply requestIssued_absent.
  - intros msg.
    rewrite Hrun, downloadFile_miss by (rewrite ?Hden1; assumption). cbn zeta.
    eexists. split; [reflexivity|]. exact Habsent1.
Qed.

(** C5 at a network error the script does not listen for: the connection
    closes while the body of a 200 response is arriving. The response reports
    it, the request emits nothing, and the call neither rejects nor unlinks:
    it never settles, and the temporary file stays with what was received. *)
Theorem C5_stalled_body_is_not_cleaned_up (redirects : list NetEvent) (location : Value)
    (received : string) (rest : list NetEvent) (url : Value) (destinationPath : string)
    (w : World) :
  files w !! destinationPath = None ->
  path.dirname destinationPath ∉ denied w ->
  forallb isRedirect redirects = true ->
  exists w',
    downloadFile (redirects ++ Response 200 location (BodyStops received) :: rest) url
      destinationPath w
    = (Hang, w', rest)
    /\ files w' !! (destinationPath +:+ ".tmp") = Some received
    /\ files w' !! destinationPath = None.
Proof.
  intros Habsent Hmkdir Hredirects.
  by apply (downloadFile_unhandled redirects rest url destinationPath w).
Qed.

Lemma C5_stalled_body_is_not_cleaned_up_witness :
  exists w',
    downloadFile ([] ++ Response 200 VUndefined (BodyStops "PARTIAL") :: [])
      (VStr "https://example.org/jdk") "/srv/jdk.tar.gz" emptyWorld
    = (Hang, w', [])
    /\ files w' !! ("/srv/jdk.tar.gz" +:+ ".tmp") = Some "PARTIAL"
    /\ files w' !! "/srv/jdk.tar.gz" = None.
Proof.
  apply (C5_stalled_body_is_not_cleaned_up [] VUndefined "PARTIAL" []
           (VStr "https://example.org/jdk") "/srv/jdk.tar.gz" emptyWorld);
    [reflexivity | vm_compute; set_solver | reflexivity].
Defined.

(** C6: a call that downloads (the destination was absent when it started)
    and resolves, resolves to the requested destination path, a file exists
    there, and the temporary file no longer exists. A call that resolves
    without downloading, on a destination already present, also leaves the
    destination in place. *)
Theorem C6_success_renames_temporary_file (net : list NetEvent) (url : Value)
    (destinationPath : string) (w : World) (p : string) (w' : World)
    (net' : list NetEvent) :
  downloadFile net url destinationPath w = (Return p, w', net') ->
  p = destinationPath
  /\ is_Some (files w' !! destinationPath)
  /\ (files w !! destinationPath = None ->
      files w' !! (destinationPath +:+ ".tmp") = None).
Proof. apply downloadFile_resolved. Qed.

Lemma C6_success_renames_temporary_file_witness :
  downloadFile [Response 302 (VStr "https://example.org/b") (BodyEnds "");
                Response 200 VUndefined (BodyEnds "JDK17")]
    (VStr "https://example.org/a")
    "/srv/amd64/prod/bin/openjdk-17-linux-amd64.tar.gz" emptyWorld
  = (Return "/srv/amd64/prod/bin/openjdk-17-linux-amd64.tar.gz", downloadedWorld, [])
  /\ is_Some (files downloadedWorld !! "/srv/amd64/prod/bin/openjdk-17-linux-amd64.tar.gz")
  /\ files downloadedWorld
     !! ("/srv/amd64/prod/bin/openjdk-17-linux-amd64.tar.gz" +:+ ".tmp") = None.
Proof.
  assert (Hrun : downloadFile [Response 302 (VStr "https://example.org/b") (BodyEnds "");
                               Response 200 VUndefined (BodyEnds "JDK17")]
                   (VStr "https://example.org/a")
                   "/srv/amd64/prod/bin/openjdk-17-linux-amd64.tar.gz" emptyWorld
                 = (Return "/srv/amd64/prod/bin/openjdk-17-linux-amd64.tar.gz",
                    downloadedWorld, [])).
  { vm_compute. reflexivity. }
  split; [exact Hrun|].
  destruct (C6_success_renames_temporary_file _ _ _ _ _ _ _ Hrun) as (_ & Hexists & Htemp).
  split; [exact Hexists | apply Htemp; reflexivity].
Defined.

(** ** Paths *)

(** The path functions on some inputs, as Node answers them. *)
Example normalize_examples :
  path.normalize "/a//b/../c/./d/" = "/a/c/d/"
  /\ path.normalize "../a/../../b" = "../../b"
  /\ path.normalize "/../a" = "/a"
  /\ path.normalize "a/.." = "."
  /\ path.normalize "./" = "./"
  /\ path.normalize "" = ".".
Proof. repeat split. Qed.

Example join_examples :
  path.join ["/srv/backend"; "amd64"; "prod"; "bin"] = "/srv/backend/amd64/prod/bin"
  /\ path.join ["/srv/backend"; "amd64"; ".."; "bin"] = "/srv/backend/bin"
  /\ path.join ["/srv/backend"; "config.json"] = "/srv/backend/config.json"
  /\ path.join [""; ""] = ".".
Proof. repeat split. Qed.

Example basename_examples :
  path.basename "https://github.com/shenxinli/redis-release/releases/download/v5/redis-5-windows-x64.zip"
  = "redis-5-windows-x64.zip"
  /\ path.basename "/a/b//" = "b"
  /\ path.basename "///" = "".
Proof. repeat split. Qed.

Example dirname_examples :
  path.dirname "/srv/backend/amd64/prod/bin/redis-5-windows-x64.zip"
  = "/srv/backend/amd64/prod/bin"
  /\ path.dirname "/a" = "/"
  /\ path.dirname "//a" = "//"
  /\ path.dirname "a//b" = "a/"
  /\ path.dirname "a" = "."
  /\ path.dirname "" = ".".
Proof. repeat split. Qed.

Example stripVersionSuffix_examples :
  stripVersionSuffix "jdk-version" = "jdk"
  /\ stripVersionSuffix "redis" = "redis"
  /\ stripVersionSuffix "jdk-version-version" = "jdk-version"
  /\ stripVersionSuffix "-versions" = "-versions".
Proof. repeat split. Qed.

Lemma append_assoc (a b c : string) : (a +:+ b) +:+ c = a +:+ (b +:+ c).
Proof.
  induction a as [|x a IH]; [reflexivity|].
  change (String x ((a +:+ b) +:+ c) = String x (a +:+ (b +:+ c))). by rewrite IH.
Qed.

Lemma segments_nonempty (p : string) : path.segments p ≠ [].
Proof.
  destruct p as [|c rest]; simpl; [discriminate|].
  destruct (Ascii.eqb c "/"); [discriminate|].
  destruct (path.segments rest); discriminate.
Qed.

Lemma segments_noSlash (s : string) : noSlash s = true -> path.segments s = [s].
Proof.
  induction s as [|c rest IH]; simpl; [reflexivity|].
  intros Hs. apply andb_prop in Hs as [Hc Hrest].
  destruct (Ascii.eqb c "/"); [discriminate Hc|].
  rewrite (IH Hrest). reflexivity.
Qed.

Lemma segments_app_slash (a b : string) :
  path.segments (a +:+ String "/" b) = (path.segments a ++ path.segments b)%list.
Proof.
  induction a as [|c a IH]; simpl; [reflexivity|].
  rewrite IH. destruct (Ascii.eqb c "/"); [reflexivity|].
  pose proof (segments_nonempty a) as Hne.
  destruct (path.segments a) as [|seg segs]; [done | reflexivity].
Qed.

Lemma append_cons (c : ascii) (a b : string) : String c a +:+ b = String c (a +:+ b).
Proof. reflexivity. Qed.

Lemma concat_cons (sep first second : string) (others : list string) :
  String.concat sep (first :: second :: others)
  = first +:+ sep +:+ String.concat sep (second :: others).
Proof. reflexivity. Qed.

Lemma concat_segments (p : string) : String.concat "/" (path.segments p) = p.
Proof.
  induction p as [|c rest IH]; [reflexivity|]. cbn [path.segments].
  pose proof (segments_nonempty rest) as Hne.
  destruct (Ascii.eqb c "/") eqn:Hc.
  - apply Ascii.eqb_eq in Hc as ->.
    destruct (path.segments rest) as [|seg segs]; [done|].
    rewrite concat_cons, IH. reflexivity.
  - destruct (path.segments rest) as [|seg [|seg' segs]]; [done| |].
    + cbn [String.concat] in *. by rewrite IH.
    + rewrite concat_cons in *. rewrite append_cons. by rewrite IH.
Qed.

Lemma segments_concat (segs : list string) :
  segs ≠ [] -> forallb noSlash segs = true ->
  path.segments (String.concat "/" segs) = segs.
Proof.
  induction segs as [|seg [|seg' segs] IH]; intros Hne Hall; [done| |].
  - cbn in *. apply segments_noSlash. by destruct (noSlash seg).
  - cbn [forallb] in Hall. apply andb_prop in Hall as [Hseg Hall].
    rewrite concat_cons. change ("/" +:+ ?x) with (String "/" x).
    rewrite segments_app_slash, (segments_noSlash _ Hseg), IH by done. reflexivity.
Qed.

Lemma plainSegment_noSlash (segs : list string) :
  forallb plainSegment segs = true -> forallb noSlash segs = true.
Proof.
  induction segs as [|seg segs IH]; [reflexivity|]. cbn [forallb].
  intros Hall. apply andb_prop in Hall as [Hseg Hall]. rewrite (IH Hall).
  unfold plainSegment in Hseg. apply andb_prop in Hseg as [_ ->]. reflexivity.
Qed.

(** [normalizeString] keeps plain segments, in order. *)
Lemma normalize_plain_segments (segs res : list string) :
  forallb plainSegment segs = true ->
  fold_left (path.normalizeStep false) segs res = (rev segs ++ res)%list.
Proof.
  revert res. induction segs as [|seg segs IH]; intros res Hall; [reflexivity|].
  cbn [forallb] in Hall. apply andb_prop in Hall as [Hseg Hall].
  cbn [fold_left rev]. rewrite IH by exact Hall. rewrite <- app_assoc. cbn [app].
  f_equal. unfold path.normalizeStep. unfold plainSegment in Hseg.
  apply andb_prop in Hseg as [Hseg _]. apply andb_prop in Hseg as [Hseg Hdd].
  apply andb_prop in Hseg as [He Hd].
  apply negb_true_iff in He, Hd, Hdd. rewrite He, Hd, Hdd. reflexivity.
Qed.

Lemma endsWithSlash_split (p : string) :
  path.endsWithSlash p = true -> exists q, p = q +:+ "/".
Proof.
  induction p as [|c rest IH]; [discriminate|].
  destruct rest as [|c' rest'].
  - cbn. intros Hc. apply Ascii.eqb_eq in Hc as ->. by exists "".
  - intros Hends. change (path.endsWithSlash (String c' rest') = true) in Hends.
    destruct (IH Hends) as [q Hq]. exists (String c q). simpl. by rewrite Hq.
Qed.

Lemma last_plain_no_trailing_slash (p : string) (segs : list string) (seg : string) :
  path.segments p = (segs ++ [seg])%list -> seg ≠ "" -> path.endsWithSlash p = false.
Proof.
  intros Hsegs Hseg. destruct (path.endsWithSlash p) eqn:Hends; [|reflexivity].
  destruct (endsWithSlash_split p Hends) as [q ->].
  change (q +:+ "/") with (q +:+ String "/" "") in Hsegs.
  rewrite segments_app_slash in Hsegs. cbn [path.segments] in Hsegs.
  apply app_inj_tail in Hsegs as [_ Heq]. by destruct Hseg.
Qed.

Lemma isPlainAbsolute_segments (p : string) :
  isPlainAbsolute p = true ->
  exists seg segs,
    path.segments p = "" :: seg :: segs /\ forallb plainSegment (seg :: segs) = true.
Proof.
  unfold isPlainAbsolute. intros Hplain.
  destruct (path.segments p) as [|first rest]; [discriminate Hplain|].
  destruct first; [|discriminate Hplain].
  destruct rest as [|seg segs]; [discriminate Hplain|].
  by exists seg, segs.
Qed.

(** A plain absolute path is in normal form. *)
Lemma normalize_plainAbsolute (p : string) :
  isPlainAbsolute p = true -> path.normalize p = p.
Proof.
  intros Hplain.
  destruct (isPlainAbsolute_segments p Hplain) as (seg & segs & Hsegs & Hall).
  assert (Hp : p = String "/" (String.concat "/" (seg :: segs))).
  { rewrite <- (concat_segments p) at 1. rewrite Hsegs. reflexivity. }
  assert (Hnonempty : String.concat "/" (seg :: segs) ≠ "").
  { cbn [forallb] in Hall. apply andb_prop in Hall as [Hseg _].
    unfold plainSegment in Hseg. destruct seg; [discriminate Hseg|].
    destruct segs; discriminate. }
  assert (Hends : path.endsWithSlash p = false).
  { destruct (exists_last (l := seg :: segs)) as (init & final & Hlast); [discriminate|].
    apply (last_plain_no_trailing_slash p ("" :: init) final).
    - rewrite Hsegs, Hlast. reflexivity.
    - rewrite Hlast, forallb_app in Hall. apply andb_prop in Hall as [_ Hfinal].
      cbn in Hfinal. unfold plainSegment in Hfinal. by destruct final. }
  assert (Hstart : path.startsWithSlash p = true) by (rewrite Hp; reflexivity).
  assert (Hne : p ≠ "") by (rewrite Hp; discriminate).
  set (kept := seg :: segs) in *. clearbody kept.
  unfold path.normalize, path.normalizeString.
  rewrite (eqb_false _ _ Hne), Hends, Hstart, Hsegs.
  cbn [negb fold_left]. change (path.normalizeStep false [] "") with (@nil string).
  rewrite normalize_plain_segments by exact Hall.
  rewrite app_nil_r, rev_involutive, (eqb_false _ _ Hnonempty).
  symmetry. exact Hp.
Qed.

(** Appending plain segments to a plain absolute path gives one. *)
Lemma isPlainAbsolute_extend (p : string) (more : list string) :
  isPlainAbsolute p = true -> more ≠ [] -> forallb plainSegment more = true ->
  isPlainAbsolute (p +:+ "/" +:+ String.concat "/" more) = true.
Proof.
  intros Hplain Hne Hmore.
  destruct (isPlainAbsolute_segments p Hplain) as (seg & segs & Hsegs & Hall).
  unfold isPlainAbsolute. change ("/" +:+ ?x) with (String "/" x).
  rewrite segments_app_slash, segments_concat, Hsegs
    by (try apply plainSegment_noSlash; done).
  cbn [app]. change (seg :: (segs ++ more)%list) with ((seg :: segs) ++ more)%list.
  rewrite forallb_app, Hall, Hmore. reflexivity.
Qed.

Lemma isPlainAbsolute_nonempty (p : string) : isPlainAbsolute p = true -> p ≠ "".
Proof. intros Hplain ->. discriminate Hplain. Qed.

(** [path.join] of a plain absolute path and plain segments. *)
Lemma join_plain (p : string) (more : list string) :
  isPlainAbsolute p = true -> more ≠ [] -> forallb plainSegment more = true ->
  path.join (p :: more) = p +:+ "/" +:+ String.concat "/" more.
Proof.
  intros Hplain Hne Hmore. unfold path.join.
  assert (Hkeep : filter (fun arg : string => arg ≠ "") (p :: more) = p :: more).
  { rewrite filter_cons_True by (by apply isPlainAbsolute_nonempty). f_equal.
    clear Hne. induction more as [|seg more IH]; [reflexivity|].
    cbn [forallb] in Hmore. apply andb_prop in Hmore as [Hseg Hmore].
    rewrite filter_cons_True by (unfold plainSegment in Hseg; by destruct seg).
    by rewrite IH. }
  rewrite Hkeep. destruct more as [|seg more]; [done|].
  rewrite concat_cons.
  apply normalize_plainAbsolute. by apply isPlainAbsolute_extend.
Qed.

(** The destination the orchestrator computes is
    [<root>/<arch>/<environment>/bin/<basename of the URL>]. *)
Lemma destinationFile_plain (root arch envName downloadUrl : string) :
  isPlainAbsolute root = true ->
  plainSegment arch = true -> plainSegment envName = true ->
  plainSegment (path.basename downloadUrl) = true ->
  destinationFile root arch envName downloadUrl
  = root +:+ "/" +:+ arch +:+ "/" +:+ envName +:+ "/bin/" +:+ path.basename downloadUrl.
Proof.
  intros Hroot Harch Henv Hbase. unfold destinationFile.
  assert (Hdir : forallb plainSegment [arch; envName; "bin"] = true).
  { cbn [forallb]. rewrite Harch, Henv. reflexivity. }
  rewrite (join_plain root [arch; envName; "bin"]) by done.
  rewrite (join_plain _ [path.basename downloadUrl]).
  - cbn [String.concat]. rewrite !append_assoc. reflexivity.
  - by apply isPlainAbsolute_extend.
  - done.
  - cbn [forallb]. by rewrite Hbase.
Qed.

(** ** The console only grows *)

Lemma extends_refl (w : World) : extends w w.
Proof. exists []. by rewrite app_nil_r. Qed.

Lemma extends_trans (w1 w2 w3 : World) : extends w1 w2 -> extends w2 w3 -> extends w1 w3.
Proof.
  intros [more1 H1] [more2 H2]. exists (more1 ++ more2)%list.
  by rewrite H2, H1, app_assoc.
Qed.

Lemma extends_same_console (w w' : World) : console w' = console w -> extends w w'.
Proof. intros Heq. exists []. by rewrite app_nil_r. Qed.

Lemma extends_log (line : string) (w w' : World) :
  extends (console_log line w) w' -> extends w w'.
Proof. apply extends_trans. by exists [[line]]. Qed.

Lemma extends_unlink (p : string) (w : World) : extends w (snd (fs_unlink p w)).
Proof.
  apply extends_same_console. unfold fs_unlink.
  destruct (decide _); [reflexivity|]. destruct (files w !! p); reflexivity.
Qed.


Lemma downloadFile_extends (net : list NetEvent) :
  forall url destinationPath w,
    extends w (snd (fst (downloadFile net url destinationPath w))).
Proof.
  assert (Hissued : forall url destinationPath w w',
             extends (requestIssued url destinationPath w) w' -> extends w w').
  { intros url destinationPath w w'. apply extends_trans.
    exists [["🔄 开始下载: " +:+ urlText url]; ["   目标路径: " +:+ destinationPath]].
    cbn. by rewrite <- app_assoc. }
  induction net as [|ev net IH]; intros url destinationPath w;
    (destruct (files w !! destinationPath) as [content|] eqn:Hfile;
     [ rewrite downloadFile_hit by (rewrite Hfile; eauto);
       by exists [["文件已存在: " +:+ destinationPath]]
     | destruct (decide (path.dirname destinationPath ∈ denied w)) as [Hden|Hden];
       [ match goal with
         | |- context [downloadFile ?script _ _ _] =>
             destruct (downloadFile_mkdir_refused script url _ _ Hfile Hden) as [msg ->]
         end; apply extends_refl
       | rewrite downloadFile_miss by assumption; cbn zeta;
         apply (Hissued url destinationPath) ] ]).
  - apply extends_refl.
  - destruct ev as [msg|msg|msg|statusCode location body]; cbn [fst snd].
    + apply extends_refl.
    + apply extends_unlink.
    + by apply extends_same_console.
    + destruct ((statusCode =? 302)%Z || (statusCode =? 301)%Z).
      * eapply extends_log, IH.
      * destruct (negb (statusCode =? 200)%Z); [apply extends_refl|].
        destruct body as [data|received msg|received]; cbn [fst snd].
        -- unfold fs_rename. destruct (decide _); [by apply extends_same_console|].
           cbn. rewrite lookup_insert_eq.
           by exists [["✅ 下载完成: " +:+ destinationPath]].
        -- eapply extends_trans; [|apply extends_unlink]. by apply extends_same_console.
        -- by apply extends_same_console.
Qed.

(** ** The orchestrator *)

(** What the resolver does to the world: nothing but the override warning,
    written when the version it names converts. *)
Lemma generateDownloadLink_world (software : string) (version : Value)
    (platform arch : string) (w : World) :
  snd (generateDownloadLink software version platform arch w)
  = if (software =? "redis") && (platform =? "windows")
    then match ToString version with
         | Some shown => console_log (overrideWarning shown) w
         | None => w
         end
    else w.
Proof.
  unfold generateDownloadLink, generateDownloadLinkIn.
  destruct ((software =? "redis") && (platform =? "windows")).
  - destruct (ToString version) as [shown|]; [|reflexivity].
    destruct (negb _); [reflexivity|].
    match goal with |- context [match ?filename with Return _ => _ | _ => _ end] =>
      destruct filename end; reflexivity.
  - destruct (negb _); [reflexivity|].
    match goal with |- context [match ?filename with Return _ => _ | _ => _ end] =>
      destruct filename end; reflexivity.
Qed.

(** What the resolver answers does not depend on the world. *)
Lemma generateDownloadLink_outcome (software : string) (version : Value)
    (platform arch : string) (w w0 : World) :
  fst (generateDownloadLink software version platform arch w)
  = fst (generateDownloadLink software version platform arch w0).
Proof.
  unfold generateDownloadLink, generateDownloadLinkIn.
  destruct ((software =? "redis") && (platform =? "windows")).
  - destruct (ToString version) as [shown|]; [|reflexivity].
    destruct (negb _); [reflexivity|].
    match goal with |- context [match ?filename with Return _ => _ | _ => _ end] =>
      destruct filename end; reflexivity.
  - destruct (negb _); [reflexivity|].
    match goal with |- context [match ?filename with Return _ => _ | _ => _ end] =>
      destruct filename end; reflexivity.
Qed.

(** A link is returned only for a version that converts: every path to a
    link goes through a template literal with the version in it. *)
Lemma generateDownloadLink_converts (software : string) (version : Value)
    (platform arch : string) (w : World) (downloadUrl : string) :
  fst (generateDownloadLink software version platform arch w) = Return downloadUrl ->
  is_Some (ToString version).
Proof.
  unfold generateDownloadLink, generateDownloadLinkIn, template.
  destruct ((software =? "redis") && (platform =? "windows"));
    (destruct (ToString version) as [shown|]; [eauto|]); [discriminate|].
  destruct (negb _); [discriminate|].
  destruct (software =? "postgresql"), (software =? "redis"), (software =? "jdk"),
    (platform =? "windows"), (platform =? "linux");
    cbn [fst]; intros Hlink; discriminate Hlink.
Qed.

Lemma generateDownloadLink_extends software version platform arch w :
  extends w (snd (generateDownloadLink software version platform arch w)).
Proof.
  rewrite generateDownloadLink_world.
  destruct (_ && _); [|apply extends_refl].
  destruct (ToString version); [by eexists [_] | apply extends_refl].
Qed.

(** C7: for the configuration [{"prod": {"jdk-version": "17"}}], platform
    linux and architecture amd64, the resolver returns the java-release URL of
    [v17/openjdk-17-linux-amd64.tar.gz], the orchestrator computes the
    destination [<root>/amd64/prod/bin/openjdk-17-linux-amd64.tar.gz], and a
    run over that configuration has this one job, announces this URL and this
    destination and, when the download resolves, resolves to that path. *)
Theorem C7_end_to_end_jdk17 (root : string) (JSON_parse : string -> Value + string)
    (configPath data : string) (net : list NetEvent) (w : World) :
  isPlainAbsolute root = true ->
  files w !! configPath = Some data ->
  JSON_parse data = inl prodConfig ->
  generateDownloadLink "jdk" (VStr "17") "linux" "amd64" w
  = (Return "https://github.com/shenxinli/java-release/releases/download/v17/openjdk-17-linux-amd64.tar.gz", w)
  /\ destinationFile root "amd64" "prod"
       "https://github.com/shenxinli/java-release/releases/download/v17/openjdk-17-linux-amd64.tar.gz"
     = root +:+ "/amd64/prod/bin/openjdk-17-linux-amd64.tar.gz"
  /\ exists outcome more,
       let '(exit, reports, w', net') :=
         installAllSoftware root JSON_parse configPath "linux" "amd64" net w in
       reports = [mkReport "prod" "jdk" (VStr "17") outcome]
       /\ console w'
          = (console w
             ++ [[newline +:+ "===== 开始检查 prod 环境的软件 ====="];
                 [newline +:+ "🔍 检查 jdk v17..."];
                 ["   下载源: https://github.com/shenxinli/java-release/releases/download/v17/openjdk-17-linux-amd64.tar.gz"];
                 ["   目标路径: " +:+ root +:+ "/amd64/prod/bin/openjdk-17-linux-amd64.tar.gz"]]
             ++ more)%list
       /\ (forall p, outcome = Return p ->
           p = root +:+ "/amd64/prod/bin/openjdk-17-linux-amd64.tar.gz").
Proof.
  intros Hroot Hfile Hparse.
  assert (Hlink : forall w0, generateDownloadLink "jdk" (VStr "17") "linux" "amd64" w0
          = (Return "https://github.com/shenxinli/java-release/releases/download/v17/openjdk-17-linux-amd64.tar.gz", w0)).
  { intros w0. unfold generateDownloadLink, generateDownloadLinkIn, getProperty.
    rewrite own_prefix_jdk. reflexivity. }
  assert (Hdest : destinationFile root "amd64" "prod"
       "https://github.com/shenxinli/java-release/releases/download/v17/openjdk-17-linux-amd64.tar.gz"
     = root +:+ "/amd64/prod/bin/openjdk-17-linux-amd64.tar.gz").
  { rewrite destinationFile_plain by (exact Hroot || reflexivity). reflexivity. }
  split; [apply Hlink|]. split; [exact Hdest|].
  unfold installAllSoftware, readConfig. rewrite Hfile, Hparse.
  cbn [prodConfig objectEntries installEnvironments installComponents].
  unfold installComponent.
  change (stripVersionSuffix "jdk-version") with "jdk".
  rewrite Hlink, Hdest. cbn [template ToString].
  match goal with
  | |- context [downloadFile net ?url ?dest ?w3] =>
      pose proof (downloadFile_extends net url dest w3) as [more Hconsole];
      pose proof (downloadFile_resolved net url dest w3) as Hresolved;
      destruct (downloadFile net url dest w3) as [[attempt w4] net4]
  end.
  cbn [fst snd] in Hconsole.
  exists attempt.
  assert (Hpath : forall p, attempt = Return p ->
                    p = root +:+ "/amd64/prod/bin/openjdk-17-linux-amd64.tar.gz").
  { intros p ->. by destruct (Hresolved p w4 net4 eq_refl) as [-> _]. }
  destruct attempt as [p|error| |error];
    cbn [console_log console_error console fatal];
    rewrite Hconsole;
    eexists; (split; [reflexivity|]); (split; [|exact Hpath]);
    cbn [console_log console]; rewrite <- !app_assoc; cbn [app]; reflexivity.
Qed.

Lemma C7_end_to_end_jdk17_witness :
  generateDownloadLink "jdk" (VStr "17") "linux" "amd64" configuredWorld
  = (Return "https://github.com/shenxinli/java-release/releases/download/v17/openjdk-17-linux-amd64.tar.gz",
     configuredWorld)
  /\ destinationFile "/srv/backend" "amd64" "prod"
       "https://github.com/shenxinli/java-release/releases/download/v17/openjdk-17-linux-amd64.tar.gz"
     = "/srv/backend" +:+ "/amd64/prod/bin/openjdk-17-linux-amd64.tar.gz"
  /\ exists outcome more,
       let '(exit, reports, w', net') :=
         installAllSoftware "/srv/backend" parseProdConfig "/srv/backend/config.json"
           "linux" "amd64" [Response 200 VUndefined (BodyEnds "JDK17")] configuredWorld in
       reports = [mkReport "prod" "jdk" (VStr "17") outcome]
       /\ console w'
          = (console configuredWorld
             ++ [[newline +:+ "===== 开始检查 prod 环境的软件 ====="];
                 [newline +:+ "🔍 检查 jdk v17..."];
                 ["   下载源: https://github.com/shenxinli/java-release/releases/download/v17/openjdk-17-linux-amd64.tar.gz"];
                 ["   目标路径: " +:+ "/srv/backend"
                  +:+ "/amd64/prod/bin/openjdk-17-linux-amd64.tar.gz"]]
             ++ more)%list
       /\ (forall p, outcome = Return p ->
           p = "/srv/backend" +:+ "/amd64/prod/bin/openjdk-17-linux-amd64.tar.gz").
Proof.
  apply (C7_end_to_end_jdk17 "/srv/backend" parseProdConfig "/srv/backend/config.json"
           prodConfigText [Response 200 VUndefined (BodyEnds "JDK17")] configuredWorld);
    reflexivity.
Defined.

Lemma objectEntries_settles (v : Value) :
  objectEntries v ≠ Hang /\ forall e, objectEntries v ≠ Crash e.
Proof. destruct v; split; discriminate. Qed.

Lemma extends_elem_of (w w' : World) (line : list string) :
  extends w w' -> line ∈ console w -> line ∈ console w'.
Proof. intros [more ->] Hin. set_solver. Qed.

(** *** How a run ends *)

Lemma contained_proceeds (r : Report) (exit : Exit) : contained r -> ~ stopsAt exit r.
Proof.
  unfold contained, stopsAt. destruct (r_result r).
  - intros _ [].
  - intros [shown Hshown] [_ Hnone]. congruence.
  - intros [].
  - intros [].
Qed.

Lemma stopsAt_not_finished (r : Report) : ~ stopsAt Finished r.
Proof.
  unfold stopsAt. destruct (r_result r); [intros [] | | discriminate..].
  intros [Hexit _]. discriminate Hexit.
Qed.

Lemma runEnds_cons (broken : bool) (planned : list Job) (exit : Exit) (r : Report)
    (reports : list Report) :
  contained r -> runEnds broken planned exit reports ->
  runEnds broken (reportJob r :: planned) exit (r :: reports).
Proof.
  intros Hr [(Hexit & Hplan & Hall)|(earlier & final & -> & Hall & Hstop & Hprefix)].
  - left. split; [exact Hexit|]. split; [by rewrite <- Hplan | by constructor].
  - right. exists (r :: earlier), final. split; [reflexivity|].
    split; [by constructor|]. split; [exact Hstop|]. by apply prefix_cons.
Qed.

Lemma runEnds_here (broken : bool) (planned : list Job) (exit : Exit) (r : Report) :
  stopsAt exit r -> runEnds broken (reportJob r :: planned) exit [r].
Proof.
  intros Hstop. right. exists [], r. split; [reflexivity|]. split; [constructor|].
  split; [exact Hstop|]. apply prefix_cons, prefix_nil.
Qed.

Lemma runEnds_app (broken : bool) (before after : list Job) (exit : Exit)
    (first later : list Report) :
  runEnds false before Finished first -> runEnds broken after exit later ->
  runEnds broken (before ++ after) exit (first ++ later).
Proof.
  intros [(_ & <- & Hfirst)|(earlier & final & _ & _ & Hstop & _)];
    [|by destruct (stopsAt_not_finished final)].
  intros [(Hexit & <- & Hlater)|(earlier & final & -> & Hall & Hstop & Hprefix)].
  - left. split; [exact Hexit|]. split; [by rewrite map_app | by apply Forall_app].
  - right. exists (first ++ earlier)%list, final. rewrite app_assoc.
    split; [reflexivity|]. split; [by apply Forall_app|]. split; [exact Hstop|].
    rewrite <- app_assoc, map_app. by apply prefix_app.
Qed.

Lemma runEnds_stopped (broken : bool) (before after : list Job) (exit : Exit)
    (reports : list Report) :
  runEnds false before exit reports -> exit ≠ Finished ->
  runEnds broken (before ++ after) exit reports.
Proof.
  intros [(Hexit & _)|(earlier & final & -> & Hall & Hstop & Hprefix)] Hne; [done|].
  right. exists earlier, final. split; [reflexivity|]. split; [exact Hall|].
  split; [exact Hstop|]. by apply prefix_app_r.
Qed.

Lemma runEnds_prefix (broken : bool) (planned : list Job) (exit : Exit)
    (reports : list Report) :
  runEnds broken planned exit reports -> map reportJob reports `prefix_of` planned.
Proof. intros [(_ & <- & _)|(earlier & final & _ & _ & _ & Hprefix)]; done. Qed.

(** After a job that was contained, the next planned job is attempted. *)
Lemma runEnds_next (broken : bool) (planned : list Job) (exit : Exit)
    (reports : list Report) (i : nat) (r : Report) (job : Job) :
  runEnds broken planned exit reports ->
  reports !! i = Some r -> contained r -> planned !! S i = Some job ->
  exists next, reports !! S i = Some next /\ reportJob next = job.
Proof.
  intros Hends Hr Hcontained Hjob.
  assert (Hlong : S i < length reports).
  { destruct Hends as [(_ & <- & _)|(earlier & final & -> & _ & Hstop & _)].
    - apply lookup_lt_Some in Hjob. by rewrite length_map in Hjob.
    - rewrite length_app. cbn [length].
      destruct (decide (i < length earlier)) as [Hlt|Hge]; [lia|].
      pose proof (lookup_lt_Some _ _ _ Hr) as Hi. rewrite length_app in Hi. cbn in Hi.
      replace i with (length earlier + 0) in Hr by lia.
      rewrite lookup_app_r, Nat.add_comm, Nat.add_sub in Hr by lia.
      injection Hr as <-. by destruct (contained_proceeds final exit). }
  destruct (lookup_lt_is_Some_2 _ _ Hlong) as [next Hnext].
  exists next. split; [exact Hnext|].
  apply runEnds_prefix in Hends.
  assert (Hmapped : map reportJob reports !! S i = Some (reportJob next)).
  { change (map reportJob reports) with (reportJob <$> reports).
    by rewrite list_lookup_fmap, Hnext. }
  pose proof (prefix_lookup_Some _ _ _ _ Hmapped Hends) as Hsame. congruence.
Qed.

Section OrchestratorProperties.

Variable root : string.

(** One job: the console grows, and an error taken by the [catch] has its
    line written last. *)
Lemma installComponent_console platform arch envName componentKey version net w :
  let '(attempt, w', _) :=
    installComponent root platform arch envName componentKey version net w in
  extends w w'
  /\ forall error shown,
       attempt = Throw error -> ToString version = Some shown ->
       failureLine (mkReport envName (stripVersionSuffix componentKey) version attempt)
         shown error ∈ console w'.
Proof.
  unfold installComponent, template.
  pose proof (generateDownloadLink_extends (stripVersionSuffix componentKey) version
                platform arch w) as Hlink.
  destruct (generateDownloadLink _ version platform arch w) as [[downloadUrl|e| |e] w1];
    cbn [snd] in Hlink.
  - destruct (ToString version) as [shown|] eqn:Hshown.
    + match goal with
      | |- context [downloadFile net ?url ?dest ?w3] =>
          pose proof (downloadFile_extends net url dest w3) as Hdown;
          destruct (downloadFile net url dest w3) as [[[p|e| |e] w4] net4]
      end; cbn [fst snd] in Hdown;
        apply extends_log, extends_log, extends_log in Hdown;
        pose proof (extends_trans _ _ _ Hlink Hdown) as Hall.
      * split; [|discriminate].
        eapply extends_trans; [exact Hall|]. by eexists [_].
      * split.
        -- eapply extends_trans; [exact Hall|]. by eexists [_].
        -- intros error text [= <-] [= <-]. cbn [console_error console]. set_solver.
      * split; [exact Hall | discriminate].
      * split; [exact Hall | discriminate].
    + split; [exact Hlink | discriminate].
  - destruct (ToString version) as [shown|] eqn:Hshown.
    + split.
      * eapply extends_trans; [exact Hlink|]. by eexists [_].
      * intros error text [= <-] [= <-]. cbn [console_error console]. set_solver.
    + split; [exact Hlink | discriminate].
  - split; [exact Hlink | discriminate].
  - split; [exact Hlink | discriminate].
Qed.

Lemma installComponents_invariant platform arch envName entries :
  forall net w,
    loopInvariant false (environmentJobs envName entries) w
      (installComponents root platform arch envName entries net w).
Proof.
  induction entries as [|[componentKey version] rest IH]; intros net w.
  - cbn. split; [left; by repeat split|].
    split; [apply extends_refl | set_solver].
  - cbn [installComponents environmentJobs map fst snd].
    pose proof (installComponent_console platform arch envName componentKey version
                  net w) as Hjob.
    destruct (installComponent root platform arch envName componentKey version net w)
      as [[attempt w1] net1].
    destruct Hjob as [Hgrows Hlogged].
    set (report := mkReport envName (stripVersionSuffix componentKey) version attempt)
      in *.
    change (envName, stripVersionSuffix componentKey, version) with (reportJob report).
    assert (Hloop :
      contained report ->
      loopInvariant false (reportJob report :: environmentJobs envName rest) w
        (let '(exit, reports, w2, net2) :=
           installComponents root platform arch envName rest net1 w1 in
         (exit, report :: reports, w2, net2))).
    { intros Hcontained. specialize (IH net1 w1).
      destruct (installComponents root platform arch envName rest net1 w1)
        as [[[exit reports] w2] net2].
      destruct IH as (Hplan & Hgrows' & Hlogged').
      split; [by apply runEnds_cons|].
      split; [by eapply extends_trans|].
      intros r error shown [->|Hin]%elem_of_cons Hthrow Hshown.
      - eapply extends_elem_of; [exact Hgrows'|]. by apply Hlogged.
      - by apply Hlogged'. }
    assert (Hstop : forall exit w2,
      stopsAt exit report -> extends w1 w2 ->
      (forall error shown, attempt = Throw error -> ToString version = Some shown -> False) ->
      loopInvariant false (reportJob report :: environmentJobs envName rest) w
        (exit, [report], w2, net1)).
    { intros exit w2 Hstops Hgrows' Hnone.
      split; [by apply runEnds_here|]. split; [by eapply extends_trans|].
      intros r error shown ->%list_elem_of_singleton Hthrow Hshown.
      by destruct (Hnone error shown). }
    destruct attempt as [p|error| |error].
    + by apply Hloop.
    + destruct (ToString version) as [shown|] eqn:Hshown.
      * apply Hloop. unfold contained. cbn. rewrite Hshown. eauto.
      * cbn [fatal]. apply Hstop.
        -- unfold stopsAt. cbn. by split.
        -- by eexists [_].
        -- intros ? ? _ ?. congruence.
    + apply Hstop; [reflexivity | apply extends_refl | discriminate].
    + apply Hstop; [reflexivity | apply extends_refl | discriminate].
Qed.

Lemma installEnvironments_invariant platform arch environments :
  forall net w,
    loopInvariant (negb (allEnumerable environments)) (plannedJobs environments) w
      (installEnvironments root platform arch environments net w).
Proof.
  induction environments as [|[envName envConfig] rest IH]; intros net w.
  - cbn. split; [left; by repeat split|]. split; [by eexists [_] | set_solver].
  - cbn [installEnvironments plannedJobs allEnumerable forallb snd]. unfold isEnumerable.
    set (w0 := console_log _ w).
    assert (Hheader : extends w w0) by (by eexists [_]).
    destruct (objectEntries_settles envConfig) as [Hsettles Halive].
    destruct (objectEntries envConfig) as [entries|error| |error];
      [| |done|by destruct (Halive error)].
    + cbn [andb].
      pose proof (installComponents_invariant platform arch envName entries net w0)
        as Hinner.
      destruct (installComponents root platform arch envName entries net w0)
        as [[[exit reports] w1] net1].
      destruct Hinner as (Hplan & Hgrows & Hlogged).
      assert (Hstopped : exit ≠ Finished ->
                loopInvariant (negb (allEnumerable rest))
                  (environmentJobs envName entries ++ plannedJobs rest) w
                  (exit, reports, w1, net1)).
      { intros Hne. split; [by apply runEnds_stopped|].
        split; [by eapply extends_trans | exact Hlogged]. }
      destruct exit as [|code| |error]; [|by apply Hstopped..].
      specialize (IH net1 w1).
      destruct (installEnvironments root platform arch rest net1 w1)
        as [[[exit later] w2] net2].
      destruct IH as (Hplan' & Hgrows' & Hlogged').
      split; [by apply runEnds_app|].
      split; [exact (extends_trans _ _ _ Hheader (extends_trans _ _ _ Hgrows Hgrows'))|].
      intros r error shown [Hin|Hin]%elem_of_app Hthrow Hshown.
      * eapply extends_elem_of; [exact Hgrows'|]. by eapply Hlogged.
      * by eapply Hlogged'.
    + cbn. split; [left; by repeat split|]. split; [|set_solver].
      eapply extends_trans; [exact Hheader|]. by eexists [_].
Qed.

End OrchestratorProperties.

(** A run over a configuration that was read. *)
Lemma installAllSoftware_invariant (root : string) (JSON_parse : string -> Value + string)
    (configPath data : string) (config : Value) (environments : list (string * Value))
    (platform arch : string) (net : list NetEvent) (w : World) :
  files w !! configPath = Some data ->
  JSON_parse data = inl config ->
  objectEntries config = Return environments ->
  loopInvariant (negb (allEnumerable environments)) (plannedJobs environments) w
    (installAllSoftware root JSON_parse configPath platform arch net w).
Proof.
  intros Hfile Hparse Hconfig.
  unfold installAllSoftware, readConfig. rewrite Hfile, Hparse, Hconfig.
  apply installEnvironments_invariant.
Qed.

(** C9 at two configurations of two jobs, jdk then redis, whose first job
    fails in a way the [catch] of the job does not contain; the redis job is
    never attempted. With a jdk version of 300 characters the temporary file
    cannot be opened: the write stream emits ['error'], nothing listens, and
    the process dies in the first job. With the jdk version [{"toString": 1}]
    the resolver throws a TypeError, the [catch] of the job throws it again
    while building its message, and the outer [catch] exits with code 1. *)
Theorem C9_job_failure_ends_the_run :
  configJobs (pairConfig (VStr longVersion))
  = [("prod", "jdk", VStr longVersion); ("prod", "redis", VStr "7")]
  /\ (let '(exit, reports, w', net') :=
        installAllSoftware "/srv/backend" (parsePairConfig (VStr longVersion))
          "/srv/backend/config.json" "linux" "amd64"
          [OpenFails "ENAMETOOLONG: name too long, open";
           Response 200 VUndefined (BodyEnds "REDIS7")] pairWorld in
      exit = Killed (NodeError "ENAMETOOLONG: name too long, open")
      /\ map reportJob reports = [("prod", "jdk", VStr longVersion)]
      /\ net' = [Response 200 VUndefined (BodyEnds "REDIS7")])
  /\ configJobs (pairConfig opaqueVersion)
     = [("prod", "jdk", opaqueVersion); ("prod", "redis", VStr "7")]
  /\ (let '(exit, reports, w', net') :=
        installAllSoftware "/srv/backend" (parsePairConfig opaqueVersion)
          "/srv/backend/config.json" "linux" "amd64"
          [Response 200 VUndefined (BodyEnds "REDIS7")] pairWorld in
      exit = ProcessExit 1
      /\ reports = [mkReport "prod" "jdk" opaqueVersion (Throw cannotConvert)]
      /\ net' = [Response 200 VUndefined (BodyEnds "REDIS7")]
      /\ requests w' = []
      /\ console w'
         = [[newline +:+ "===== 开始检查 prod 环境的软件 ====="];
            ["安装过程中发生严重错误:"; "Cannot convert object to primitive value"]]).
Proof. vm_compute. repeat split. Qed.

(** The run of the mixed configuration, spelled out: the failures of nginx
    and redis are contained, and the jdk job of the later environment is
    attempted. *)
Example mixed_run_reports :
  let '(exit, reports, w', net') :=
    installAllSoftware "/srv/backend" parseMixedConfig "/srv/backend/config.json"
      "linux" "amd64"
      [Response 404 VUndefined (BodyEnds ""); Response 200 VUndefined (BodyEnds "JDK17")]
      mixedWorld in
  exit = Finished
  /\ reports
     = [ mkReport "prod" "nginx" (VStr "1.25") (Throw (UnsupportedSoftware "nginx"));
         mkReport "prod" "redis" (VStr "7") (Throw (DownloadHTTPError 404));
         mkReport "staging" "jdk" (VNum "17")
           (Return "/srv/backend/amd64/staging/bin/openjdk-17-linux-amd64.tar.gz") ]
  /\ net' = [].
Proof. vm_compute. repeat split. Qed.

(** * Further properties *)

(** ** The link resolver, beyond the claims *)

Lemma supportedSoftware_cases (software : string) :
  supportedSoftware software = true ->
  software = "jdk" \/ software = "redis" \/ software = "postgresql".
Proof.
  unfold supportedSoftware. intros Hs.
  apply orb_prop in Hs as [Hs|Hs]; [apply orb_prop in Hs as [Hs|Hs]|];
    apply String.eqb_eq in Hs; auto.
Qed.

Lemma supportedPlatform_cases (platform : string) :
  supportedPlatform platform = true -> platform = "linux" \/ platform = "windows".
Proof.
  unfold supportedPlatform. intros Hp.
  apply orb_prop in Hp as [Hp|Hp]; apply String.eqb_eq in Hp; auto.
Qed.

(** The six supported pairs, by the template. *)
Lemma resolver_template (software : string) (version : Value)
    (platform arch prefix : string) (w : World) :
  supportedSoftware software = true ->
  supportedPlatform platform = true ->
  downloadPrefixes !! software = Some prefix ->
  fst (generateDownloadLink software version platform arch w)
  = match ToString version with
    | Some shown =>
        Return (prefix +:+ "/v" +:+ usedVersion software shown platform +:+ "/"
                +:+ templateFileName software shown platform arch)
    | None => Throw cannotConvert
    end.
Proof.
  intros Hs Hp Hprefix.
  apply supportedSoftware_cases in Hs. apply supportedPlatform_cases in Hp.
  unfold generateDownloadLink, generateDownloadLinkIn, getProperty, template.
  destruct Hs as [-> | [-> | ->]];
    [ rewrite own_prefix_jdk in *
    | rewrite own_prefix_redis in *
    | rewrite own_prefix_postgresql in * ];
    injection Hprefix as <-; destruct Hp as [-> | ->]; cbn;
    destruct (ToString version); reflexivity.
Qed.

Lemma supported_has_prefix (software : string) :
  supportedSoftware software = true -> exists prefix, downloadPrefixes !! software = Some prefix.
Proof.
  intros Hs. apply supportedSoftware_cases in Hs.
  destruct Hs as [-> | [-> | ->]]; eexists; reflexivity.
Qed.

(** X1: for each of jdk, redis and postgresql, on linux and on windows, and
    for a version that converts to a string, the resolver returns
    [<prefix>/v<V>/<stem>-<V>-<platform>-<arch><suffix>]: the prefix registered
    for the software, the stem [openjdk] for jdk and the software name
    otherwise, the suffix [.zip] on windows and [.tar.gz] on linux, and [V] the
    text of the requested version except for redis on windows, where it is
    [5]. For a version whose conversion throws, the resolver throws that
    TypeError. *)
Theorem X1_supported_pairs_follow_template (software : string) (version : Value)
    (platform arch prefix : string) (w : World) :
  supportedSoftware software = true ->
  supportedPlatform platform = true ->
  downloadPrefixes !! software = Some prefix ->
  fst (generateDownloadLink software version platform arch w)
  = match ToString version with
    | Some shown =>
        Return (prefix +:+ "/v" +:+ usedVersion software shown platform +:+ "/"
                +:+ templateFileName software shown platform arch)
    | None => Throw cannotConvert
    end.
Proof. apply resolver_template. Qed.

Lemma X1_supported_pairs_follow_template_witness :
  fst (generateDownloadLink "postgresql" (VNum "16") "windows" "x64" emptyWorld)
  = Return "https://github.com/shenxinli/postgresql-release/releases/download/v16/postgresql-16-windows-x64.zip"
  /\ fst (generateDownloadLink "jdk" opaqueVersion "linux" "amd64" emptyWorld)
     = Throw cannotConvert.
Proof.
  split.
  - apply (X1_supported_pairs_follow_template "postgresql" (VNum "16") "windows" "x64"
             "https://github.com/shenxinli/postgresql-release/releases/download"
             emptyWorld); reflexivity.
  - apply (X1_supported_pairs_follow_template "jdk" opaqueVersion "linux" "amd64"
             "https://github.com/shenxinli/java-release/releases/download"
             emptyWorld); reflexivity.
Defined.

(** X2: for each of jdk, redis and postgresql, a platform other than linux and
    windows makes the resolver throw "Unsupported platform for <family>:
    <platform>", and nothing is written to the console. *)
Theorem X2_other_platforms_are_rejected (software : string) (version : Value)
    (platform arch : string) (w : World) :
  supportedSoftware software = true ->
  supportedPlatform platform = false ->
  generateDownloadLink software version platform arch w
  = (Throw (UnsupportedPlatform (platformFamily software) platform), w)
  /\ message (UnsupportedPlatform (platformFamily software) platform)
     = "Unsupported platform for " +:+ platformFamily software +:+ ": " +:+ platform.
Proof.
  intros Hs Hp. split; [|reflexivity].
  apply supportedSoftware_cases in Hs.
  unfold supportedPlatform in Hp. apply orb_false_elim in Hp as [Hlinux Hwindows].
  unfold generateDownloadLink, generateDownloadLinkIn, getProperty.
  destruct Hs as [-> | [-> | ->]].
  - rewrite own_prefix_jdk. cbn. rewrite Hlinux, Hwindows. reflexivity.
  - rewrite own_prefix_redis. cbn. rewrite Hlinux, Hwindows. reflexivity.
  - rewrite own_prefix_postgresql. cbn. rewrite Hlinux, Hwindows. reflexivity.
Qed.

Lemma X2_other_platforms_are_rejected_witness :
  generateDownloadLink "redis" (VStr "7") "darwin" "arm64" emptyWorld
  = (Throw (UnsupportedPlatform (platformFamily "redis") "darwin"), emptyWorld)
  /\ message (UnsupportedPlatform (platformFamily "redis") "darwin")
     = "Unsupported platform for " +:+ platformFamily "redis" +:+ ": " +:+ "darwin".
Proof.
  apply (X2_other_platforms_are_rejected "redis" (VStr "7") "darwin" "arm64" emptyWorld);
    reflexivity.
Defined.

(** X3: the resolver reads nothing of the world and changes nothing of it but
    the console: its answer is the same in every world; files, directories,
    refusals and requests stay as they are; and the console gains one line,
    the override warning, for redis on windows with a version that converts
    (also when the call then throws), and nothing otherwise: a version whose
    conversion throws makes the call throw before the warning is written. *)
Theorem X3_resolver_only_warns (software : string) (version : Value)
    (platform arch : string) (w w0 : World) :
  fst (generateDownloadLink software version platform arch w)
  = fst (generateDownloadLink software version platform arch w0)
  /\ files (snd (generateDownloadLink software version platform arch w)) = files w
  /\ dirs (snd (generateDownloadLink software version platform arch w)) = dirs w
  /\ denied (snd (generateDownloadLink software version platform arch w)) = denied w
  /\ requests (snd (generateDownloadLink software version platform arch w)) = requests w
  /\ console (snd (generateDownloadLink software version platform arch w))
     = (console w
        ++ if (software =? "redis") && (platform =? "windows")
           then match ToString version with
                | Some shown => [[overrideWarning shown]]
                | None => []
                end
           else [])%list.
Proof.
  split; [apply generateDownloadLink_outcome|].
  rewrite generateDownloadLink_world.
  destruct ((software =? "redis") && (platform =? "windows"));
    [destruct (ToString version)|]; cbn; rewrite ?app_nil_r; repeat split.
Qed.

(** ** The component name *)

Lemma suffix_is_shorter (c : ascii) (s : string) :
  String c (s +:+ "-version") ≠ "-version".
Proof.
  intros Heq. apply (f_equal String.length) in Heq. cbn in Heq.
  rewrite length_append in Heq. cbn in Heq. lia.
Qed.

(** X4: the component of a key is the key without one trailing [-version];
    a key that does not end in [-version] is the component itself. *)
Theorem X4_component_name :
  (forall name, stripVersionSuffix (name +:+ "-version") = name)
  /\ (forall componentKey,
        (forall name, componentKey ≠ name +:+ "-version") ->
        stripVersionSuffix componentKey = componentKey).
Proof.
  split.
  - induction name as [|c name IH]; [reflexivity|].
    rewrite append_cons. cbn [stripVersionSuffix].
    rewrite (eqb_false _ _ (suffix_is_shorter c name)). by rewrite IH.
  - induction componentKey as [|c rest IH]; intros Hno.
    + reflexivity.
    + cbn [stripVersionSuffix].
      destruct (String c rest =? "-version") eqn:Heq.
      * apply String.eqb_eq in Heq. by destruct (Hno "").
      * rewrite IH; [reflexivity|].
        intros name ->. by apply (Hno (String c name)).
Qed.

Lemma X4_component_name_witness :
  stripVersionSuffix ("postgresql" +:+ "-version") = "postgresql"
  /\ stripVersionSuffix "redis" = "redis".
Proof.
  split.
  - apply (proj1 X4_component_name "postgresql").
  - apply (proj2 X4_component_name "redis").
    intros name Heq. apply (f_equal String.length) in Heq.
    rewrite length_append in Heq. cbn in Heq. lia.
Defined.

(** ** Where an artifact is stored *)

Lemma noSlash_append (a b : string) : noSlash (a +:+ b) = noSlash a && noSlash b.
Proof.
  induction a as [|c a IH]; [reflexivity|].
  rewrite append_cons. cbn [noSlash]. rewrite IH. by rewrite andb_assoc.
Qed.

(** The last segment of a path that ends in a slash-free, non-empty name. *)
Lemma basename_last (dir name : string) :
  noSlash name = true -> name ≠ "" ->
  path.basename (dir +:+ String "/" name) = name.
Proof.
  intros Hslash Hname. unfold path.basename.
  rewrite segments_app_slash, (segments_noSlash _ Hslash), rev_app_distr.
  cbn [rev app]. by rewrite filter_cons_True.
Qed.

Lemma templateFileName_plain (software shown platform arch : string) :
  supportedSoftware software = true ->
  supportedPlatform platform = true ->
  noSlash shown = true -> noSlash arch = true ->
  plainSegment (templateFileName software shown platform arch) = true.
Proof.
  intros Hs Hp Hversion Harch.
  apply supportedSoftware_cases in Hs. apply supportedPlatform_cases in Hp.
  unfold plainSegment, templateFileName.
  destruct Hs as [-> | [-> | ->]], Hp as [-> | ->];
    rewrite !noSlash_append, Harch;
    change (artifactStem "jdk") with "openjdk";
    change (artifactStem "redis") with "redis";
    change (artifactStem "postgresql") with "postgresql";
    unfold usedVersion; cbn [String.eqb Ascii.eqb Bool.eqb andb];
    rewrite ?Hversion; reflexivity.
Qed.

Lemma plainSegment_parts (seg : string) :
  plainSegment seg = true -> seg ≠ "" /\ noSlash seg = true.
Proof.
  unfold plainSegment. intros Hplain. apply andb_prop in Hplain as [Hplain Hslash].
  split; [|exact Hslash]. intros ->. discriminate Hplain.
Qed.

(** X5: a supported artifact is stored at
    [<root>/<arch>/<environment>/bin/<file name of the template>], for a
    script directory that is a plain absolute path, a plain architecture and
    environment name, and a version whose text has no slash. *)
Theorem X5_artifact_layout (root software : string) (version : Value)
    (shown platform arch envName : string) (w : World) :
  isPlainAbsolute root = true ->
  supportedSoftware software = true ->
  supportedPlatform platform = true ->
  plainSegment arch = true ->
  plainSegment envName = true ->
  ToString version = Some shown ->
  noSlash shown = true ->
  exists downloadUrl,
    fst (generateDownloadLink software version platform arch w) = Return downloadUrl
    /\ path.basename downloadUrl = templateFileName software shown platform arch
    /\ destinationFile root arch envName downloadUrl
       = root +:+ "/" +:+ arch +:+ "/" +:+ envName +:+ "/bin/"
         +:+ templateFileName software shown platform arch.
Proof.
  intros Hroot Hs Hp Harch Henv Hshown Hversion.
  destruct (supported_has_prefix software Hs) as [prefix Hprefix].
  destruct (plainSegment_parts arch Harch) as [_ Harch'].
  pose proof (templateFileName_plain software shown platform arch Hs Hp Hversion Harch')
    as Hfile.
  destruct (plainSegment_parts _ Hfile) as [Hnonempty Hslash].
  eexists. split.
  { rewrite (resolver_template software version platform arch prefix w) by assumption.
    by rewrite Hshown. }
  assert (Hbase : path.basename
                    (prefix +:+ "/v" +:+ usedVersion software shown platform +:+ "/"
                     +:+ templateFileName software shown platform arch)
                  = templateFileName software shown platform arch).
  { rewrite <- (basename_last (prefix +:+ "/v" +:+ usedVersion software shown platform)
                  _ Hslash Hnonempty) at 2.
    f_equal. rewrite !append_assoc. reflexivity. }
  split; [exact Hbase|].
  rewrite destinationFile_plain by (rewrite ?Hbase; assumption).
  by rewrite Hbase.
Qed.

Lemma X5_artifact_layout_witness :
  exists downloadUrl,
    fst (generateDownloadLink "redis" (VStr "7") "windows" "x64" emptyWorld)
    = Return downloadUrl
    /\ path.basename downloadUrl = templateFileName "redis" "7" "windows" "x64"
    /\ destinationFile "/srv/backend" "x64" "staging" downloadUrl
       = "/srv/backend" +:+ "/" +:+ "x64" +:+ "/" +:+ "staging" +:+ "/bin/"
         +:+ templateFileName "redis" "7" "windows" "x64".
Proof.
  apply (X5_artifact_layout "/srv/backend" "redis" (VStr "7") "7" "windows" "x64" "staging"
           emptyWorld); reflexivity.
Defined.

(** ** The downloader, beyond the claims *)

Lemma unlink_frame (p : string) (w : World) :
  denied (snd (fs_unlink p w)) = denied w
  /\ dirs (snd (fs_unlink p w)) = dirs w
  /\ requests (snd (fs_unlink p w)) = requests w
  /\ forall q, q ≠ p -> files (snd (fs_unlink p w)) !! q = files w !! q.
Proof.
  unfold fs_unlink. destruct (decide (p ∈ denied w)); [done|].
  destruct (files w !! p); [|done]. cbn. repeat split.
  intros q Hq. by apply lookup_delete_ne.
Qed.

Lemma rename_refused (from to : string) (w : World) :
  from ∈ denied w ->
  exists msg, fs_rename from to w = (Throw (NodeError msg), w).
Proof. intros Hden. unfold fs_rename. rewrite decide_True by done. eauto. Qed.

(** What a call does to the world, whatever the network does. *)
Lemma downloadFile_effect (net : list NetEvent) :
  forall url destinationPath w,
    denied (snd (fst (downloadFile net url destinationPath w))) = denied w
    /\ (forall q, q ≠ destinationPath -> q ≠ destinationPath +:+ ".tmp" ->
          files (snd (fst (downloadFile net url destinationPath w))) !! q = files w !! q)
    /\ (files w !! destinationPath = None ->
        (forall p, fst (fst (downloadFile net url destinationPath w)) ≠ Return p) ->
        files (snd (fst (downloadFile net url destinationPath w))) !! destinationPath = None)
    /\ (dirs (snd (fst (downloadFile net url destinationPath w))) = dirs w
        \/ dirs (snd (fst (downloadFile net url destinationPath w)))
           = dirs w ∪ list_to_set (withAncestors (path.dirname destinationPath))).
Proof.
  induction net as [|ev net IH]; intros url destinationPath w;
    (destruct (files w !! destinationPath) as [content|] eqn:Hfile;
     [ rewrite downloadFile_hit by (rewrite Hfile; eauto); cbn [fst snd];
       split; [reflexivity|]; split; [reflexivity|]; split; [discriminate|by left]
     | destruct (decide (path.dirname destinationPath ∈ denied w)) as [Hden|Hden];
       [ match goal with
         | |- context [downloadFile ?script _ _ _] =>
             destruct (downloadFile_mkdir_refused script url _ _ Hfile Hden) as [msg ->]
         end; cbn [fst snd]; split; [reflexivity|]; split; [reflexivity|];
         split; [done|by left]
       | rewrite downloadFile_miss by assumption; cbn zeta ] ]).
  - cbn [fst snd]. split; [reflexivity|]. split; [|split; [|by right]].
    + intros q _ Htemp. rewrite requestIssued_files. by apply lookup_insert_ne.
    + intros _ _. by apply requestIssued_absent.
  - set (tempPath := destinationPath +:+ ".tmp").
    set (w1 := requestIssued url destinationPath w).
    assert (Hframe1 : forall q, q ≠ tempPath -> files w1 !! q = files w !! q).
    { intros q Hq. subst w1. rewrite requestIssued_files. by apply lookup_insert_ne. }
    assert (Habsent1 : files w1 !! destinationPath = None)
      by (by apply requestIssued_absent).
    assert (Hdirs1 : dirs w1 = dirs w ∪ list_to_set (withAncestors (path.dirname destinationPath)))
      by reflexivity.
    assert (Hunlinked : forall content,
               let w2 := snd (fs_unlink tempPath (pipe tempPath content w1)) in
               denied w2 = denied w
               /\ (forall q, q ≠ destinationPath -> q ≠ tempPath ->
                     files w2 !! q = files w !! q)
               /\ files w2 !! destinationPath = None
               /\ dirs w2 = dirs w1).
    { intros content w2.
      destruct (unlink_frame tempPath (pipe tempPath content w1)) as (Hd & Hdirs & _ & Hf).
      split; [exact Hd|]. split; [|split; [|exact Hdirs]].
      - intros q _ Hq. subst w2. rewrite Hf by done. cbn. rewrite lookup_insert_ne by done.
        by apply Hframe1.
      - subst w2. rewrite Hf by (apply not_eq_sym, tempPath_ne). cbn.
        rewrite lookup_insert_ne by apply tempPath_ne. exact Habsent1. }
    assert (Hsame : pipe tempPath "" w1 = w1).
    { subst w1. unfold pipe, set_files, requestIssued. cbn.
      by rewrite insert_insert_eq. }
    destruct ev as [msg|msg|msg|statusCode location body]; cbn [fst snd].
    + split; [reflexivity|]. split; [|split; [done|by right]].
      intros q _ Hq. by apply Hframe1.
    + rewrite <- Hsame. destruct (Hunlinked "") as (Hd & Hf & Ha & Hdirs).
      split; [exact Hd|]. split; [exact Hf|]. split; [done|]. right. by rewrite Hdirs.
    + split; [reflexivity|]. split; [done|]. split; [done|by right].
    + destruct ((statusCode =? 302)%Z || (statusCode =? 301)%Z).
      * specialize (IH location destinationPath
                      (console_log ("🔀 重定向至: " +:+ urlText location) w1)).
        destruct IH as (Hd & Hf & Ha & Hdirs). split; [exact Hd|]. split; [|split].
        -- intros q Hq Hq'. rewrite Hf by done. by apply Hframe1.
        -- intros _ Hfailed. by apply Ha.
        -- right. cbn [console_log dirs] in Hdirs.
           destruct Hdirs as [->| ->]; rewrite Hdirs1; [reflexivity|].
           apply set_eq. intros d. rewrite !elem_of_union. tauto.
      * destruct (negb (statusCode =? 200)%Z); cbn [fst snd].
        { split; [reflexivity|]. split; [|split; [done|by right]].
          intros q _ Hq. by apply Hframe1. }
        destruct body as [data|received msg|received]; cbn [fst snd].
        -- unfold fs_rename.
           destruct (decide (tempPath ∈ denied (pipe tempPath data w1))) as [Hbusy|Hfree];
             cbn [fst snd].
           ++ split; [reflexivity|]. split; [|split; [|by right]].
              ** intros q _ Hq. unfold pipe, set_files. cbn [files].
                 rewrite lookup_insert_ne by done. by apply Hframe1.
              ** intros _ _. unfold pipe, set_files. cbn [files].
                 rewrite lookup_insert_ne by apply tempPath_ne. exact Habsent1.
           ++ assert (Hpiped : files (pipe tempPath data w1) !! tempPath = Some data)
                by apply lookup_insert_eq.
              rewrite Hpiped. cbn [fst snd]. split; [reflexivity|].
              split; [|split; [|by right]].
              ** intros q Hq Hq'. cbn [console_log set_files pipe files].
                 rewrite lookup_insert_ne, lookup_delete_ne, lookup_insert_ne by done.
                 by apply Hframe1.
              ** intros _ Hfailed. by destruct (Hfailed destinationPath).
        -- destruct (Hunlinked received) as (Hd & Hf & Ha & Hdirs).
           split; [exact Hd|]. split; [exact Hf|]. split; [done|]. right. by rewrite Hdirs.
        -- split; [reflexivity|]. split; [|split; [|by right]].
           ++ intros q _ Hq. unfold pipe, set_files. cbn [files].
              rewrite lookup_insert_ne by done. by apply Hframe1.
           ++ intros _ _. unfold pipe, set_files. cbn [files].
              rewrite lookup_insert_ne by apply tempPath_ne. exact Habsent1.
Qed.



(** The directories of that call, spelled out. *)
Example download_creates_directories :
  dirs (snd (fst (downloadFile [Response 200 VUndefined (BodyEnds "JDK17")]
                    (VStr "https://example.org/jdk") "/srv/arm64/dev/bin/jdk.tar.gz"
                    emptyWorld)))
  = {["/srv/arm64/dev/bin"; "/srv/arm64/dev"; "/srv/arm64"; "/srv"; "/"]}.
Proof. apply set_eq. intros d. vm_compute. set_solver. Qed.

(** X7: for a destination that was absent, the file exists afterwards exactly
    when the call resolved: a call that rejects or never settles, for whatever
    reason, leaves nothing at the destination. *)
Theorem X7_destination_appears_only_on_success (net : list NetEvent) (url : Value)
    (destinationPath : string) (w : World) :
  files w !! destinationPath = None ->
  is_Some (files (snd (fst (downloadFile net url destinationPath w))) !! destinationPath)
  <-> fst (fst (downloadFile net url destinationPath w)) = Return destinationPath.
Proof.
  intros Habsent.
  destruct (downloadFile_effect net url destinationPath w) as (_ & _ & Hfailed & _).
  pose proof (downloadFile_resolved net url destinationPath w) as Hresolved.
  destruct (downloadFile net url destinationPath w) as [[outcome w'] net'].
  cbn [fst snd] in *. split.
  - intros Hexists. destruct outcome as [p|error| |error].
    + by destruct (Hresolved p w' net' eq_refl) as [-> _].
    + rewrite Hfailed in Hexists by done. by destruct Hexists.
    + rewrite Hfailed in Hexists by done. by destruct Hexists.
    + rewrite Hfailed in Hexists by done. by destruct Hexists.
  - intros ->. by destruct (Hresolved destinationPath w' net' eq_refl) as (_ & Hexists & _).
Qed.

Lemma X7_destination_appears_only_on_success_witness :
  is_Some (files (snd (fst (downloadFile [GetThrows "Invalid URL"]
                              (VStr "function Object() { [native code] }/v17/x.tar.gz")
                              "/srv/x.tar.gz" emptyWorld))) !! "/srv/x.tar.gz")
  <-> fst (fst (downloadFile [GetThrows "Invalid URL"]
                  (VStr "function Object() { [native code] }/v17/x.tar.gz")
                  "/srv/x.tar.gz" emptyWorld)) = Return "/srv/x.tar.gz".
Proof.
  apply (X7_destination_appears_only_on_success [GetThrows "Invalid URL"]
           (VStr "function Object() { [native code] }/v17/x.tar.gz") "/srv/x.tar.gz"
           emptyWorld). reflexivity.
Defined.

Lemma last_cons_default (first : Value) (others : list Value) (default : Value) :
  List.last (first :: others) default = List.last others first.
Proof.
  revert first default.
  induction others as [|second others IH]; intros first default; [reflexivity|].
  change (List.last (first :: second :: others) default)
    with (List.last (second :: others) default).
  by rewrite !IH.
Qed.

(** Following redirects, with the requests they cost: one per hop, to the
    URL of the call and then to each [Location] but the last, which the next
    request goes to. *)
Lemma downloadFile_redirect_chain (redirects : list NetEvent) :
  forall url destinationPath w,
    forallb isRedirect redirects = true ->
    files w !! destinationPath = None ->
    path.dirname destinationPath ∉ denied w ->
    exists w',
      (forall net, downloadFile (redirects ++ net) url destinationPath w
                   = downloadFile net (finalTarget url redirects) destinationPath w')
      /\ files w' !! destinationPath = None
      /\ denied w' = denied w
      /\ (requests w' ++ [finalTarget url redirects]
          = requests w ++ url :: redirectTargets redirects)%list.
Proof.
  induction redirects as [|ev redirects IH]; intros url destinationPath w Hall Habsent Hmkdir.
  - exists w. repeat split; done.
  - cbn in Hall. apply andb_prop in Hall as [Hev Hall].
    destruct ev as [msg|msg|msg|statusCode location body]; try discriminate Hev.
    cbn in Hev.
    set (w1 := console_log ("🔀 重定向至: " +:+ urlText location)
                 (requestIssued url destinationPath w)).
    destruct (IH location destinationPath w1 Hall) as (w' & Hrun & Habsent' & Hden' & Hreq).
    + by apply requestIssued_absent.
    + exact Hmkdir.
    + assert (Hfinal : finalTarget url (Response statusCode location body :: redirects)
                       = finalTarget location redirects).
      { unfold finalTarget. cbn [redirectTargets flat_map app]. apply last_cons_default. }
      exists w'. rewrite Hfinal. split; [|split; [exact Habsent'|split; [exact Hden'|]]].
      * intros net. rewrite <- Hrun. cbn [app].
        rewrite downloadFile_miss by assumption. cbn zeta. rewrite Hev. reflexivity.
      * rewrite Hreq. cbn. by rewrite <- app_assoc.
Qed.

(** X8: when the last response has status 200 and its body arrives whole,
    directly or after redirects, the call resolves to the destination, the
    destination holds exactly that body, and the temporary file is gone. *)
Theorem X8_download_stores_the_body (redirects : list NetEvent) (location : Value)
    (data : string) (rest : list NetEvent) (url : Value) (destinationPath : string)
    (w : World) :
  files w !! destinationPath = None ->
  path.dirname destinationPath ∉ denied w ->
  destinationPath +:+ ".tmp" ∉ denied w ->
  forallb isRedirect redirects = true ->
  exists w',
    downloadFile (redirects ++ Response 200 location (BodyEnds data) :: rest) url
      destinationPath w
    = (Return destinationPath, w', rest)
    /\ files w' !! destinationPath = Some data
    /\ files w' !! (destinationPath +:+ ".tmp") = None.
Proof.
  intros Habsent Hmkdir Hfree Hredirects.
  destruct (downloadFile_redirect_chain redirects url destinationPath w
              Hredirects Habsent Hmkdir) as (w1 & Hrun & Habsent1 & Hden1 & _).
  rewrite Hrun, downloadFile_miss by (rewrite ?Hden1; assumption). cbn zeta.
  change ((200 =? 302)%Z || (200 =? 301)%Z) with false.
  change (negb (200 =? 200)%Z) with false. cbn iota.
  unfold fs_rename. rewrite decide_False by (by rewrite <- Hden1 in Hfree).
  assert (Hpiped : forall w2, files (pipe (destinationPath +:+ ".tmp") data w2)
                              !! (destinationPath +:+ ".tmp") = Some data)
    by (intros w2; apply lookup_insert_eq).
  rewrite Hpiped. eexists. split; [reflexivity|].
  cbn [console_log set_files files]. split.
  - apply lookup_insert_eq.
  - rewrite lookup_insert_ne by (apply not_eq_sym, tempPath_ne). apply lookup_delete_eq.
Qed.

Lemma X8_download_stores_the_body_witness :
  exists w',
    downloadFile ([Response 301 (VStr "https://objects.example.org/redis") (BodyEnds "")]
                  ++ Response 200 VUndefined (BodyEnds "REDIS5") :: [])
      (VStr "https://example.org/redis") "/srv/redis.zip" emptyWorld
    = (Return "/srv/redis.zip", w', [])
    /\ files w' !! "/srv/redis.zip" = Some "REDIS5"
    /\ files w' !! ("/srv/redis.zip" +:+ ".tmp") = None.
Proof.
  apply (X8_download_stores_the_body
           [Response 301 (VStr "https://objects.example.org/redis") (BodyEnds "")]
           VUndefined "REDIS5" [] (VStr "https://example.org/redis") "/srv/redis.zip"
           emptyWorld);
    [reflexivity | vm_compute; set_solver | vm_compute; set_solver | reflexivity].
Defined.

(** X9: when the body has arrived whole but the rename is refused, the call
    rejects with the error of the rename, the temporary file stays in place
    with the whole body, and nothing is at the destination. *)
Theorem X9_refused_rename_leaves_temporary_file (redirects : list NetEvent)
    (location : Value) (data : string) (rest : list NetEvent) (url : Value)
    (destinationPath : string) (w : World) :
  files w !! destinationPath = None ->
  path.dirname destinationPath ∉ denied w ->
  destinationPath +:+ ".tmp" ∈ denied w ->
  forallb isRedirect redirects = true ->
  exists msg w',
    downloadFile (redirects ++ Response 200 location (BodyEnds data) :: rest) url
      destinationPath w
    = (Throw (NodeError msg), w', rest)
    /\ files w' !! (destinationPath +:+ ".tmp") = Some data
    /\ files w' !! destinationPath = None.
Proof.
  intros Habsent Hmkdir Hbusy Hredirects.
  destruct (downloadFile_redirect_chain redirects url destinationPath w
              Hredirects Habsent Hmkdir) as (w1 & Hrun & Habsent1 & Hden1 & _).
  rewrite Hrun, downloadFile_miss by (rewrite ?Hden1; assumption). cbn zeta.
  change ((200 =? 302)%Z || (200 =? 301)%Z) with false.
  change (negb (200 =? 200)%Z) with false. cbn iota.
  edestruct (rename_refused (destinationPath +:+ ".tmp") destinationPath) as [msg ->].
  { cbn [pipe set_files denied requestIssued record_request console_log createWriteStream
         withDirectory set_dirs].
    by rewrite Hden1. }
  exists msg. eexists. split; [reflexivity|]. cbn [pipe set_files files]. split.
  - apply lookup_insert_eq.
  - rewrite lookup_insert_ne by apply tempPath_ne. by apply requestIssued_absent.
Qed.

Lemma X9_refused_rename_leaves_temporary_file_witness :
  exists msg w',
    downloadFile ([] ++ Response 200 VUndefined (BodyEnds "REDIS5") :: [])
      (VStr "https://example.org/redis") "/srv/redis.zip" busyWorld
    = (Throw (NodeError msg), w', [])
    /\ files w' !! ("/srv/redis.zip" +:+ ".tmp") = Some "REDIS5"
    /\ files w' !! "/srv/redis.zip" = None.
Proof.
  apply (X9_refused_rename_leaves_temporary_file
           [] VUndefined "REDIS5" [] (VStr "https://example.org/redis") "/srv/redis.zip"
           busyWorld);
    [reflexivity | vm_compute; set_solver | vm_compute; set_solver | reflexivity].
Defined.

(** X10: when [https.get] itself throws, the call rejects with that error
    and, no ['error'] handler having been attached, the empty temporary file
    is left behind; nothing is at the destination. *)
Theorem X10_throwing_request_leaves_temporary_file (redirects : list NetEvent)
    (msg : string) (rest : list NetEvent) (url : Value) (destinationPath : string)
    (w : World) :
  files w !! destinationPath = None ->
  path.dirname destinationPath ∉ denied w ->
  forallb isRedirect redirects = true ->
  exists w',
    downloadFile (redirects ++ GetThrows msg :: rest) url destinationPath w
    = (Throw (NodeError msg), w', rest)
    /\ files w' !! (destinationPath +:+ ".tmp") = Some ""
    /\ files w' !! destinationPath = None.
Proof.
  intros Habsent Hmkdir Hredirects.
  destruct (downloadFile_redirect_chain redirects url destinationPath w
              Hredirects Habsent Hmkdir) as (w1 & Hrun & Habsent1 & Hden1 & _).
  rewrite Hrun, downloadFile_miss by (rewrite ?Hden1; assumption). cbn zeta.
  eexists. split; [reflexivity|]. split.
  - rewrite requestIssued_files. apply lookup_insert_eq.
  - by apply requestIssued_absent.
Qed.

Lemma X10_throwing_request_leaves_temporary_file_witness :
  exists w',
    downloadFile ([] ++ GetThrows "Invalid URL" :: [])
      (VStr "function Object() { [native code] }/v17/constructor-17-linux-amd64.tar.gz")
      "/srv/constructor-17-linux-amd64.tar.gz" emptyWorld
    = (Throw (NodeError "Invalid URL"), w', [])
    /\ files w' !! ("/srv/constructor-17-linux-amd64.tar.gz" +:+ ".tmp") = Some ""
    /\ files w' !! "/srv/constructor-17-linux-amd64.tar.gz" = None.
Proof.
  apply (X10_throwing_request_leaves_temporary_file [] "Invalid URL" []
           (VStr "function Object() { [native code] }/v17/constructor-17-linux-amd64.tar.gz")
           "/srv/constructor-17-linux-amd64.tar.gz" emptyWorld);
    [reflexivity | vm_compute; set_solver | reflexivity].
Defined.

(** X11: when the directory of the destination cannot be created, the call
    rejects before anything else happens: no temporary file, no request, no
    line on the console, nothing of the network script consumed. *)
Theorem X11_refused_mkdir_stops_the_call (net : list NetEvent) (url : Value)
    (destinationPath : string) (w : World) :
  files w !! destinationPath = None ->
  path.dirname destinationPath ∈ denied w ->
  exists msg, downloadFile net url destinationPath w = (Throw (NodeError msg), w, net).
Proof. apply downloadFile_mkdir_refused. Qed.

Lemma X11_refused_mkdir_stops_the_call_witness :
  exists msg,
    downloadFile [Response 200 VUndefined (BodyEnds "JDK17")]
      (VStr "https://example.org/jdk") "/srv/jdk.tar.gz" readOnlyWorld
    = (Throw (NodeError msg), readOnlyWorld, [Response 200 VUndefined (BodyEnds "JDK17")]).
Proof.
  apply (X11_refused_mkdir_stops_the_call [Response 200 VUndefined (BodyEnds "JDK17")]
           (VStr "https://example.org/jdk") "/srv/jdk.tar.gz" readOnlyWorld);
    [reflexivity | vm_compute; set_solver].
Defined.

(** X12: a call that follows redirects issues one request per hop and no
    other: first to its URL, then to the [Location] of each redirect, in
    order; the first event that is not a redirect ends the call, and the rest
    of the network script is left for later calls. *)
Theorem X12_one_request_per_hop (redirects : list NetEvent) (ev : NetEvent)
    (rest : list NetEvent) (url : Value) (destinationPath : string) (w : World) :
  files w !! destinationPath = None ->
  path.dirname destinationPath ∉ denied w ->
  forallb isRedirect redirects = true ->
  isRedirect ev = false ->
  requests (snd (fst (downloadFile (redirects ++ ev :: rest) url destinationPath w)))
  = (requests w ++ url :: redirectTargets redirects)%list
  /\ snd (downloadFile (redirects ++ ev :: rest) url destinationPath w) = rest.
Proof.
  intros Habsent Hmkdir Hredirects Hev.
  destruct (downloadFile_redirect_chain redirects url destinationPath w
              Hredirects Habsent Hmkdir) as (w1 & Hrun & Habsent1 & Hden1 & Hreq).
  rewrite Hrun, downloadFile_miss by (rewrite ?Hden1; assumption). cbn zeta.
  rewrite <- Hreq.
  set (tempPath := destinationPath +:+ ".tmp").
  set (target := finalTarget url redirects).
  assert (Hunlink : forall w2, requests (snd (fs_unlink tempPath w2)) = requests w2).
  { intros w2. by destruct (unlink_frame tempPath w2) as (_ & _ & Hr & _). }
  destruct ev as [msg|msg|msg|statusCode location body]; cbn [fst snd].
  - done.
  - by rewrite Hunlink.
  - done.
  - cbn in Hev. rewrite Hev.
    destruct (negb (statusCode =? 200)%Z); [done|].
    destruct body as [data|received msg|received]; cbn [fst snd].
    + unfold fs_rename. destruct (decide _); [done|].
      destruct (files _ !! tempPath); done.
    + by rewrite Hunlink.
    + done.
Qed.

Lemma X12_one_request_per_hop_witness :
  requests (snd (fst (downloadFile
                        ([Response 302 (VStr "https://b.example.org/jdk") (BodyEnds "");
                          Response 301 (VStr "https://c.example.org/jdk") (BodyEnds "")]
                         ++ Response 404 VUndefined (BodyEnds "")
                            :: [Response 200 VUndefined (BodyEnds "LATER")])
                        (VStr "https://a.example.org/jdk") "/srv/jdk.tar.gz" emptyWorld)))
  = (requests emptyWorld
     ++ VStr "https://a.example.org/jdk"
        :: redirectTargets
             [Response 302 (VStr "https://b.example.org/jdk") (BodyEnds "");
              Response 301 (VStr "https://c.example.org/jdk") (BodyEnds "")])%list
  /\ snd (downloadFile
            ([Response 302 (VStr "https://b.example.org/jdk") (BodyEnds "");
              Response 301 (VStr "https://c.example.org/jdk") (BodyEnds "")]
             ++ Response 404 VUndefined (BodyEnds "")
                :: [Response 200 VUndefined (BodyEnds "LATER")])
            (VStr "https://a.example.org/jdk") "/srv/jdk.tar.gz" emptyWorld)
     = [Response 200 VUndefined (BodyEnds "LATER")].
Proof.
  apply (X12_one_request_per_hop
           [Response 302 (VStr "https://b.example.org/jdk") (BodyEnds "");
            Response 301 (VStr "https://c.example.org/jdk") (BodyEnds "")]
           (Response 404 VUndefined (BodyEnds ""))
           [Response 200 VUndefined (BodyEnds "LATER")]
           (VStr "https://a.example.org/jdk") "/srv/jdk.tar.gz" emptyWorld);
    [reflexivity | vm_compute; set_solver | reflexivity | reflexivity].
Defined.

(** X20: the error the script listens for, the ['error'] event of the
    request, before the response or while the body of a 200 response is
    piped, directly or after redirects: the call rejects with that very error,
    whether or not the temporary file could be unlinked; the temporary file is
    gone when the unlink is permitted, and stays when it is refused; no file
    is created at the destination. *)
Theorem X20_request_error_cleans_up (redirects : list NetEvent) (ev : NetEvent)
    (msg : string) (rest : list NetEvent)
    (url : Value) (destinationPath : string) (w : World) :
  files w !! destinationPath = None ->
  path.dirname destinationPath ∉ denied w ->
  forallb isRedirect redirects = true ->
  requestError ev = Some msg ->
  exists w',
    downloadFile (redirects ++ ev :: rest) url destinationPath w
    = (Throw (NodeError msg), w', rest)
    /\ files w' !! destinationPath = None
    /\ (destinationPath +:+ ".tmp" ∉ denied w ->
        files w' !! (destinationPath +:+ ".tmp") = None)
    /\ (destinationPath +:+ ".tmp" ∈ denied w ->
        is_Some (files w' !! (destinationPath +:+ ".tmp"))).
Proof. apply request_error_cleans_up. Qed.

Lemma X20_request_error_cleans_up_witness :
  (exists w',
     downloadFile ([] ++ Response 200 VUndefined (BodyBreaks "PARTIAL" "ECONNRESET") :: [])
       (VStr "https://example.org/jdk") "/srv/jdk.tar.gz" emptyWorld
     = (Throw (NodeError "ECONNRESET"), w', [])
     /\ files w' !! "/srv/jdk.tar.gz" = None
     /\ ("/srv/jdk.tar.gz" +:+ ".tmp" ∉ denied emptyWorld ->
         files w' !! ("/srv/jdk.tar.gz" +:+ ".tmp") = None)
     /\ ("/srv/jdk.tar.gz" +:+ ".tmp" ∈ denied emptyWorld ->
         is_Some (files w' !! ("/srv/jdk.tar.gz" +:+ ".tmp"))))
  /\ (exists w',
        downloadFile ([] ++ RequestError "ETIMEDOUT" :: [])
          (VStr "https://example.org/jdk") "/srv/jdk.tar.gz" lockedWorld
        = (Throw (NodeError "ETIMEDOUT"), w', [])
        /\ files w' !! "/srv/jdk.tar.gz" = None
        /\ ("/srv/jdk.tar.gz" +:+ ".tmp" ∉ denied lockedWorld ->
            files w' !! ("/srv/jdk.tar.gz" +:+ ".tmp") = None)
        /\ ("/srv/jdk.tar.gz" +:+ ".tmp" ∈ denied lockedWorld ->
            is_Some (files w' !! ("/srv/jdk.tar.gz" +:+ ".tmp")))).
Proof.
  split.
  - apply (X20_request_error_cleans_up
             [] (Response 200 VUndefined (BodyBreaks "PARTIAL" "ECONNRESET")) "ECONNRESET" []
             (VStr "https://example.org/jdk") "/srv/jdk.tar.gz" emptyWorld);
      [reflexivity | vm_compute; set_solver | reflexivity | reflexivity].
  - apply (X20_request_error_cleans_up
             [] (RequestError "ETIMEDOUT") "ETIMEDOUT" []
             (VStr "https://example.org/jdk") "/srv/jdk.tar.gz" lockedWorld);
      [reflexivity | vm_compute; set_solver | reflexivity | reflexivity].
Defined.

(** X21: when the temporary file cannot be opened, the write stream emits
    ['error'] and nothing listens: the process dies while the call is
    pending, with the request issued; the promise neither resolves nor
    rejects, nothing is unlinked, and no file is created at the
    destination. *)
Theorem X21_unopened_temporary_file_kills_the_process (redirects : list NetEvent)
    (msg : string) (rest : list NetEvent) (url : Value) (destinationPath : string)
    (w : World) :
  files w !! destinationPath = None ->
  path.dirname destinationPath ∉ denied w ->
  forallb isRedirect redirects = true ->
  exists w',
    downloadFile (redirects ++ OpenFails msg :: rest) url destinationPath w
    = (Crash (NodeError msg), w', rest)
    /\ files w' !! destinationPath = None
    /\ requests w' = (requests w ++ url :: redirectTargets redirects)%list.
Proof.
  intros Habsent Hmkdir Hredirects.
  destruct (downloadFile_redirect_chain redirects url destinationPath w
              Hredirects Habsent Hmkdir) as (w1 & Hrun & Habsent1 & Hden1 & Hreq).
  rewrite Hrun, downloadFile_miss by (rewrite ?Hden1; assumption). cbn zeta.
  eexists. split; [reflexivity|]. split; [exact Habsent1|].
  by rewrite <- Hreq.
Qed.

Lemma X21_unopened_temporary_file_kills_the_process_witness :
  exists w',
    downloadFile ([] ++ OpenFails "ENAMETOOLONG: name too long, open" :: [])
      (VStr "https://example.org/jdk") "/srv/jdk.tar.gz" emptyWorld
    = (Crash (NodeError "ENAMETOOLONG: name too long, open"), w', [])
    /\ files w' !! "/srv/jdk.tar.gz" = None
    /\ requests w'
       = (requests emptyWorld ++ VStr "https://example.org/jdk" :: redirectTargets [])%list.
Proof.
  apply (X21_unopened_temporary_file_kills_the_process [] "ENAMETOOLONG: name too long, open"
           [] (VStr "https://example.org/jdk") "/srv/jdk.tar.gz" emptyWorld);
    [reflexivity | vm_compute; set_solver | reflexivity].
Defined.

(** ** The orchestrator, beyond the claims *)

(** X13: a job that succeeded, run again, succeeds with the same path from
    the cache: whatever the network would answer, no request is issued and no
    file changes. *)
Theorem X13_rerun_of_a_job_uses_the_cache (root platform arch envName componentKey : string)
    (version : Value) (net : list NetEvent) (w : World) (p : string) (w1 : World)
    (net1 net2 : list NetEvent) :
  installComponent root platform arch envName componentKey version net w
  = (Return p, w1, net1) ->
  exists w2,
    installComponent root platform arch envName componentKey version net2 w1
    = (Return p, w2, net2)
    /\ requests w2 = requests w1 /\ files w2 = files w1.
Proof.
  unfold installComponent, template. set (component := stripVersionSuffix componentKey).
  pose proof (generateDownloadLink_outcome component version platform arch w1 w) as Hsame.
  pose proof (generateDownloadLink_world component version platform arch w1) as Hworld.
  destruct (generateDownloadLink component version platform arch w1) as [again wa].
  cbn [fst snd] in Hsame, Hworld. subst again.
  destruct (generateDownloadLink component version platform arch w)
    as [[downloadUrl|error| |error] w0]; cbn [fst];
    [|destruct (ToString version); discriminate|discriminate..].
  destruct (ToString version) as [shown|] eqn:Hshown; [|discriminate].
  set (destination := destinationFile root arch envName downloadUrl).
  match goal with
  | |- context [downloadFile net ?url destination ?w3] =>
      pose proof (downloadFile_resolved net url destination w3) as Hresolved;
      destruct (downloadFile net url destination w3) as [[[p'|error| |error] w4] net4]
  end; [|discriminate..].
  intros [= -> <- <-].
  destruct (Hresolved p w4 net4 eq_refl) as (-> & [content Hexists] & _).
  assert (Hfiles : files wa = files w4) by (subst wa; by destruct (_ && _)).
  assert (Hrequests : requests wa = requests w4) by (subst wa; by destruct (_ && _)).
  rewrite downloadFile_hit by (cbn [console_log files]; rewrite Hfiles, Hexists; eauto).
  eexists. split; [reflexivity|]. cbn [console_log files requests]. by split.
Qed.

Lemma X13_rerun_of_a_job_uses_the_cache_witness :
  exists w1 w2,
    installComponent "/srv/backend" "linux" "amd64" "prod" "jdk-version" (VStr "17")
      [Response 200 VUndefined (BodyEnds "JDK17")] emptyWorld
    = (Return "/srv/backend/amd64/prod/bin/openjdk-17-linux-amd64.tar.gz", w1, [])
    /\ installComponent "/srv/backend" "linux" "amd64" "prod" "jdk-version" (VStr "17")
         [RequestError "ECONNREFUSED"] w1
       = (Return "/srv/backend/amd64/prod/bin/openjdk-17-linux-amd64.tar.gz", w2,
          [RequestError "ECONNREFUSED"])
    /\ requests w2 = requests w1 /\ files w2 = files w1.
Proof.
  set (first := installComponent "/srv/backend" "linux" "amd64" "prod" "jdk-version"
                  (VStr "17") [Response 200 VUndefined (BodyEnds "JDK17")] emptyWorld).
  exists (snd (fst first)).
  assert (Hfirst : first
                   = (Return "/srv/backend/amd64/prod/bin/openjdk-17-linux-amd64.tar.gz",
                      snd (fst first), [])) by (vm_compute; reflexivity).
  destruct (X13_rerun_of_a_job_uses_the_cache _ _ _ _ _ _ _ _ _ _ _
              [RequestError "ECONNREFUSED"] Hfirst) as (w2 & Hsecond & Hrequests & Hfiles).
  exists w2. split; [exact Hfirst|]. split; [exact Hsecond|].
  split; [exact Hrequests | exact Hfiles].
Defined.

Lemma plannedJobs_stop (before after : list (string * Value)) (envName : string)
    (envConfig : Value) :
  allEnumerable before = true -> isEnumerable envConfig = false ->
  plannedJobs (before ++ (envName, envConfig) :: after)%list = plannedJobs before.
Proof.
  intros Hbefore Hbroken.
  induction before as [|[name value] before IH].
  - cbn. unfold isEnumerable in Hbroken. by destruct (objectEntries envConfig).
  - cbn [allEnumerable forallb snd] in Hbefore. apply andb_prop in Hbefore as [Hvalue Hbefore].
    cbn [app plannedJobs]. unfold isEnumerable in Hvalue.
    destruct (objectEntries value); [|discriminate..]. by rewrite IH.
Qed.

Lemma allEnumerable_broken (before after : list (string * Value)) (envName : string)
    (envConfig : Value) :
  isEnumerable envConfig = false ->
  allEnumerable (before ++ (envName, envConfig) :: after)%list = false.
Proof.
  intros Hbroken. unfold allEnumerable. rewrite forallb_app. cbn [forallb snd].
  rewrite Hbroken. by rewrite andb_false_r.
Qed.

(** X14: an environment whose value cannot be enumerated ([null]) ends the
    whole run, and no job of a later environment is attempted. Either every
    job of the environments before it was attempted and contained, and the
    process exits with code 1; or the run had stopped before, at one of those
    jobs: one that never settled, one during which the process was killed, or
    one that threw with a version that cannot be converted. *)
Theorem X14_null_environment_ends_the_run (root : string)
    (JSON_parse : string -> Value + string) (configPath data : string) (config : Value)
    (before after : list (string * Value)) (envName : string) (envConfig : Value)
    (platform arch : string) (net : list NetEvent) (w : World) :
  files w !! configPath = Some data ->
  JSON_parse data = inl config ->
  objectEntries config = Return (before ++ (envName, envConfig) :: after)%list ->
  allEnumerable before = true ->
  isEnumerable envConfig = false ->
  let '(exit, reports, _, _) :=
    installAllSoftware root JSON_parse configPath platform arch net w in
  exit ≠ Finished
  /\ map reportJob reports `prefix_of` plannedJobs before
  /\ ((exit = ProcessExit 1
       /\ map reportJob reports = plannedJobs before
       /\ Forall contained reports)
      \/ (exists earlier r,
            reports = (earlier ++ [r])%list
            /\ Forall contained earlier
            /\ stopsAt exit r)).
Proof.
  intros Hfile Hparse Hconfig Hbefore Hbroken.
  pose proof (installAllSoftware_invariant root JSON_parse configPath data config _
                platform arch net w Hfile Hparse Hconfig) as Hinv.
  destruct (installAllSoftware root JSON_parse configPath platform arch net w)
    as [[[exit reports] w'] net'].
  destruct Hinv as (Hends & _).
  rewrite plannedJobs_stop, allEnumerable_broken in Hends by assumption.
  split; [|split; [by eapply runEnds_prefix|]].
  - destruct Hends as [(-> & _)|(earlier & r & _ & _ & Hstop & _)]; [discriminate|].
    intros ->. by destruct (stopsAt_not_finished r).
  - destruct Hends as [Hall|(earlier & r & Hreports & Hall & Hstop & _)];
      [by left | right; by exists earlier, r].
Qed.

Lemma X14_null_environment_ends_the_run_witness :
  let '(exit, reports, _, _) :=
    installAllSoftware "/srv/backend" parseBrokenConfig "/srv/backend/config.json"
      "linux" "amd64" [Response 200 VUndefined (BodyEnds "JDK17")] brokenWorld in
  exit ≠ Finished
  /\ map reportJob reports
     `prefix_of` plannedJobs [("prod", VObj [("nginx-version", VStr "1.25")])]
  /\ ((exit = ProcessExit 1
       /\ map reportJob reports
          = plannedJobs [("prod", VObj [("nginx-version", VStr "1.25")])]
       /\ Forall contained reports)
      \/ (exists earlier r,
            reports = (earlier ++ [r])%list
            /\ Forall contained earlier
            /\ stopsAt exit r)).
Proof.
  apply (X14_null_environment_ends_the_run "/srv/backend" parseBrokenConfig
           "/srv/backend/config.json" brokenConfigText brokenConfig
           [("prod", VObj [("nginx-version", VStr "1.25")])]
           [("dev", VObj [("jdk-version", VStr "17")])] "staging" VNull
           "linux" "amd64" [Response 200 VUndefined (BodyEnds "JDK17")] brokenWorld);
    reflexivity.
Defined.

(** The run of that witness, spelled out: the process exits with code 1 after
    the one job of the first environment; the jdk job of the third is not
    attempted and the network is not used. *)
Example broken_run_reports :
  let '(exit, reports, w', net') :=
    installAllSoftware "/srv/backend" parseBrokenConfig "/srv/backend/config.json"
      "linux" "amd64" [Response 200 VUndefined (BodyEnds "JDK17")] brokenWorld in
  exit = ProcessExit 1
  /\ reports = [mkReport "prod" "nginx" (VStr "1.25") (Throw (UnsupportedSoftware "nginx"))]
  /\ net' = [Response 200 VUndefined (BodyEnds "JDK17")].
Proof. vm_compute. repeat split. Qed.

(** A run that finishes writes the closing line last. *)
Lemma finished_run_closes (root platform arch : string)
    (environments : list (string * Value)) :
  forall net w,
    let '(exit, _, w', _) := installEnvironments root platform arch environments net w in
    exit = Finished ->
    List.last (console w') [] = [newline +:+ "✨ 所有软件检查完成！"].
Proof.
  induction environments as [|[envName envConfig] rest IH]; intros net w.
  - cbn. intros _. by rewrite last_last.
  - cbn [installEnvironments].
    destruct (objectEntries envConfig) as [entries|error| |error]; [|discriminate..].
    set (w0 := console_log _ w).
    destruct (installComponents root platform arch envName entries net w0)
      as [[[exit reports] w1] net1].
    destruct exit as [|code| |error]; [|discriminate..].
    specialize (IH net1 w1).
    by destruct (installEnvironments root platform arch rest net1 w1)
      as [[[exit later] w2] net2].
Qed.

Lemma planned_versions_convert (planned : list Job) (reports : list Report) (r : Report) :
  allConvertible planned = true ->
  map reportJob reports `prefix_of` planned ->
  r ∈ reports -> is_Some (ToString (r_version r)).
Proof.
  intros Hall [later ->] Hr. unfold allConvertible in Hall.
  rewrite forallb_app in Hall. apply andb_prop in Hall as [Hall _].
  rewrite forallb_forall in Hall.
  specialize (Hall (reportJob r)). cbn in Hall.
  eapply bool_decide_eq_true_1, Hall, in_map, list_elem_of_In, Hr.
Qed.

(** A run over environments that can all be enumerated, with versions that
    all convert. *)
Lemma convertible_run (root : string)
    (JSON_parse : string -> Value + string) (configPath data : string) (config : Value)
    (environments : list (string * Value)) (platform arch : string)
    (net : list NetEvent) (w : World) :
  files w !! configPath = Some data ->
  JSON_parse data = inl config ->
  objectEntries config = Return environments ->
  allEnumerable environments = true ->
  allConvertible (plannedJobs environments) = true ->
  let '(exit, reports, w', _) :=
    installAllSoftware root JSON_parse configPath platform arch net w in
  (exit = Finished
   /\ map reportJob reports = plannedJobs environments
   /\ Forall contained reports
   /\ List.last (console w') [] = [newline +:+ "✨ 所有软件检查完成！"])
  \/ (interrupted exit reports
      /\ map reportJob reports `prefix_of` plannedJobs environments).
Proof.
  intros Hfile Hparse Hconfig Hall Hconvert.
  pose proof (installAllSoftware_invariant root JSON_parse configPath data config _
                platform arch net w Hfile Hparse Hconfig) as Hinv.
  unfold installAllSoftware, readConfig in *. rewrite Hfile, Hparse, Hconfig in *.
  pose proof (finished_run_closes root platform arch environments net w) as Hcloses.
  destruct (installEnvironments root platform arch environments net w)
    as [[[exit reports] w'] net'].
  destruct Hinv as (Hends & _). rewrite Hall in Hends. cbn [negb] in Hends.
  destruct Hends as [(-> & Hplan & Hcontained)|(earlier & r & -> & Hcontained & Hstop & Hprefix)].
  - left. by repeat split; [| |apply Hcloses].
  - right. split; [|exact Hprefix]. exists earlier, r. split; [reflexivity|].
    split; [exact Hcontained|].
    assert (Hr : is_Some (ToString (r_version r))).
    { eapply planned_versions_convert; [exact Hconvert | exact Hprefix |].
      apply elem_of_app. right. by apply list_elem_of_singleton. }
    unfold stopsAt in Hstop. destruct (r_result r); [done| |done..].
    destruct Hstop as [_ Hnone]. rewrite Hnone in Hr. by destruct Hr.
Qed.

(** X15: over a configuration whose environments can all be enumerated and
    whose versions all convert to a string, no failure of a job makes the
    script exit: the run finishes, with every job attempted and contained and
    the closing line written last, unless it is interrupted at a job, by a
    download that never settles or by the death of the process (a temporary
    file that could not be opened). *)
Theorem X15_job_failures_never_exit (root : string)
    (JSON_parse : string -> Value + string) (configPath data : string) (config : Value)
    (environments : list (string * Value)) (platform arch : string)
    (net : list NetEvent) (w : World) :
  files w !! configPath = Some data ->
  JSON_parse data = inl config ->
  objectEntries config = Return environments ->
  allEnumerable environments = true ->
  allConvertible (plannedJobs environments) = true ->
  let '(exit, reports, w', _) :=
    installAllSoftware root JSON_parse configPath platform arch net w in
  (exit = Finished
   /\ map reportJob reports = plannedJobs environments
   /\ Forall contained reports
   /\ List.last (console w') [] = [newline +:+ "✨ 所有软件检查完成！"])
  \/ (interrupted exit reports
      /\ map reportJob reports `prefix_of` plannedJobs environments).
Proof. apply convertible_run. Qed.

Lemma X15_job_failures_never_exit_witness :
  let '(exit, reports, w', _) :=
    installAllSoftware "/srv/backend" parseMixedConfig "/srv/backend/config.json"
      "linux" "amd64"
      [Response 404 VUndefined (BodyEnds ""); RequestError "ECONNRESET"] mixedWorld in
  (exit = Finished
   /\ map reportJob reports
      = plannedJobs
          [("prod", VObj [("nginx-version", VStr "1.25"); ("redis-version", VStr "7")]);
           ("staging", VObj [("jdk-version", VNum "17")])]
   /\ Forall contained reports
   /\ List.last (console w') [] = [newline +:+ "✨ 所有软件检查完成！"])
  \/ (interrupted exit reports
      /\ map reportJob reports
         `prefix_of` plannedJobs
           [("prod", VObj [("nginx-version", VStr "1.25"); ("redis-version", VStr "7")]);
            ("staging", VObj [("jdk-version", VNum "17")])]).
Proof.
  apply (X15_job_failures_never_exit "/srv/backend" parseMixedConfig
           "/srv/backend/config.json" mixedConfigText mixedConfig
           [("prod", VObj [("nginx-version", VStr "1.25"); ("redis-version", VStr "7")]);
            ("staging", VObj [("jdk-version", VNum "17")])]
           "linux" "amd64"
           [Response 404 VUndefined (BodyEnds ""); RequestError "ECONNRESET"] mixedWorld);
    reflexivity.
Defined.

(** The run of that witness, spelled out: three failures, each contained,
    and the run finishes. *)
Example failing_run_finishes :
  let '(exit, reports, w', net') :=
    installAllSoftware "/srv/backend" parseMixedConfig "/srv/backend/config.json"
      "linux" "amd64"
      [Response 404 VUndefined (BodyEnds ""); RequestError "ECONNRESET"] mixedWorld in
  exit = Finished
  /\ reports
     = [ mkReport "prod" "nginx" (VStr "1.25") (Throw (UnsupportedSoftware "nginx"));
         mkReport "prod" "redis" (VStr "7") (Throw (DownloadHTTPError 404));
         mkReport "staging" "jdk" (VNum "17") (Throw (NodeError "ECONNRESET")) ]
  /\ net' = [].
Proof. vm_compute. repeat split. Qed.

Lemma unreadable_configuration (root : string)
    (JSON_parse : string -> Value + string) (configPath platform arch msg : string)
    (net : list NetEvent) (w : World) :
  readFailure JSON_parse configPath w = Some msg ->
  installAllSoftware root JSON_parse configPath platform arch net w
  = (ProcessExit 1, [],
     console_error "安装过程中发生严重错误:" msg (console_error "读取配置文件失败:" msg w),
     net).
Proof.
  unfold readFailure, installAllSoftware, readConfig.
  destruct (files w !! configPath) as [data|].
  - destruct (JSON_parse data) as [config|reason]; [discriminate|].
    intros [= ->]. reflexivity.
  - intros [= <-]. reflexivity.
Qed.

(** X16: when the configuration cannot be read (no file, or text that does
    not parse), the run ends the process with code 1 before any job: nothing
    is requested, no file changes, and the same message is written twice, by
    [readConfig] and by the outer [catch]. *)
Theorem X16_unreadable_configuration_is_fatal (root : string)
    (JSON_parse : string -> Value + string) (configPath platform arch msg : string)
    (net : list NetEvent) (w : World) :
  readFailure JSON_parse configPath w = Some msg ->
  installAllSoftware root JSON_parse configPath platform arch net w
  = (ProcessExit 1, [],
     console_error "安装过程中发生严重错误:" msg (console_error "读取配置文件失败:" msg w),
     net).
Proof. apply unreadable_configuration. Qed.

Lemma X16_unreadable_configuration_is_fatal_witness :
  installAllSoftware "/srv/backend" rejectingParse "/srv/backend/config.json"
    "linux" "amd64" [Response 200 VUndefined (BodyEnds "JDK17")] truncatedWorld
  = (ProcessExit 1, [],
     console_error "安装过程中发生严重错误:" "Unexpected end of JSON input"
       (console_error "读取配置文件失败:" "Unexpected end of JSON input" truncatedWorld),
     [Response 200 VUndefined (BodyEnds "JDK17")]).
Proof.
  apply (X16_unreadable_configuration_is_fatal "/srv/backend" rejectingParse
           "/srv/backend/config.json" "linux" "amd64" "Unexpected end of JSON input"
           [Response 200 VUndefined (BodyEnds "JDK17")] truncatedWorld).
  reflexivity.
Defined.

(** X17: [main] reads [<script directory>/config.json]; when that cannot be
    read, the first pass ends the process and the other two passes do not run:
    the failure is reported once, not three times. *)
Theorem X17_main_stops_at_the_first_exit (root : string)
    (JSON_parse : string -> Value + string) (msg : string)
    (net : list NetEvent) (w : World) :
  readFailure JSON_parse (path.join [root; "config.json"]) w = Some msg ->
  main root JSON_parse net w
  = (ProcessExit 1, [],
     console_error "安装过程中发生严重错误:" msg (console_error "读取配置文件失败:" msg w),
     net).
Proof.
  intros Hfailure. unfold main.
  by rewrite (unreadable_configuration root JSON_parse _ "linux" "amd64" msg net w Hfailure).
Qed.

Lemma X17_main_stops_at_the_first_exit_witness :
  main "/srv/backend" parseProdConfig [Response 200 VUndefined (BodyEnds "JDK17")] emptyWorld
  = (ProcessExit 1, [],
     console_error "安装过程中发生严重错误:"
       "ENOENT: no such file or directory, open '/srv/backend/config.json'"
       (console_error "读取配置文件失败:"
          "ENOENT: no such file or directory, open '/srv/backend/config.json'" emptyWorld),
     [Response 200 VUndefined (BodyEnds "JDK17")]).
Proof.
  apply (X17_main_stops_at_the_first_exit "/srv/backend" parseProdConfig
           "ENOENT: no such file or directory, open '/srv/backend/config.json'"
           [Response 200 VUndefined (BodyEnds "JDK17")] emptyWorld).
  reflexivity.
Defined.

(** X22: for every configuration that was read, how a run ends and what it
    attempted. The reports follow the jobs of the configuration in order.
    Either every job was attempted and contained (its error, if any, taken
    by the [catch] of the job and logged), and the run finishes (or exits
    with code 1 at an environment that cannot be enumerated); or the run
    stopped at the last job reported, because that job never settled, because
    the process died during it, or because it threw and its version cannot be
    converted. After a job that was contained, the next job of the
    configuration is attempted, in the same or a later environment; and each
    contained failure has its line on the console. *)
Theorem X22_contained_failures_do_not_stop_the_run (root : string)
    (JSON_parse : string -> Value + string) (configPath data : string) (config : Value)
    (environments : list (string * Value)) (platform arch : string)
    (net : list NetEvent) (w : World) :
  files w !! configPath = Some data ->
  JSON_parse data = inl config ->
  objectEntries config = Return environments ->
  let '(exit, reports, w', _) :=
    installAllSoftware root JSON_parse configPath platform arch net w in
  ((exit = (if allEnumerable environments then Finished else ProcessExit 1)
    /\ map reportJob reports = plannedJobs environments
    /\ Forall contained reports)
   \/ (exists earlier r,
         reports = (earlier ++ [r])%list
         /\ Forall contained earlier
         /\ stopsAt exit r
         /\ map reportJob reports `prefix_of` plannedJobs environments))
  /\ (forall i r job,
        reports !! i = Some r -> contained r ->
        plannedJobs environments !! S i = Some job ->
        exists next, reports !! S i = Some next /\ reportJob next = job)
  /\ (forall r error shown,
        r ∈ reports -> r_result r = Throw error -> ToString (r_version r) = Some shown ->
        failureLine r shown error ∈ console w').
Proof.
  intros Hfile Hparse Hconfig.
  pose proof (installAllSoftware_invariant root JSON_parse configPath data config _
                platform arch net w Hfile Hparse Hconfig) as Hinv.
  destruct (installAllSoftware root JSON_parse configPath platform arch net w)
    as [[[exit reports] w'] net'].
  destruct Hinv as (Hends & _ & Hlogged).
  split; [|split; [|exact Hlogged]].
  - unfold runEnds in Hends. by destruct (allEnumerable environments).
  - intros i r job. by eapply runEnds_next.
Qed.

Lemma X22_contained_failures_do_not_stop_the_run_witness :
  let '(exit, reports, w', _) :=
    installAllSoftware "/srv/backend" parseMixedConfig "/srv/backend/config.json"
      "linux" "amd64"
      [Response 404 VUndefined (BodyEnds ""); Response 200 VUndefined (BodyEnds "JDK17")]
      mixedWorld in
  ((exit = (if allEnumerable
                 [("prod", VObj [("nginx-version", VStr "1.25"); ("redis-version", VStr "7")]);
                  ("staging", VObj [("jdk-version", VNum "17")])]
            then Finished else ProcessExit 1)
    /\ map reportJob reports
       = plannedJobs
           [("prod", VObj [("nginx-version", VStr "1.25"); ("redis-version", VStr "7")]);
            ("staging", VObj [("jdk-version", VNum "17")])]
    /\ Forall contained reports)
   \/ (exists earlier r,
         reports = (earlier ++ [r])%list
         /\ Forall contained earlier
         /\ stopsAt exit r
         /\ map reportJob reports
            `prefix_of` plannedJobs
              [("prod", VObj [("nginx-version", VStr "1.25"); ("redis-version", VStr "7")]);
               ("staging", VObj [("jdk-version", VNum "17")])]))
  /\ (forall i r job,
        reports !! i = Some r -> contained r ->
        plannedJobs
          [("prod", VObj [("nginx-version", VStr "1.25"); ("redis-version", VStr "7")]);
           ("staging", VObj [("jdk-version", VNum "17")])] !! S i = Some job ->
        exists next, reports !! S i = Some next /\ reportJob next = job)
  /\ (forall r error shown,
        r ∈ reports -> r_result r = Throw error -> ToString (r_version r) = Some shown ->
        failureLine r shown error ∈ console w').
Proof.
  apply (X22_contained_failures_do_not_stop_the_run "/srv/backend" parseMixedConfig
           "/srv/backend/config.json" mixedConfigText mixedConfig
           [("prod", VObj [("nginx-version", VStr "1.25"); ("redis-version", VStr "7")]);
            ("staging", VObj [("jdk-version", VNum "17")])]
           "linux" "amd64"
           [Response 404 VUndefined (BodyEnds ""); Response 200 VUndefined (BodyEnds "JDK17")]
           mixedWorld); reflexivity.
Defined.

(** ** What a run writes *)

Lemma endsWith_refl (s : string) : endsWith s s.
Proof. by exists "". Qed.

Lemma endsWith_append (front s suffix : string) :
  endsWith s suffix -> endsWith (front +:+ s) suffix.
Proof. intros [middle ->]. exists (front +:+ middle). by rewrite append_assoc. Qed.

Lemma endsWith_trans (s middle suffix : string) :
  endsWith s middle -> endsWith middle suffix -> endsWith s suffix.
Proof. intros [front ->] Hmiddle. by apply endsWith_append. Qed.

Lemma chars_append (a b : string) :
  list_ascii_of_string (a +:+ b)
  = (list_ascii_of_string a ++ list_ascii_of_string b)%list.
Proof.
  induction a as [|c a IH]; [reflexivity|].
  rewrite append_cons. cbn [list_ascii_of_string app]. by rewrite IH.
Qed.

Lemma endsWith_lastChar (s suffix : string) :
  suffix ≠ "" -> endsWith s suffix -> lastChar s = lastChar suffix.
Proof.
  intros Hsuffix [front ->]. unfold lastChar.
  rewrite chars_append, rev_app_distr.
  destruct suffix as [|c suffix]; [done|].
  cbn [list_ascii_of_string rev].
  destruct (rev (list_ascii_of_string suffix)); reflexivity.
Qed.

(** A link the resolver returns ends in one of the two archive suffixes. *)
Lemma resolved_link_is_archive (software : string) (version : Value)
    (platform arch : string) (w : World) (downloadUrl : string) :
  fst (generateDownloadLink software version platform arch w) = Return downloadUrl ->
  endsWith downloadUrl ".zip" \/ endsWith downloadUrl ".tar.gz".
Proof.
  unfold generateDownloadLink, generateDownloadLinkIn, template.
  destruct ((software =? "redis") && (platform =? "windows"));
    (destruct (ToString version) as [shown|]; cbn [ToString fst]);
    try discriminate;
    (destruct (negb _); [discriminate|]);
    destruct (ToString (getProperty _ _)) as [shownPrefix|];
    destruct (software =? "postgresql"), (software =? "redis"), (software =? "jdk"),
      (platform =? "windows"), (platform =? "linux");
    cbn [fst]; try discriminate; intros [= <-];
    first [ left; solve [repeat first [apply endsWith_refl | apply endsWith_append]]
          | right; solve [repeat first [apply endsWith_refl | apply endsWith_append]] ].
Qed.

Lemma segments_append_noSlash (a b : string) :
  noSlash b = true ->
  exists init final,
    path.segments a = (init ++ [final])%list
    /\ path.segments (a +:+ b) = (init ++ [final +:+ b])%list.
Proof.
  intros Hb. induction a as [|c a (init & final & Ha & Hab)].
  - exists [], "". split; [reflexivity|]. by apply segments_noSlash.
  - rewrite append_cons. cbn [path.segments]. rewrite Ha, Hab.
    destruct (Ascii.eqb c "/").
    + exists ("" :: init), final. by split.
    + destruct init as [|first init]; cbn [app].
      * exists [], (String c final). by split.
      * exists (String c first :: init), final. by split.
Qed.

Lemma segments_all_noSlash (p : string) :
  Forall (fun seg => noSlash seg = true) (path.segments p).
Proof.
  induction p as [|c rest IH]; cbn [path.segments]; [by repeat constructor|].
  destruct (Ascii.eqb c "/") eqn:Hc; [by constructor|].
  pose proof (segments_nonempty rest) as Hne.
  destruct (path.segments rest) as [|seg segs]; [done|].
  inversion IH as [|? ? Hseg Hsegs]; subst. constructor; [|exact Hsegs].
  cbn [noSlash]. by rewrite Hc, Hseg.
Qed.

Lemma append_nonempty_r (a b : string) : b ≠ "" -> a +:+ b ≠ "".
Proof.
  intros Hb Heq. apply (f_equal String.length) in Heq. rewrite length_append in Heq.
  destruct b; [done|]. cbn in Heq. lia.
Qed.

(** The file name of a URL that ends in a slash-free suffix ends in it too. *)
Lemma basename_keeps_suffix (url suffix : string) :
  suffix ≠ "" -> noSlash suffix = true -> endsWith url suffix ->
  exists stem, path.basename url = stem +:+ suffix /\ noSlash stem = true.
Proof.
  intros Hnonempty Hslash [front ->].
  destruct (segments_append_noSlash front suffix Hslash) as (init & final & Hfront & Hurl).
  exists final. split.
  - unfold path.basename. rewrite Hurl, rev_app_distr. cbn [rev app].
    by rewrite filter_cons_True by (by apply append_nonempty_r).
  - pose proof (segments_all_noSlash front) as Hall. rewrite Hfront in Hall.
    apply Forall_app in Hall as [_ Hfinal]. by inversion Hfinal.
Qed.

Lemma long_name_is_plain (stem suffix : string) :
  noSlash stem = true -> noSlash suffix = true -> 3 <= String.length suffix ->
  plainSegment (stem +:+ suffix) = true.
Proof.
  intros Hstem Hsuffix Hlong. unfold plainSegment.
  rewrite noSlash_append, Hstem, Hsuffix.
  assert (Hlength : 3 <= String.length (stem +:+ suffix))
    by (rewrite length_append; lia).
  assert (Hne : forall short, String.length short < 3 -> stem +:+ suffix ≠ short).
  { intros short Hshort Heq. rewrite Heq in Hlength. lia. }
  rewrite !eqb_false by (apply Hne; cbn; lia). reflexivity.
Qed.

Lemma normalizeStep_plain (allowAboveRoot : bool) (res : list string) (seg : string) :
  plainSegment seg = true -> path.normalizeStep allowAboveRoot res seg = seg :: res.
Proof.
  unfold plainSegment, path.normalizeStep. intros Hplain.
  apply andb_prop in Hplain as [Hplain _]. apply andb_prop in Hplain as [Hplain Hdd].
  apply andb_prop in Hplain as [He Hd]. apply negb_true_iff in He, Hd, Hdd.
  by rewrite He, Hd, Hdd.
Qed.

Lemma concat_snoc (sep : string) (parts : list string) (final : string) :
  parts ≠ [] ->
  String.concat sep (parts ++ [final]) = String.concat sep parts +:+ sep +:+ final.
Proof.
  induction parts as [|first [|second parts] IH]; intros Hne; [done|reflexivity|].
  change ((first :: second :: parts) ++ [final])%list
    with (first :: second :: (parts ++ [final]))%list.
  rewrite !concat_cons.
  change (second :: (parts ++ [final]))%list with ((second :: parts) ++ [final])%list.
  rewrite IH by done. by rewrite !append_assoc.
Qed.

Lemma concat_ends (parts : list string) (final : string) :
  endsWith (String.concat "/" (parts ++ [final])) final.
Proof.
  destruct parts as [|first parts]; [apply endsWith_refl|].
  rewrite concat_snoc by done. apply endsWith_append, endsWith_append, endsWith_refl.
Qed.

(** [normalize] keeps a plain last segment last. *)
Lemma normalize_ends (p : string) (before : list string) (final : string) :
  path.segments p = (before ++ [final])%list -> plainSegment final = true ->
  endsWith (path.normalize p) final.
Proof.
  intros Hsegs Hplain.
  destruct (plainSegment_parts final Hplain) as [Hnonempty _].
  assert (Hp : p ≠ "").
  { intros ->. cbn in Hsegs. destruct before as [|? [|? ?]]; try discriminate Hsegs.
    by injection Hsegs as <-. }
  pose proof (last_plain_no_trailing_slash p before final Hsegs Hnonempty) as Hends.
  unfold path.normalize, path.normalizeString.
  rewrite (eqb_false _ _ Hp), Hends, Hsegs, fold_left_app.
  cbn [fold_left]. rewrite normalizeStep_plain by done. cbn [rev].
  match goal with
  | |- context [String.concat "/" (?kept ++ [final])] =>
      pose proof (concat_ends kept final) as Hres;
      set (res := String.concat "/" (kept ++ [final])) in *
  end.
  assert (Hres' : res ≠ "").
  { destruct Hres as [front ->]. by apply append_nonempty_r. }
  rewrite (eqb_false _ _ Hres').
  destruct (path.startsWithSlash p); [by apply endsWith_append | exact Hres].
Qed.

(** [join] keeps a plain last argument last. *)
Lemma join_ends (args : list string) (final : string) :
  plainSegment final = true -> endsWith (path.join (args ++ [final])) final.
Proof.
  intros Hplain. destruct (plainSegment_parts final Hplain) as [Hnonempty Hslash].
  unfold path.join. rewrite filter_app, (filter_cons_True _ final) by done.
  rewrite filter_nil.
  set (kept := filter (fun arg : string => arg ≠ "") args).
  destruct (kept ++ [final])%list as [|first others] eqn:Hparts.
  { by destruct kept. }
  rewrite <- Hparts.
  destruct kept as [|part kept'] eqn:Hkept.
  - apply (normalize_ends _ []); [|done]. cbn. by apply segments_noSlash.
  - rewrite <- Hkept. rewrite concat_snoc by (by rewrite Hkept).
    apply (normalize_ends _ (path.segments (String.concat "/" kept))); [|done].
    change ("/" +:+ final) with (String "/" final).
    by rewrite segments_app_slash, (segments_noSlash _ Hslash).
Qed.

(** The destination of a resolved link ends in the archive suffix of the
    link, whatever the script directory, architecture and environment. *)
Lemma destination_is_archive (root arch envName downloadUrl : string) :
  endsWith downloadUrl ".zip" \/ endsWith downloadUrl ".tar.gz" ->
  endsWith (destinationFile root arch envName downloadUrl) ".zip"
  \/ endsWith (destinationFile root arch envName downloadUrl) ".tar.gz".
Proof.
  assert (Hkeep : forall suffix,
             suffix ≠ "" -> noSlash suffix = true -> 3 <= String.length suffix ->
             endsWith downloadUrl suffix ->
             endsWith (destinationFile root arch envName downloadUrl) suffix).
  { intros suffix Hnonempty Hslash Hlong Hurl.
    destruct (basename_keeps_suffix downloadUrl suffix Hnonempty Hslash Hurl)
      as (stem & Hbase & Hstem).
    unfold destinationFile. rewrite Hbase.
    eapply endsWith_trans.
    - apply (join_ends [_]). by apply long_name_is_plain.
    - apply endsWith_append, endsWith_refl. }
  intros [Hzip|Htar]; [left|right]; (apply Hkeep; [discriminate|reflexivity|cbn; lia|done]).
Qed.

Lemma artifact_paths_differ (q destination : string) :
  ~ isArtifactPath q ->
  endsWith destination ".zip" \/ endsWith destination ".tar.gz" ->
  q ≠ destination /\ q ≠ destination +:+ ".tmp".
Proof.
  intros Hq Hdestination. split.
  - intros ->. apply Hq. destruct Hdestination; [by left | by right; left].
  - intros ->. apply Hq. right; right.
    destruct Hdestination as [[front ->]|[front ->]]; [left|right];
      exists front; by rewrite append_assoc.
Qed.


Lemma writesOnlyArtifacts_same (w w' : World) :
  files w' = files w -> dirs w' = dirs w -> writesOnlyArtifacts w w'.
Proof.
  intros Hfiles Hdirs. split; [|split].
  - intros q _. by rewrite Hfiles.
  - intros d Hd. left. by rewrite <- Hdirs.
  - by rewrite Hdirs.
Qed.

Lemma writesOnlyArtifacts_trans (w1 w2 w3 : World) :
  writesOnlyArtifacts w1 w2 -> writesOnlyArtifacts w2 w3 -> writesOnlyArtifacts w1 w3.
Proof.
  intros (Hfiles & Hnew & Hkept) (Hfiles' & Hnew' & Hkept'). split; [|split].
  - intros q Hq. by rewrite Hfiles', Hfiles.
  - intros d Hd. destruct (Hnew' d Hd) as [Hold|Hartifact]; [by apply Hnew | by right].
  - by etrans.
Qed.

(** What one download writes, when its destination is an archive. *)
Lemma downloadFile_frame (net : list NetEvent) (url : Value) (destination : string)
    (w : World) :
  endsWith destination ".zip" \/ endsWith destination ".tar.gz" ->
  writesOnlyArtifacts w (snd (fst (downloadFile net url destination w))).
Proof.
  intros Harchive.
  destruct (downloadFile_effect net url destination w) as (_ & Hframe & _ & Hdirs).
  split; [|split].
  - intros q Hq. destruct (artifact_paths_differ q _ Hq Harchive) as [Hdestination Htemp].
    by apply Hframe.
  - intros d Hd. destruct Hdirs as [Hsame|Hmade]; [left; by rewrite <- Hsame|].
    rewrite Hmade in Hd. apply elem_of_union in Hd as [Hold|Hnew]; [by left|].
    right. exists destination. split; [exact Harchive|]. by apply elem_of_list_to_set in Hnew.
  - destruct Hdirs as [->| ->]; [done | apply union_subseteq_l].
Qed.

(** What one job writes. *)
Lemma installComponent_frame (root platform arch envName componentKey : string)
    (version : Value) (net : list NetEvent) (w : World) :
  writesOnlyArtifacts w
    (snd (fst (installComponent root platform arch envName componentKey version net w))).
Proof.
  unfold installComponent, template.
  set (component := stripVersionSuffix componentKey).
  pose proof (resolved_link_is_archive component version platform arch w) as Harchive.
  pose proof (generateDownloadLink_world component version platform arch w) as Hworld.
  destruct (generateDownloadLink component version platform arch w) as [outcome w0].
  cbn [fst snd] in Harchive, Hworld.
  assert (Hkeep : forall w', files w' = files w0 -> dirs w' = dirs w0 ->
                    writesOnlyArtifacts w w').
  { intros w' Hfiles Hdirs. apply writesOnlyArtifacts_same.
    - rewrite Hfiles. subst w0. destruct (_ && _); [destruct (ToString version)|]; done.
    - rewrite Hdirs. subst w0. destruct (_ && _); [destruct (ToString version)|]; done. }
  destruct outcome as [downloadUrl|error| |error]; cbn [fst snd];
    [|destruct (ToString version); by apply Hkeep|by apply Hkeep..].
  destruct (ToString version) as [shown|]; [|by apply Hkeep].
  specialize (Harchive downloadUrl eq_refl).
  apply (destination_is_archive root arch envName) in Harchive.
  match goal with
  | |- context [downloadFile net ?url ?dest ?w3] =>
      pose proof (downloadFile_frame net url dest w3 Harchive) as Hdown;
      assert (Hbefore : writesOnlyArtifacts w w3) by (by apply Hkeep);
      destruct (downloadFile net url dest w3) as [[[p|error| |error] w4] net4]
  end; cbn [fst snd] in *;
    (eapply writesOnlyArtifacts_trans; [exact Hbefore|]);
    (eapply writesOnlyArtifacts_trans; [exact Hdown|]);
    by apply writesOnlyArtifacts_same.
Qed.

Lemma installComponents_frame (root platform arch envName : string)
    (entries : list (string * Value)) :
  forall net w,
    writesOnlyArtifacts w
      (snd (fst (installComponents root platform arch envName entries net w))).
Proof.
  induction entries as [|[componentKey version] rest IH]; intros net w;
    [by apply writesOnlyArtifacts_same|].
  cbn [installComponents].
  pose proof (installComponent_frame root platform arch envName componentKey version
                net w) as Hjob.
  destruct (installComponent root platform arch envName componentKey version net w)
    as [[attempt w1] net1]. cbn [fst snd] in Hjob.
  specialize (IH net1 w1).
  destruct (installComponents root platform arch envName rest net1 w1)
    as [[[exit reports] w2] net2]. cbn [fst snd] in IH.
  assert (Hcontinue : writesOnlyArtifacts w w2) by (by eapply writesOnlyArtifacts_trans).
  destruct attempt as [p|error| |error]; cbn [fst snd]; [done| |done..].
  destruct (ToString version); cbn [fst snd fatal]; [done|].
  eapply writesOnlyArtifacts_trans; [exact Hjob|]. by apply writesOnlyArtifacts_same.
Qed.

Lemma installEnvironments_frame (root platform arch : string)
    (environments : list (string * Value)) :
  forall net w,
    writesOnlyArtifacts w
      (snd (fst (installEnvironments root platform arch environments net w))).
Proof.
  induction environments as [|[envName envConfig] rest IH]; intros net w;
    [by apply writesOnlyArtifacts_same|].
  cbn [installEnvironments].
  destruct (objectEntries envConfig) as [entries|error| |error];
    [|by apply writesOnlyArtifacts_same..].
  set (w0 := console_log _ w).
  assert (Hheader : writesOnlyArtifacts w w0) by (by apply writesOnlyArtifacts_same).
  pose proof (installComponents_frame root platform arch envName entries net w0)
    as Hinner.
  destruct (installComponents root platform arch envName entries net w0)
    as [[[exit reports] w1] net1]. cbn [fst snd] in Hinner.
  pose proof (writesOnlyArtifacts_trans _ _ _ Hheader Hinner) as Hstopped.
  destruct exit as [|code| |error]; [|exact Hstopped..].
  specialize (IH net1 w1).
  destruct (installEnvironments root platform arch rest net1 w1)
    as [[[exit later] w2] net2]. cbn [fst snd] in *.
  exact (writesOnlyArtifacts_trans _ _ _ Hstopped IH).
Qed.

Lemma installAllSoftware_frame (root : string) (JSON_parse : string -> Value + string)
    (configPath platform arch : string) (net : list NetEvent) (w : World) :
  writesOnlyArtifacts w
    (snd (fst (installAllSoftware root JSON_parse configPath platform arch net w))).
Proof.
  unfold installAllSoftware, readConfig.
  destruct (files w !! configPath) as [data|]; [|by apply writesOnlyArtifacts_same].
  destruct (JSON_parse data) as [config|msg]; [|by apply writesOnlyArtifacts_same].
  destruct (objectEntries config) as [environments|error| |error];
    [|by apply writesOnlyArtifacts_same..].
  apply installEnvironments_frame.
Qed.


Lemma config_is_no_artifact (root : string) :
  ~ isArtifactPath (path.join [root; "config.json"]).
Proof.
  pose proof (join_ends [root] "config.json" eq_refl) as Hends.
  change ([root] ++ ["config.json"])%list with [root; "config.json"] in Hends.
  apply endsWith_lastChar in Hends; [|discriminate].
  intros [Hsuffix|[Hsuffix|[Hsuffix|Hsuffix]]];
    apply endsWith_lastChar in Hsuffix; try discriminate;
    rewrite Hends in Hsuffix; discriminate Hsuffix.
Qed.

(** The run of the mixed configuration: the configuration file is untouched,
    and the directories created are those of the two downloads. *)
Example mixed_run_store :
  let w' :=
    snd (fst (installAllSoftware "/srv/backend" parseMixedConfig
                "/srv/backend/config.json" "linux" "amd64"
                [Response 404 VUndefined (BodyEnds "");
                 Response 200 VUndefined (BodyEnds "JDK17")] mixedWorld)) in
  files w' !! "/srv/backend/config.json" = Some mixedConfigText
  /\ files w' !! "/srv/backend/amd64/staging/bin/openjdk-17-linux-amd64.tar.gz"
     = Some "JDK17"
  /\ files w' !! "/srv/backend/amd64/prod/bin/redis-7-linux-amd64.tar.gz.tmp" = Some ""
  /\ dirs w'
     = {["/"; "/srv"; "/srv/backend"; "/srv/backend/amd64";
         "/srv/backend/amd64/prod"; "/srv/backend/amd64/prod/bin";
         "/srv/backend/amd64/staging"; "/srv/backend/amd64/staging/bin"]}.
Proof.
  cbv zeta. split; [by vm_compute|]. split; [by vm_compute|]. split; [by vm_compute|].
  apply set_eq. intros d. vm_compute. set_solver.
Qed.

Lemma interrupted_app (exit : Exit) (first later : list Report) :
  Forall contained first -> interrupted exit later -> interrupted exit (first ++ later).
Proof.
  intros Hfirst (earlier & r & -> & Hearlier & Hlast).
  exists (first ++ earlier)%list, r. rewrite app_assoc.
  split; [reflexivity|]. split; [by apply Forall_app | exact Hlast].
Qed.

(** X19: [main] over a configuration whose environments can all be
    enumerated and whose versions all convert: no pass overwrites or removes
    [config.json], so each of the three passes reads the same configuration;
    [main] finishes, having attempted the jobs of the configuration three
    times over, each of them contained, unless a pass is interrupted at a job
    (a download that never settles, or the death of the process), and then
    nothing runs after that job; the configuration file is as it was. *)
Theorem X19_main_runs_the_plan_three_times (root : string)
    (JSON_parse : string -> Value + string) (data : string) (config : Value)
    (environments : list (string * Value)) (net : list NetEvent) (w : World) :
  files w !! path.join [root; "config.json"] = Some data ->
  JSON_parse data = inl config ->
  objectEntries config = Return environments ->
  allEnumerable environments = true ->
  allConvertible (plannedJobs environments) = true ->
  let '(exit, reports, w', _) := main root JSON_parse net w in
  files w' !! path.join [root; "config.json"] = Some data
  /\ ((exit = Finished
       /\ map reportJob reports
          = (plannedJobs environments ++ plannedJobs environments
             ++ plannedJobs environments)%list
       /\ Forall contained reports)
      \/ (interrupted exit reports
          /\ map reportJob reports
             `prefix_of` (plannedJobs environments ++ plannedJobs environments
                          ++ plannedJobs environments)%list)).
Proof.
  intros Hfile Hparse Hconfig Hall Hconvert. unfold main.
  set (configPath := path.join [root; "config.json"]) in *.
  set (plan := plannedJobs environments) in *.
  assert (Hpass : forall platform arch net0 w0,
             files w0 !! configPath = Some data ->
             let '(exit, reports, w', _) :=
               installAllSoftware root JSON_parse configPath platform arch net0 w0 in
             files w' !! configPath = Some data
             /\ ((exit = Finished /\ map reportJob reports = plan
                  /\ Forall contained reports)
                 \/ (exit ≠ Finished /\ interrupted exit reports
                     /\ map reportJob reports `prefix_of` plan))).
  { intros platform arch net0 w0 Hfile0.
    pose proof (convertible_run root JSON_parse configPath data config environments
                  platform arch net0 w0 Hfile0 Hparse Hconfig Hall Hconvert) as Hrun.
    destruct (installAllSoftware_frame root JSON_parse configPath platform arch net0 w0)
      as (Hframe & _).
    specialize (Hframe configPath (config_is_no_artifact root)).
    destruct (installAllSoftware root JSON_parse configPath platform arch net0 w0)
      as [[[exit reports] w'] net']. cbn [fst snd] in Hframe.
    split; [by rewrite Hframe|].
    destruct Hrun as [(-> & Hplan & Hcontained & _)|[Hstopped Hprefix]]; [by left|].
    right. split; [|done].
    destruct Hstopped as (earlier & r & _ & _ & Hlast). intros ->.
    by destruct (r_result r). }
  pose proof (Hpass "linux" "amd64" net w Hfile) as Hfirst.
  destruct (installAllSoftware root JSON_parse configPath "linux" "amd64" net w)
    as [[[exit1 first] w1] net1].
  destruct Hfirst as [Hfile1 [(-> & Hplan1 & Hall1)|(Hne & Hstopped & Hprefix)]].
  2: { assert (Hresult : (let '(exit, reports, w', _) := (exit1, first, w1, net1) in
                          files w' !! configPath = Some data
                          /\ ((exit = Finished
                               /\ map reportJob reports = (plan ++ plan ++ plan)%list
                               /\ Forall contained reports)
                              \/ (interrupted exit reports
                                  /\ map reportJob reports
                                     `prefix_of` (plan ++ plan ++ plan)%list)))).
       { split; [exact Hfile1|]. right. split; [exact Hstopped|]. by apply prefix_app_r. }
       by destruct exit1. }
  pose proof (Hpass "linux" "arm64" net1 w1 Hfile1) as Hsecond.
  destruct (installAllSoftware root JSON_parse configPath "linux" "arm64" net1 w1)
    as [[[exit2 second] w2] net2].
  destruct Hsecond as [Hfile2 [(-> & Hplan2 & Hall2)|(Hne & Hstopped & Hprefix)]].
  2: { assert (Hresult : files w2 !! configPath = Some data
                         /\ ((exit2 = Finished
                              /\ map reportJob (first ++ second)
                                 = (plan ++ plan ++ plan)%list
                              /\ Forall contained (first ++ second))
                             \/ (interrupted exit2 (first ++ second)
                                 /\ map reportJob (first ++ second)
                                    `prefix_of` (plan ++ plan ++ plan)%list))).
       { split; [exact Hfile2|]. right. split; [by apply interrupted_app|].
         rewrite map_app, Hplan1. by apply prefix_app, prefix_app_r. }
       by destruct exit2. }
  pose proof (Hpass "windows" "x64" net2 w2 Hfile2) as Hthird.
  destruct (installAllSoftware root JSON_parse configPath "windows" "x64" net2 w2)
    as [[[exit3 third] w3] net3].
  destruct Hthird as [Hfile3 [(-> & Hplan3 & Hall3)|(Hne & Hstopped & Hprefix)]].
  - split; [exact Hfile3|]. left. split; [reflexivity|].
    split; [by rewrite !map_app, Hplan1, Hplan2, Hplan3|].
    by repeat apply Forall_app_2.
  - split; [exact Hfile3|]. right. split.
    + by repeat apply interrupted_app.
    + rewrite !map_app, Hplan1, Hplan2. by repeat apply prefix_app.
Qed.

Lemma X19_main_runs_the_plan_three_times_witness :
  let '(exit, reports, w', net') :=
    main "/srv/backend" parseMixedConfig
      [Response 404 VUndefined (BodyEnds "");
       Response 200 VUndefined (BodyEnds "JDK17-amd64");
       Response 200 VUndefined (BodyEnds "REDIS7-arm64");
       RequestError "ECONNRESET";
       Response 302 (VStr "https://objects.example.org/redis-5") (BodyEnds "");
       Response 200 VUndefined (BodyEnds "REDIS5-x64");
       Response 200 VUndefined (BodyEnds "JDK17-x64")]
      mixedWorld in
  exit = Finished
  /\ length reports = 9
  /\ map reportJob reports
     = (plannedJobs
          [("prod", VObj [("nginx-version", VStr "1.25"); ("redis-version", VStr "7")]);
           ("staging", VObj [("jdk-version", VNum "17")])]
        ++ plannedJobs
             [("prod", VObj [("nginx-version", VStr "1.25"); ("redis-version", VStr "7")]);
              ("staging", VObj [("jdk-version", VNum "17")])]
        ++ plannedJobs
             [("prod", VObj [("nginx-version", VStr "1.25"); ("redis-version", VStr "7")]);
              ("staging", VObj [("jdk-version", VNum "17")])])%list
  /\ Forall contained reports
  /\ files w' !! path.join ["/srv/backend"; "config.json"] = Some mixedConfigText
  /\ net' = [].
Proof.
  set (script := [Response 404 VUndefined (BodyEnds "");
                  Response 200 VUndefined (BodyEnds "JDK17-amd64");
                  Response 200 VUndefined (BodyEnds "REDIS7-arm64");
                  RequestError "ECONNRESET";
                  Response 302 (VStr "https://objects.example.org/redis-5") (BodyEnds "");
                  Response 200 VUndefined (BodyEnds "REDIS5-x64");
                  Response 200 VUndefined (BodyEnds "JDK17-x64")]).
  pose proof (X19_main_runs_the_plan_three_times "/srv/backend" parseMixedConfig
                mixedConfigText mixedConfig
                [("prod", VObj [("nginx-version", VStr "1.25"); ("redis-version", VStr "7")]);
                 ("staging", VObj [("jdk-version", VNum "17")])]
                script mixedWorld eq_refl eq_refl eq_refl eq_refl eq_refl) as Hmain.
  assert (Hrun : fst (fst (fst (main "/srv/backend" parseMixedConfig script mixedWorld)))
                 = Finished
                 /\ length (snd (fst (fst (main "/srv/backend" parseMixedConfig script
                                             mixedWorld)))) = 9
                 /\ snd (main "/srv/backend" parseMixedConfig script mixedWorld) = [])
    by (vm_compute; repeat split).
  destruct (main "/srv/backend" parseMixedConfig script mixedWorld)
    as [[[exit reports] w'] net'].
  cbn [fst snd] in Hrun. destruct Hrun as (-> & Hlength & ->).
  destruct Hmain as [Hfile [(_ & Hplan & Hall)|[Hstopped _]]].
  - by repeat split.
  - destruct Hstopped as (earlier & r & _ & _ & Hlast). by destruct (r_result r).
Defined.

(** ** Strings as configuration values *)

(** A string is enumerated by its UTF-16 code units: a character outside
    the basic plane counts for two. *)
Example codeUnits_examples :
  codeUnits "v17" = ["v"; "1"; "7"]
  /\ length (codeUnits "é中") = 2
  /\ length (codeUnits "😀") = 2
  /\ objectEntries (VStr "é7") = Return [("0", VStr "é"); ("1", VStr "7")].
Proof. repeat split. Qed.
